(** * pwfz: search a Passwork vault, pick an entry with fzf, copy its secret

    A shallow embedding of [pwfz.go].  Go strings are byte sequences and are
    modelled as [string] (a list of 8-bit [ascii]); [int] values are [Z];
    slices are lists.  The parts of the Go standard library the program calls
    ([strings], [fmt.Sprintf] with the [%s] verb, [encoding/base64],
    [sort.Slice]) are embedded first, then the program itself. *)

From Stdlib Require Import ZArith List String Ascii Bool Lia.
From Stdlib Require Import Permutation Sorted.
Import ListNotations.

Local Open Scope Z_scope.
Local Open Scope list_scope.
Local Open Scope string_scope.

(* ------------------------------------------------------------------------- *)
(** ** Bytes and runes *)
(* ------------------------------------------------------------------------- *)

Definition byte_val (c : ascii) : Z := Z.of_N (N_of_ascii c).

(** [byte(x)]: conversion of an unsigned integer to [byte] keeps the low
    eight bits. *)
Definition to_byte (x : Z) : ascii := ascii_of_N (Z.to_N (Z.land x 0xFF)).

Definition bytes (s : string) : list ascii := list_ascii_of_string s.
Definition str (l : list ascii) : string := string_of_list_ascii l.

Definition tab : ascii := ascii_of_N 9.
Definition newline : ascii := ascii_of_N 10.
Definition carriage_return : ascii := ascii_of_N 13.

Module utf8.
Local Open Scope Z_scope.

Definition RuneError : Z := 0xFFFD.
Definition RuneSelf : Z := 0x80.

(** The table [first] of [unicode/utf8], as (size, accept.lo, accept.hi);
    [None] is the entry [xx] of an invalid leading byte.  ASCII bytes are
    handled by the caller. *)
Definition first (s0 : Z) : option (nat * Z * Z) :=
  if (0xC2 <=? s0) && (s0 <=? 0xDF) then Some (2%nat, 0x80, 0xBF)
  else if s0 =? 0xE0 then Some (3%nat, 0xA0, 0xBF)
  else if (0xE1 <=? s0) && (s0 <=? 0xEC) then Some (3%nat, 0x80, 0xBF)
  else if s0 =? 0xED then Some (3%nat, 0x80, 0x9F)
  else if (0xEE <=? s0) && (s0 <=? 0xEF) then Some (3%nat, 0x80, 0xBF)
  else if s0 =? 0xF0 then Some (4%nat, 0x90, 0xBF)
  else if (0xF1 <=? s0) && (s0 <=? 0xF3) then Some (4%nat, 0x80, 0xBF)
  else if s0 =? 0xF4 then Some (4%nat, 0x80, 0x8F)
  else None.

Definition is_cont (b : Z) : bool := (0x80 <=? b) && (b <=? 0xBF).

(** [utf8.DecodeRuneInString]: the first rune of [s] and its width. *)
Definition DecodeRuneInString (s : list ascii) : Z * nat :=
  match s with
  | [] => (RuneError, 0%nat)
  | c0 :: t0 =>
    let s0 := byte_val c0 in
    if s0 <? RuneSelf then (s0, 1%nat)
    else
      match first s0 with
      | None => (RuneError, 1%nat)
      | Some (sz, lo, hi) =>
        if (List.length s <? sz)%nat then (RuneError, 1%nat)
        else
          match t0 with
          | [] => (RuneError, 1%nat)
          | c1 :: t1 =>
            let s1 := byte_val c1 in
            if (s1 <? lo) || (hi <? s1) then (RuneError, 1%nat)
            else if (sz <=? 2)%nat then
              (Z.lor (Z.shiftl (Z.land s0 0x1F) 6) (Z.land s1 0x3F), 2%nat)
            else
              match t1 with
              | [] => (RuneError, 1%nat)
              | c2 :: t2 =>
                let s2 := byte_val c2 in
                if negb (is_cont s2) then (RuneError, 1%nat)
                else if (sz <=? 3)%nat then
                  (Z.lor (Z.lor (Z.shiftl (Z.land s0 0x0F) 12)
                                (Z.shiftl (Z.land s1 0x3F) 6))
                         (Z.land s2 0x3F), 3%nat)
                else
                  match t2 with
                  | [] => (RuneError, 1%nat)
                  | c3 :: _ =>
                    let s3 := byte_val c3 in
                    if negb (is_cont s3) then (RuneError, 1%nat)
                    else
                      (Z.lor (Z.lor (Z.lor (Z.shiftl (Z.land s0 0x07) 18)
                                           (Z.shiftl (Z.land s1 0x3F) 12))
                                    (Z.shiftl (Z.land s2 0x3F) 6))
                             (Z.land s3 0x3F), 4%nat)
                  end
              end
          end
      end
  end.

Definition RuneStart (b : ascii) : bool :=
  negb (Z.land (byte_val b) 0xC0 =? 0x80).

(** [utf8.DecodeLastRuneInString], on the bytes of the string in reverse
    order ([rs] holds the last byte first).  The Go code looks back over at
    most [UTFMax] bytes for the nearest rune start, decodes forward from it
    and accepts the rune only when it ends exactly at the end of the
    string. *)
Definition DecodeLastRuneInString (rs : list ascii) : Z * nat :=
  let check (cand : list ascii) (k : nat) :=
    let '(r, size) := DecodeRuneInString cand in
    if (size =? k)%nat then (r, size) else (RuneError, 1%nat) in
  match rs with
  | [] => (RuneError, 0%nat)
  | c :: rest =>
    if byte_val c <? RuneSelf then (byte_val c, 1%nat)
    else
      match rest with
      | [] => (RuneError, 1%nat)
      | b2 :: rest2 =>
        if RuneStart b2 then check [b2; c] 2%nat
        else
          match rest2 with
          | [] => (RuneError, 1%nat)
          | b3 :: rest3 =>
            if RuneStart b3 then check [b3; b2; c] 3%nat
            else
              match rest3 with
              | [] => (RuneError, 1%nat)
              | b4 :: _ =>
                if RuneStart b4 then check [b4; b3; b2; c] 4%nat
                else (RuneError, 1%nat)
              end
          end
      end
  end.

End utf8.

Module unicode.
Local Open Scope Z_scope.

(** [unicode.IsSpace]: the Latin-1 switch, then the [White_Space] range
    table. *)
Definition IsSpace (r : Z) : bool :=
  if r <=? 0xFF then
    ((0x09 <=? r) && (r <=? 0x0D)) || (r =? 0x20) || (r =? 0x85) || (r =? 0xA0)
  else
    (r =? 0x1680) || ((0x2000 <=? r) && (r <=? 0x200A))
    || (r =? 0x2028) || (r =? 0x2029) || (r =? 0x202F)
    || (r =? 0x205F) || (r =? 0x3000).

End unicode.

(* ------------------------------------------------------------------------- *)
(** ** Package [strings] *)
(* ------------------------------------------------------------------------- *)

Module strings.

Fixpoint take (n : nat) (s : string) : string :=
  match n, s with
  | S n', String c s' => String c (take n' s')
  | _, _ => ""
  end.

Fixpoint drop (n : nat) (s : string) : string :=
  match n, s with
  | S n', String _ s' => drop n' s'
  | _, _ => s
  end.

Definition HasPrefix (s prefix : string) : bool := String.prefix prefix s.

(** [strings.Index]: the index of the first instance of [substr] in [s],
    or [-1]. *)
Fixpoint Index (s substr : string) : Z :=
  if HasPrefix s substr then 0%Z
  else
    match s with
    | EmptyString => (-1)%Z
    | String _ s' =>
      let i := Index s' substr in
      if (i <? 0)%Z then (-1)%Z else (i + 1)%Z
    end.

(** [strings.Join]. *)
Fixpoint Join (elems : list string) (sep : string) : string :=
  match elems with
  | [] => ""
  | e :: rest =>
    match rest with
    | [] => e
    | _ :: _ => e ++ sep ++ Join rest sep
    end
  end.

(** The loop of [strings.Count] for a non-empty [substr]: occurrences are
    counted without overlap, from the left.  Every turn consumes at least
    one byte, so [S (length s)] turns are enough. *)
Fixpoint countLoop (fuel : nat) (s substr : string) : Z :=
  match fuel with
  | O => 0%Z
  | S fuel' =>
    let i := Index s substr in
    if (i <? 0)%Z then 0%Z
    else (1 + countLoop fuel' (drop (Z.to_nat i + String.length substr) s) substr)%Z
  end.

Definition Count (s substr : string) : Z :=
  countLoop (S (String.length s)) s substr.

(** The loop of [genSplit]: at most [n] cuts at [sep], the rest of the
    string is the last element. *)
Fixpoint genSplitLoop (n : nat) (s sep : string) : list string :=
  match n with
  | O => [s]
  | S n' =>
    let m := Index s sep in
    if (m <? 0)%Z then [s]
    else take (Z.to_nat m) s
           :: genSplitLoop n' (drop (Z.to_nat m + String.length sep) s) sep
  end.

(** [strings.SplitN] for a non-empty separator (the program passes the
    one-byte separator TAB; the [explode] branch taken for an empty
    separator is not embedded).  A negative [n] asks for every piece. *)
Definition SplitN (s sep : string) (n : Z) : list string :=
  if (n =? 0)%Z then []
  else
    let n' := if (n <? 0)%Z then Z.of_nat (String.length s) + 1
              else Z.min n (Z.of_nat (String.length s) + 1) in
    genSplitLoop (Z.to_nat (n' - 1)) s sep.

(** [trimRightByte], the path [strings.TrimRight] takes for a cutset of one
    ASCII byte; [rs] is the string reversed. *)
Fixpoint trimRightByte_rev (rs : list ascii) (c : ascii) : list ascii :=
  match rs with
  | [] => []
  | b :: rs' => if Ascii.eqb b c then trimRightByte_rev rs' c else rs
  end.

Definition trimRightByte (s : string) (c : ascii) : string :=
  str (rev (trimRightByte_rev (rev (bytes s)) c)).

Definition asciiSpace (c : ascii) : bool :=
  let b := byte_val c in
  ((0x09 <=? b) && (b <=? 0x0D) || (b =? 0x20))%Z.

(** [indexFunc s f false] followed by the slice [s[i:]]: [TrimLeftFunc]. *)
Fixpoint TrimLeftFunc (s : list ascii) (f : Z -> bool) {struct s} : list ascii :=
  match s with
  | [] => []
  | _ :: s1 =>
    let '(r, size) := utf8.DecodeRuneInString s in
    if f r then
      match size, s1 with
      | 1%nat, _ => TrimLeftFunc s1 f
      | 2%nat, _ :: s2 => TrimLeftFunc s2 f
      | 3%nat, _ :: _ :: s3 => TrimLeftFunc s3 f
      | 4%nat, _ :: _ :: _ :: s4 => TrimLeftFunc s4 f
      | _, _ => []
      end
    else s
  end.

(** [lastIndexFunc] on the reversed prefix [rs] of the string: the index of
    the last rune [r] with [f r = truth], [None] for Go's [-1]. *)
Fixpoint lastIndexFunc (rs : list ascii) (f : Z -> bool) (truth : bool)
         {struct rs} : option nat :=
  match rs with
  | [] => None
  | _ :: r1 =>
    let '(r, size) := utf8.DecodeLastRuneInString rs in
    if Bool.eqb (f r) truth then Some (List.length rs - size)%nat
    else
      match size, r1 with
      | 1%nat, _ => lastIndexFunc r1 f truth
      | 2%nat, _ :: r2 => lastIndexFunc r2 f truth
      | 3%nat, _ :: _ :: r3 => lastIndexFunc r3 f truth
      | 4%nat, _ :: _ :: _ :: r4 => lastIndexFunc r4 f truth
      | _, _ => None
      end
  end.

Definition TrimRightFunc (s : list ascii) (f : Z -> bool) : list ascii :=
  match lastIndexFunc (rev s) f false with
  | Some i =>
    if (utf8.RuneSelf <=? byte_val (nth i s zero))%Z
    then firstn (i + snd (utf8.DecodeRuneInString (skipn i s))) s
    else firstn (i + 1) s
  | None => []
  end.

Definition TrimFunc (s : list ascii) (f : Z -> bool) : list ascii :=
  TrimRightFunc (TrimLeftFunc s f) f.

(** The second loop of [TrimSpace]: [rs] is [s[start:stop]] reversed. *)
Fixpoint trimSpaceStop (rs : list ascii) : list ascii :=
  match rs with
  | [] => []
  | c :: rs' =>
    if (utf8.RuneSelf <=? byte_val c)%Z
    then TrimRightFunc (rev rs) unicode.IsSpace
    else if asciiSpace c then trimSpaceStop rs'
    else rev rs
  end.

(** The first loop of [TrimSpace], handing over to the second. *)
Fixpoint trimSpaceStart (s : list ascii) : list ascii :=
  match s with
  | [] => []
  | c :: s' =>
    if (utf8.RuneSelf <=? byte_val c)%Z then TrimFunc s unicode.IsSpace
    else if asciiSpace c then trimSpaceStart s'
    else trimSpaceStop (rev s)
  end.

(** [strings.TrimSpace]: ASCII fast path, Unicode-aware trimming as soon
    as a non-ASCII byte is met. *)
Definition TrimSpace (s : string) : string := str (trimSpaceStart (bytes s)).

End strings.

(* ------------------------------------------------------------------------- *)
(** ** [fmt.Sprintf] for string operands *)
(* ------------------------------------------------------------------------- *)

Module fmt.

(** What [Sprintf] appends for operands the format did not consume. *)
Definition extra (a : list string) : string :=
  match a with
  | [] => ""
  | _ :: _ =>
    "%!(EXTRA " ++ strings.Join (map (fun x => "string=" ++ x) a) ", " ++ ")"
  end.

(** [fmt.Sprintf] restricted to string operands and to the directives
    [%s], [%v] and [%%]; the program's [Sprintf] calls use [%s] only.
    Flags, widths and other verbs are outside the model: such a directive
    is copied through. *)
Fixpoint Sprintf (format : string) (a : list string) {struct format} : string :=
  match format with
  | EmptyString => extra a
  | String c rest =>
    if negb (Ascii.eqb c "%") then String c (Sprintf rest a)
    else
      match rest with
      | EmptyString => "%!(NOVERB)" ++ extra a
      | String v rest' =>
        if Ascii.eqb v "%" then String "%" (Sprintf rest' a)
        else if Ascii.eqb v "s" || Ascii.eqb v "v" then
          match a with
          | x :: a' => x ++ Sprintf rest' a'
          | [] => String "%" (String "!" (String v "(MISSING)")) ++ Sprintf rest' []
          end
        else String c (String v (Sprintf rest' a))
      end
  end.

End fmt.

(* ------------------------------------------------------------------------- *)
(** ** Package [encoding/base64], [StdEncoding] *)
(* ------------------------------------------------------------------------- *)

Module base64.
Local Open Scope Z_scope.

Definition encodeStd : string :=
  "ABCDEFGHIJKLMNOPQRSTUVWXYZabcdefghijklmnopqrstuvwxyz0123456789+/".

Definition StdPadding : ascii := "="%char.

(** [enc.encode[i]]. *)
Definition encode (i : Z) : ascii := nth (Z.to_nat i) (bytes encodeStd) zero.

Fixpoint index_of (c : ascii) (l : list ascii) (i : Z) : Z :=
  match l with
  | [] => 0xFF
  | x :: l' => if Ascii.eqb x c then i else index_of c l' (i + 1)
  end.

(** [enc.decodeMap[c]]: the position of [c] in the alphabet, [0xFF] for a
    byte outside it. *)
Definition decodeMap (c : ascii) : Z := index_of c (bytes encodeStd) 0.

(** [Encoding.Encode]: three source bytes give four characters; a final
    group of one or two bytes is padded with [=]. *)
Fixpoint Encode (src : list ascii) : list ascii :=
  match src with
  | [] => []
  | [b0] =>
    let val := Z.shiftl (byte_val b0) 16 in
    [encode (Z.land (Z.shiftr val 18) 0x3F);
     encode (Z.land (Z.shiftr val 12) 0x3F);
     StdPadding; StdPadding]
  | [b0; b1] =>
    let val := Z.lor (Z.shiftl (byte_val b0) 16) (Z.shiftl (byte_val b1) 8) in
    [encode (Z.land (Z.shiftr val 18) 0x3F);
     encode (Z.land (Z.shiftr val 12) 0x3F);
     encode (Z.land (Z.shiftr val 6) 0x3F);
     StdPadding]
  | b0 :: b1 :: b2 :: rest =>
    let val := Z.lor (Z.lor (Z.shiftl (byte_val b0) 16)
                            (Z.shiftl (byte_val b1) 8))
                     (byte_val b2) in
    encode (Z.land (Z.shiftr val 18) 0x3F)
      :: encode (Z.land (Z.shiftr val 12) 0x3F)
      :: encode (Z.land (Z.shiftr val 6) 0x3F)
      :: encode (Z.land val 0x3F)
      :: Encode rest
  end.

Definition EncodeToString (src : string) : string := str (Encode (bytes src)).

Definition isNewline (c : ascii) : bool :=
  Ascii.eqb c newline || Ascii.eqb c carriage_return.

Fixpoint skipNewlines (src : list ascii) : list ascii :=
  match src with
  | [] => []
  | c :: rest => if isNewline c then skipNewlines rest else src
  end.

(** The tail of [decodeQuantum]: four 6-bit values become three bytes, of
    which [dlen - 1] are output. *)
Definition quantum (d0 d1 d2 d3 : Z) (dlen : nat) : list ascii :=
  let val := Z.lor (Z.lor (Z.lor (Z.shiftl d0 18) (Z.shiftl d1 12))
                          (Z.shiftl d2 6)) d3 in
  firstn (dlen - 1)
         [to_byte (Z.shiftr val 16); to_byte (Z.shiftr val 8); to_byte val].

(** [Encoding.Decode] as the repetition of [decodeQuantum] (the 8- and
    4-byte fast paths compute the same quanta): [j] characters of the
    current quantum are in [d0 d1 d2].  Line breaks are skipped anywhere;
    [=] is legal only as the third and fourth, or the fourth, character of
    the last quantum; anything else is [CorruptInputError], here [None]. *)
Fixpoint decodeLoop (src : list ascii) (j : nat) (d0 d1 d2 : Z)
  : option (list ascii) :=
  match src with
  | [] => match j with O => Some [] | _ => None end
  | c :: rest =>
    let out := decodeMap c in
    if negb (out =? 0xFF) then
      match j with
      | 0%nat => decodeLoop rest 1 out 0 0
      | 1%nat => decodeLoop rest 2 d0 out 0
      | 2%nat => decodeLoop rest 3 d0 d1 out
      | _ => option_map (app (quantum d0 d1 d2 out 4))
                        (decodeLoop rest 0 0 0 0)
      end
    else if isNewline c then decodeLoop rest j d0 d1 d2
    else if negb (Ascii.eqb c StdPadding) then None
    else
      match j with
      | 0%nat | 1%nat => None
      | 2%nat =>
        match skipNewlines rest with
        | [] => None
        | c' :: rest' =>
          if Ascii.eqb c' StdPadding then
            match skipNewlines rest' with
            | [] => Some (quantum d0 d1 0 0 2)
            | _ :: _ => None
            end
          else None
        end
      | _ =>
        match skipNewlines rest with
        | [] => Some (quantum d0 d1 d2 0 3)
        | _ :: _ => None
        end
      end
  end.

(** [StdEncoding.DecodeString]: [Some b] for Go's [(b, nil)], [None] when
    the error is not [nil]. *)
Definition DecodeString (s : string) : option string :=
  option_map str (decodeLoop (bytes s) 0 0 0 0).

End base64.

(* ------------------------------------------------------------------------- *)
(** ** [sort.Slice] *)
(* ------------------------------------------------------------------------- *)

Module sort.

(** What [sort.Slice] asks of [less]: a strict weak ordering. *)
Definition strict_weak {A : Type} (less : A -> A -> bool) : Prop :=
  (forall a, less a a = false)
  /\ (forall a b c, less a b = true -> less b c = true -> less a c = true)
  /\ (forall a b c, less a b = false -> less b c = false -> less a c = false).

(** [sort.Slice] rearranges the elements of the slice in place so that no
    element is [less] than one before it; the order of equal elements is
    not specified (the sort is not stable, and the algorithm is chosen by
    the length of the slice).  The program is verified against this
    contract; [Slice x less] is the content of the slice after the call. *)
Class Sorter : Type := {
  Slice : forall {A : Type}, list A -> (A -> A -> bool) -> list A;
  Slice_Permutation :
    forall (A : Type) (x : list A) less, Permutation (Slice x less) x;
  Slice_sorted :
    forall (A : Type) (x : list A) less,
      strict_weak less ->
      StronglySorted (fun a b => less b a = false) (Slice x less)
}.

(** The inner loop of [insertionSortLessFunc]: the new element moves left
    past every element it is [less] than.  [rsorted] is the sorted part of
    the slice in reverse (its last element first). *)
Fixpoint insert_rev {A : Type} (less : A -> A -> bool) (x : A)
         (rsorted : list A) : list A :=
  match rsorted with
  | [] => [x]
  | p :: rsorted' =>
    if less x p then p :: insert_rev less x rsorted' else x :: rsorted
  end.

(** [insertionSortLessFunc], the algorithm [sort.Slice] runs on slices of
    at most twelve elements. *)
Definition insertionSort {A : Type} (x : list A) (less : A -> A -> bool)
  : list A :=
  rev (fold_left (fun rsorted e => insert_rev less e rsorted) x []).

End sort.

(* ------------------------------------------------------------------------- *)
(** ** Config & types *)
(* ------------------------------------------------------------------------- *)

Record Config : Type := { BaseURL : string; APIKey : string }.

Module loginResponse.
Record t : Type := mk { Status : string; Token : string (* Data.Token *) }.
End loginResponse.

Module passwordSearchHit.
Record t : Type := mk { ID : string; Name : string }.
End passwordSearchHit.

Module passwordSearchResponse.
Record t : Type := mk { Status : string; Data : list passwordSearchHit.t }.
End passwordSearchResponse.

Module pathSegment.
Record t : Type := mk { Order : Z; Name : string; Type_ : string; ID : string }.
End pathSegment.

Module customField.
Record t : Type := mk { Name : string; Value : string; Type_ : string }.
End customField.

Module attachmentInfo.
Record t : Type := mk { Name : string; ID : string; EncryptedKey : string }.
End attachmentInfo.

Record passwordDetail : Type := {
  VaultID : string;
  ID : string;
  Name : string;
  Login : string;
  URL : string;
  CryptedPassword : string;
  Tags : list string;
  Color : Z;
  Path : list pathSegment.t;
  Custom : list customField.t;
  Attachments : list attachmentInfo.t
}.

Module passwordGetResponse.
Record t : Type := mk { Status : string; Data : passwordDetail }.
End passwordGetResponse.

(** The record [p] after the elements of the backing array of [p.Path] have
    been rearranged into [path]: a [passwordDetail] passed by value shares
    that array with the caller's copy. *)
Definition with_Path (p : passwordDetail) (path : list pathSegment.t)
  : passwordDetail :=
  {| VaultID := VaultID p; ID := ID p; Name := Name p; Login := Login p;
     URL := URL p; CryptedPassword := CryptedPassword p; Tags := Tags p;
     Color := Color p; Path := path; Custom := Custom p;
     Attachments := Attachments p |}.

(* ------------------------------------------------------------------------- *)
(** ** formatting helpers *)
(* ------------------------------------------------------------------------- *)

Definition orDash (s : string) : string :=
  if String.eqb (strings.TrimSpace s) "" then "-" else s.

Definition orEmpty (s : string) : string :=
  if String.eqb (strings.TrimSpace s) "" then "" else s.

Definition decodeB64OrRaw (s : string) : string :=
  match base64.DecodeString s with
  | None => s
  | Some b => b
  end.

(** One iteration of the loop of [formatDescription]. *)
Definition descriptionStep (parts : list string) (c : customField.t)
  : list string :=
  let name := strings.TrimSpace (decodeB64OrRaw (customField.Name c)) in
  let val := strings.TrimSpace (decodeB64OrRaw (customField.Value c)) in
  if String.eqb name "" && String.eqb val "" then parts
  else if String.eqb name "" then parts ++ [val]
  else if String.eqb val "" then parts ++ [name]
  else parts ++ [fmt.Sprintf "%s=%s" [name; val]].

Definition formatDescription (custom : list customField.t) : string :=
  if (List.length custom =? 0)%nat then ""
  else
    let parts := fold_left descriptionStep custom [] in
    strings.Join parts "; ".

(** The comparison handed to [sort.Slice] by [formatPath]. *)
Definition lessOrder (a b : pathSegment.t) : bool :=
  (pathSegment.Order a <? pathSegment.Order b)%Z.

(** One iteration of the loop of [formatPath]. *)
Definition namesStep (names : list string) (p : pathSegment.t) : list string :=
  if negb (String.eqb (pathSegment.Name p) "")
  then names ++ [pathSegment.Name p] else names.

(** [formatPath] sorts its argument in place: the result is the string
    together with the content of the caller's slice after the call. *)
Definition formatPath `{sort.Sorter} (path : list pathSegment.t)
  : string * list pathSegment.t :=
  if (List.length path =? 0)%nat then ("-", path)
  else
    let path := sort.Slice path lessOrder in
    let names := fold_left namesStep path [] in
    if (List.length names =? 0)%nat then ("-", path)
    else (strings.Join names " / ", path).

Definition displayFormat : string := "%s | %s | %s | %s | %s".

(** The Go literal ["%s\t%s"]. *)
Definition lineFormat : string := "%s" ++ String tab "%s".

(** [buildFzfLine]: the line, and the caller's record after the call. *)
Definition buildFzfLine `{sort.Sorter} (p : passwordDetail)
  : string * passwordDetail :=
  let name := Name p in
  let name := if String.eqb name "" then "(no title)" else name in
  let '(pathStr, path) := formatPath (Path p) in
  let desc := formatDescription (Custom p) in
  let display :=
    fmt.Sprintf displayFormat
                [name; pathStr; orEmpty (Login p); orEmpty (URL p); desc] in
  (fmt.Sprintf lineFormat [ID p; display], with_Path p path).

(* ------------------------------------------------------------------------- *)
(** ** The process and its collaborators *)
(* ------------------------------------------------------------------------- *)

(** Operands of an error or a message; their rendering by [%d], [%q] and
    [%v] is not part of the model, so formats are kept with their operands
    (and written as in the source, escapes included). *)
Inductive value : Type :=
| VInt (n : Z)
| VStr (s : string).

Inductive error : Type :=
| errors_New (text : string)
| fmt_Errorf (format : string) (a : list value)
| foreign (e : string).  (* made by net/http, encoding/json or os/exec *)

Inductive operand : Type :=
| OStr (s : string)
| OErr (e : error).

Inductive stream : Type := Stdout | Stderr.

(** What the process does to the outside, in order: HTTP requests, lines
    on its own output streams, and commands run with a given input.  What a
    command itself writes to the terminal is not part of the trace. *)
Inductive event : Type :=
| Request (method url : string)
| Fprintln (f : stream) (text : string)
| Fprintf (f : stream) (format : string) (a : list operand)
| Run (argv : list string) (stdin : string).

(** The answer to one HTTP request: no response at all, or a status code
    with the body and what [json.Decoder.Decode] makes of the body. *)
Inductive httpReply (A : Type) : Type :=
| NoResponse (e : string)
| Response (StatusCode : Z) (body : string) (decoded : string + A).
Arguments NoResponse {A} e.
Arguments Response {A} StatusCode body decoded.

(** Everything [main] reads from outside the program. *)
Record World : Type := {
  Args : list string;                       (* os.Args[1:] *)
  Getenv : string -> string;
  GOOS : string;
  LookPath : string -> bool;                (* err == nil *)
  postLogin : string -> httpReply loginResponse.t;
  postSearch : string -> string -> string -> httpReply passwordSearchResponse.t;
  getDetail : nat -> string -> string -> httpReply passwordGetResponse.t;
  runSelector : list string -> string -> string + string;
  runClipboard : list string -> string -> option string
}.

(** Either the computation goes on with a value, or the process has ended
    with an exit status ([os.Exit], or [return] from [main]). *)
Inductive outcome (A : Type) : Type :=
| Done (a : A)
| Exited (code : Z).
Arguments Done {A} a.
Arguments Exited {A} code.

Definition proc (A : Type) : Type := list event * outcome A.

Definition ret {A : Type} (a : A) : proc A := ([], Done a).

Definition bind {A B : Type} (m : proc A) (k : A -> proc B) : proc B :=
  match m with
  | (t, Done a) => let '(t', o) := k a in ((t ++ t')%list, o)
  | (t, Exited code) => (t, Exited code)
  end.

Definition emit (e : event) : proc unit := ([e], Done tt).

Definition os_Exit {A : Type} (code : Z) : proc A := ([], Exited code).

(** [return] from [main]: the process ends with status 0. *)
Definition return_ {A : Type} : proc A := ([], Exited 0%Z).

Declare Scope proc_scope.
Delimit Scope proc_scope with proc.
Notation "x <- m ;; k" := (bind m (fun x => k))
  (at level 100, m at next level, right associativity) : proc_scope.
Notation "m ;; k" := (bind m (fun _ => k))
  (at level 100, right associativity) : proc_scope.
Local Open Scope proc_scope.

(* ------------------------------------------------------------------------- *)
(** ** HTTP helpers *)
(* ------------------------------------------------------------------------- *)

Definition StatusOK : Z := 200.

(** [io.ReadAll(io.LimitReader(resp.Body, 4096))]. *)
Definition limitBody (body : string) : string := strings.take 4096 body.

Definition login (w : World) (cfg : Config) : proc (error + string) :=
  if String.eqb (APIKey cfg) "" then
    ret (inl (errors_New "PASSWORK_API_KEY is not set"))
  else
    let url := strings.trimRightByte (BaseURL cfg) "/" ++ "/auth/login/"
               ++ APIKey cfg in
    emit (Request "POST" url) ;;
    match postLogin w url with
    | NoResponse e => ret (inl (foreign e))
    | Response code body decoded =>
      if negb (code =? StatusOK)%Z then
        ret (inl (fmt_Errorf "login failed: status=%d body=%s"
                             [VInt code; VStr (limitBody body)]))
      else
        match decoded with
        | inl e => ret (inl (foreign e))
        | inr lr =>
          if negb (String.eqb (loginResponse.Status lr) "success")
             || String.eqb (loginResponse.Token lr) ""
          then ret (inl (fmt_Errorf "login failed: status=%s token empty"
                                    [VStr (loginResponse.Status lr)]))
          else ret (inr (loginResponse.Token lr))
        end
    end.

Definition searchPasswords (w : World) (cfg : Config) (token query : string)
  : proc (error + list passwordSearchHit.t) :=
  let url := strings.trimRightByte (BaseURL cfg) "/" ++ "/passwords/search" in
  emit (Request "POST" url) ;;
  match postSearch w url token query with
  | NoResponse e => ret (inl (foreign e))
  | Response code body decoded =>
    if negb (code =? StatusOK)%Z then
      ret (inl (fmt_Errorf "search failed: status=%d body=%s"
                           [VInt code; VStr (limitBody body)]))
    else
      match decoded with
      | inl e => ret (inl (foreign e))
      | inr sr =>
        if negb (String.eqb (passwordSearchResponse.Status sr) "success")
        then ret (inl (fmt_Errorf "search failed: status=%s"
                                  [VStr (passwordSearchResponse.Status sr)]))
        else ret (inr (passwordSearchResponse.Data sr))
      end
  end.

(** [getPassword]; [k] counts the detail requests made so far, so that two
    requests for one id may be answered differently. *)
Definition getPassword (w : World) (cfg : Config) (token id : string) (k : nat)
  : proc (error + passwordDetail) :=
  let url := strings.trimRightByte (BaseURL cfg) "/" ++ "/passwords/" ++ id in
  emit (Request "GET" url) ;;
  match getDetail w k url token with
  | NoResponse e => ret (inl (foreign e))
  | Response code body decoded =>
    if negb (code =? StatusOK)%Z then
      ret (inl (fmt_Errorf "get password %s failed: status=%d body=%s"
                           [VStr id; VInt code; VStr (limitBody body)]))
    else
      match decoded with
      | inl e => ret (inl (foreign e))
      | inr gr =>
        if negb (String.eqb (passwordGetResponse.Status gr) "success")
        then ret (inl (fmt_Errorf "get password %s failed: status=%s"
                                  [VStr id; VStr (passwordGetResponse.Status gr)]))
        else ret (inr (passwordGetResponse.Data gr))
      end
  end.

(* ------------------------------------------------------------------------- *)
(** ** fzf & clipboard helpers *)
(* ------------------------------------------------------------------------- *)

Definition fzfArgs : list string :=
  ["--with-nth=2.."; "--height=15"; "--style=minimal"; "--color=dark";
   "--delimiter=" ++ String tab ""].

(** The command line of the selector. *)
Definition fzfCommand (w : World) : list string :=
  let fzf := Getenv w "FZF_BIN" in
  let fzf := if String.eqb fzf "" then "fzf" else fzf in
  fzf :: fzfArgs.

Definition runFzf (w : World) (lines : list string) : proc (error + string) :=
  let argv := fzfCommand w in
  let stdin := strings.Join lines (String newline "") in
  emit (Run argv stdin) ;;
  match runSelector w argv stdin with
  | inl e => ret (inl (foreign e))
  | inr out => ret (inr (strings.TrimSpace out))
  end.

(** [None] is the [nil] slice. *)
Definition detectClipboardCommand (w : World) : option (list string) :=
  let bin := Getenv w "CLIP_BIN" in
  if negb (String.eqb bin "") then Some [bin]
  else if String.eqb (GOOS w) "darwin" then Some ["pbcopy"]
  else if String.eqb (GOOS w) "linux" then
    if LookPath w "wl-copy" then Some ["wl-copy"]
    else if LookPath w "xclip" then Some ["xclip"; "-selection"; "clipboard"]
    else None
  else None.

(** [None] is the [nil] error. *)
Definition copyToClipboard (w : World) (text : string) : proc (option error) :=
  match detectClipboardCommand w with
  | None =>
    ret (Some (errors_New
      "no clipboard command found (set CLIP_BIN or install pbcopy/xclip/wl-copy)"))
  | Some cmdArgs =>
    emit (Run cmdArgs text) ;;
    ret (option_map foreign (runClipboard w cmdArgs text))
  end.

(* ------------------------------------------------------------------------- *)
(** ** main *)
(* ------------------------------------------------------------------------- *)

(** The loop fetching full details for each id. *)
Fixpoint fetchDetails (w : World) (cfg : Config) (token : string)
         (hits : list passwordSearchHit.t) (k : nat)
         (details : list passwordDetail) : proc (list passwordDetail) :=
  match hits with
  | [] => ret details
  | h :: hits' =>
    r <- getPassword w cfg token (passwordSearchHit.ID h) k ;;
    match r with
    | inl err =>
      emit (Fprintf Stderr "warning: skip %s: %v\n"
                    [OStr (passwordSearchHit.ID h); OErr err]) ;;
      fetchDetails w cfg token hits' (S k) details
    | inr d => fetchDetails w cfg token hits' (S k) (details ++ [d])%list
    end
  end.

(** The loop building the lines; [buildFzfLine] is handed a copy of each
    record, whose [Path] shares its backing array with the element of
    [details], so the second component is [details] after the loop. *)
Fixpoint buildLines `{sort.Sorter} (details : list passwordDetail)
         (lines : list string) : list string * list passwordDetail :=
  match details with
  | [] => (lines, [])
  | d :: details' =>
    let '(line, d') := buildFzfLine d in
    let '(lines', rest) := buildLines details' (lines ++ [line])%list in
    (lines', d' :: rest)
  end.

(** The loop looking for the selected id; [None] is the [nil] pointer. *)
Fixpoint findChosen (details : list passwordDetail) (id : string)
  : option passwordDetail :=
  match details with
  | [] => None
  | d :: details' => if String.eqb (ID d) id then Some d else findChosen details' id
  end.

(** The last part of [main]: the secret of the chosen record is decoded
    and copied. *)
Definition copySecret (w : World) (chosen : passwordDetail) : proc unit :=
  if String.eqb (CryptedPassword chosen) "" then
    emit (Fprintf Stderr "selected entry has empty cryptedPassword\n" []) ;;
    os_Exit 1
  else
  let raw := CryptedPassword chosen in
  raw <- match base64.DecodeString raw with
         | None =>
           emit (Fprintf Stderr
             "warning: cannot base64-decode cryptedPassword, copying raw value: %v\n"
             [OErr (foreign "illegal base64 data")]) ;;
           ret raw
         | Some decoded => ret decoded
         end ;;
  e <- copyToClipboard w raw ;;
  match e with
  | Some err => emit (Fprintf Stderr "clipboard error: %v\n" [OErr err]) ;; os_Exit 1
  | None =>
    emit (Fprintf Stdout "Copied password for %q to clipboard.\n"
                  [OStr (Name chosen)])
  end.

(** The part of [main] that follows [runFzf]: the selected line is resolved
    against the details fetched before. *)
Definition copySelected (w : World) (details : list passwordDetail)
           (selected : string) : proc unit :=
  if String.eqb selected "" then return_
  else
  let id := nth 0 (strings.SplitN selected (String tab "") 2) "" in
  match findChosen details id with
  | None =>
    emit (Fprintf Stderr "could not find password for selected id %s\n" [OStr id]) ;;
    os_Exit 1
  | Some chosen => copySecret w chosen
  end.

Definition main `{sort.Sorter} (w : World) : proc unit :=
  let query := "" in
  let query := if (0 <? List.length (Args w))%nat
               then strings.Join (Args w) " " else query in
  let cfg := {| BaseURL := Getenv w "PASSWORK_BASE_URL";
                APIKey := Getenv w "PASSWORK_API_KEY" |} in
  if String.eqb (BaseURL cfg) "" then
    emit (Fprintln Stderr "PASSWORK_BASE_URL environment variable is not set") ;;
    os_Exit 1
  else
  r <- login w cfg ;;
  match r with
  | inl err => emit (Fprintf Stderr "login error: %v\n" [OErr err]) ;; os_Exit 1
  | inr token =>
  r <- searchPasswords w cfg token query ;;
  match r with
  | inl err => emit (Fprintf Stderr "search error: %v\n" [OErr err]) ;; os_Exit 1
  | inr hits =>
  if (List.length hits =? 0)%nat then
    emit (Fprintf Stderr "no passwords found for query %q\n" [OStr query]) ;;
    return_
  else
  details <- fetchDetails w cfg token hits 0 [] ;;
  if (List.length details =? 0)%nat then
    emit (Fprintf Stderr "no usable password entries\n" []) ;;
    return_
  else
  let '(lines, details) := buildLines details [] in
  r <- runFzf w lines ;;
  match r with
  | inl err => emit (Fprintf Stderr "fzf error: %v\n" [OErr err]) ;; os_Exit 1
  | inr selected => copySelected w details selected
  end
  end
  end.

(** The trace of the process and its exit status; falling off the end of
    [main], like [return], is status 0. *)
Definition run `{sort.Sorter} (w : World) : list event * Z :=
  match main w with
  | (t, Done _) => (t, 0%Z)
  | (t, Exited code) => (t, code)
  end.

(* ========================================================================= *)
(** * Vocabulary of the properties *)
(* ========================================================================= *)

(** The byte [c] does not occur in [s]. *)
Fixpoint free_of (c : ascii) (s : string) : Prop :=
  match s with
  | EmptyString => True
  | String x s' => x <> c /\ free_of c s'
  end.

(** The five columns of the display, as [buildFzfLine] computes them. *)
Definition columns `{sort.Sorter} (p : passwordDetail) : list string :=
  [ (if String.eqb (Name p) "" then "(no title)" else Name p);
    fst (formatPath (Path p));
    orEmpty (Login p);
    orEmpty (URL p);
    formatDescription (Custom p) ].

(** The first field of a line, as [main] takes it from the selection. *)
Definition firstField (line : string) : string :=
  nth 0 (strings.SplitN line (String tab "") 2) "".

(** The non-empty names of the segments, in the order of the list. *)
Definition nonEmptyNames (path : list pathSegment.t) : list string :=
  filter (fun n => negb (String.eqb n "")) (map pathSegment.Name path).

Definition ascending (a b : pathSegment.t) : Prop :=
  (pathSegment.Order a <= pathSegment.Order b)%Z.

(** The two halves of a custom field as they are used: decoded, then
    trimmed. *)
Definition fieldName (c : customField.t) : string :=
  strings.TrimSpace (decodeB64OrRaw (customField.Name c)).

Definition fieldValue (c : customField.t) : string :=
  strings.TrimSpace (decodeB64OrRaw (customField.Value c)).

(** The rendering of one field in the words of the specification: nothing
    when both halves are empty, else [name=value], or the half that is not
    empty. *)
Definition renderField_spec (c : customField.t) : list string :=
  match fieldName c, fieldValue c with
  | EmptyString, EmptyString => []
  | EmptyString, val => [val]
  | name, EmptyString => [name]
  | name, val => [name ++ "=" ++ val]
  end.


(** What a half of a custom field stands for, in terms of the decoder of
    the library alone: the bytes it encodes when it is valid base64, and
    the half itself when it is not. *)
Definition standsFor (half plain : string) : Prop :=
  base64.DecodeString half = Some plain
  \/ (base64.DecodeString half = None /\ plain = half).

(** [plain] lists, field by field, what the name and what the value stand
    for, each on its own. *)
Definition plainHalves (custom : list customField.t)
           (plain : list (string * string)) : Prop :=
  Forall2 (fun c nv => standsFor (customField.Name c) (fst nv)
                       /\ standsFor (customField.Value c) (snd nv))
          custom plain.

(** The fields are the base64 encodings of the halves in [plain]. *)
Definition encodedHalves (custom : list customField.t)
           (plain : list (string * string)) : Prop :=
  Forall2 (fun c nv => customField.Name c = base64.EncodeToString (fst nv)
                       /\ customField.Value c = base64.EncodeToString (snd nv))
          custom plain.

(** The rendering of one field from its plain halves, in the words of the
    specification: the halves are trimmed; nothing when both are empty,
    else [name=value], or the half that is not empty. *)
Definition render_spec (nv : string * string) : list string :=
  match strings.TrimSpace (fst nv), strings.TrimSpace (snd nv) with
  | EmptyString, EmptyString => []
  | EmptyString, val => [val]
  | name, EmptyString => [name]
  | name, val => [name ++ "=" ++ val]
  end.

Definition isRequest (e : event) : bool :=
  match e with Request _ _ => true | _ => false end.

Definition isRun (e : event) : bool :=
  match e with Run _ _ => true | _ => false end.

(** The events of the part of a run that talks to the service: requests,
    and warnings about details that could not be fetched. *)
Definition isFetchEvent (e : event) : bool :=
  match e with
  | Request _ _ => true
  | Fprintf Stderr format _ => String.eqb format "warning: skip %s: %v\n"
  | _ => false
  end.

(** Where the details of [id] are asked for. *)
Definition detailURL (cfg : Config) (id : string) : string :=
  strings.trimRightByte (BaseURL cfg) "/" ++ "/passwords/" ++ id.

(** What [getPassword] returns for the [k]-th request. *)
Definition fetched (w : World) (cfg : Config) (token id : string) (k : nat)
  : error + passwordDetail :=
  match getPassword w cfg token id k with
  | (_, Done r) => r
  | (_, Exited _) => inl (errors_New "")
  end.

(** The details that come back, in the order of the hits. *)
Fixpoint fetchedDetails (w : World) (cfg : Config) (token : string)
         (hits : list passwordSearchHit.t) (k : nat) : list passwordDetail :=
  match hits with
  | [] => []
  | h :: hits' =>
    match fetched w cfg token (passwordSearchHit.ID h) k with
    | inl _ => fetchedDetails w cfg token hits' (S k)
    | inr d => d :: fetchedDetails w cfg token hits' (S k)
    end
  end.

(** The events of the loop: a request per hit, followed by a warning when
    it failed. *)
Fixpoint fetchTrace (w : World) (cfg : Config) (token : string)
         (hits : list passwordSearchHit.t) (k : nat) : list event :=
  match hits with
  | [] => []
  | h :: hits' =>
    let id := passwordSearchHit.ID h in
    match fetched w cfg token id k with
    | inl err =>
      Request "GET" (detailURL cfg id)
        :: Fprintf Stderr "warning: skip %s: %v\n" [OStr id; OErr err]
        :: fetchTrace w cfg token hits' (S k)
    | inr _ =>
      Request "GET" (detailURL cfg id) :: fetchTrace w cfg token hits' (S k)
    end
  end.

(** The configuration and the query [main] starts from. *)
Definition cfg_of (w : World) : Config :=
  {| BaseURL := Getenv w "PASSWORK_BASE_URL";
     APIKey := Getenv w "PASSWORK_API_KEY" |}.

Definition query_of (w : World) : string :=
  if (0 <? List.length (Args w))%nat then strings.Join (Args w) " " else "".

(** Login and search went through: [t] is the trace so far. *)
Definition searched (w : World) (t : list event) (token : string)
           (hits : list passwordSearchHit.t) : Prop :=
  BaseURL (cfg_of w) <> ""
  /\ exists t1 t2,
      login w (cfg_of w) = (t1, Done (inr token))
      /\ searchPasswords w (cfg_of w) token (query_of w) = (t2, Done (inr hits))
      /\ t = (t1 ++ t2)%list.

(** The lines shown by the selector and the records behind them. *)
Definition linesOf `{sort.Sorter} (details : list passwordDetail) : list string :=
  map (fun d => fst (buildFzfLine d)) details.

Definition formatted `{sort.Sorter} (details : list passwordDetail)
  : list passwordDetail :=
  map (fun d => snd (buildFzfLine d)) details.

Definition selectorInput `{sort.Sorter} (details : list passwordDetail) : string :=
  strings.Join (linesOf details) (String newline "").

(** What [main] does once the hits are known. *)
Definition afterSearch `{sort.Sorter} (w : World) (token : string)
           (hits : list passwordSearchHit.t) : proc unit :=
  match hits with
  | [] =>
    ([Fprintf Stderr "no passwords found for query %q\n" [OStr (query_of w)]],
     Exited 0%Z)
  | _ :: _ =>
    let details := fetchedDetails w (cfg_of w) token hits 0 in
    let t := fetchTrace w (cfg_of w) token hits 0 in
    match details with
    | [] => ((t ++ [Fprintf Stderr "no usable password entries\n" []])%list,
             Exited 0%Z)
    | _ :: _ =>
      let run_fzf := Run (fzfCommand w) (selectorInput details) in
      match runSelector w (fzfCommand w) (selectorInput details) with
      | inl e =>
        ((t ++ [run_fzf; Fprintf Stderr "fzf error: %v\n" [OErr (foreign e)]])%list,
         Exited 1%Z)
      | inr out =>
        let rest := copySelected w (formatted details) (strings.TrimSpace out) in
        ((t ++ run_fzf :: fst rest)%list, snd rest)
      end
    end
  end.

(** The warning of [copySecret]; the text of the decoding error, which names
    the offending byte, is kept abstract. *)
Definition decodeWarning : event :=
  Fprintf Stderr
    "warning: cannot base64-decode cryptedPassword, copying raw value: %v\n"
    [OErr (foreign "illegal base64 data")].

(** What follows the clipboard command: a message, and the exit status. *)
Definition copyReport (w : World) (argv : list string) (text name : string)
  : proc unit :=
  match runClipboard w argv text with
  | Some e => ([Fprintf Stderr "clipboard error: %v\n" [OErr (foreign e)]],
               Exited 1%Z)
  | None => ([Fprintf Stdout "Copied password for %q to clipboard.\n" [OStr name]],
             Done tt)
  end.

Definition exitStatus {A : Type} (o : outcome A) : Z :=
  match o with Done _ => 0%Z | Exited code => code end.


Definition isSelectorError (e : event) : bool :=
  match e with
  | Fprintf Stderr format _ => String.eqb format "fzf error: %v\n"
  | _ => false
  end.

Definition skipWarning (id : string) (err : error) : event :=
  Fprintf Stderr "warning: skip %s: %v\n" [OStr id; OErr err].

(** The identifiers the selector is given: the first field of each line. *)
Definition displayedIds `{sort.Sorter} (details : list passwordDetail)
  : list string :=
  map firstField (linesOf details).

(** A byte from [0x80] up: part of a multi-byte sequence, if of any. *)
Definition highb (c : ascii) : bool := (0x80 <=? byte_val c)%Z.

(** A byte that can belong to a white-space rune: an ASCII space, or a byte
    of a multi-byte sequence. *)
Definition blankb (c : ascii) : bool := strings.asciiSpace c || highb c.

(** Where [login] and [searchPasswords] send their requests. *)
Definition loginURL (cfg : Config) : string :=
  strings.trimRightByte (BaseURL cfg) "/" ++ "/auth/login/" ++ APIKey cfg.

Definition searchURL (cfg : Config) : string :=
  strings.trimRightByte (BaseURL cfg) "/" ++ "/passwords/search".

Definition isSkipWarning (e : event) : bool :=
  match e with
  | Fprintf Stderr format _ => String.eqb format "warning: skip %s: %v\n"
  | _ => false
  end.

(** A byte the decoder accepts somewhere in its input: a character of the
    alphabet, the padding character, or a line break. *)
Definition base64Byte (c : ascii) : bool :=
  negb (base64.decodeMap c =? 0xFF)%Z
  || base64.isNewline c
  || Ascii.eqb c base64.StdPadding.

(** The bytes of [l] that are no line breaks. *)
Definition significant (l : list ascii) : list ascii :=
  filter (fun c => negb (base64.isNewline c)) l.

Definition onStdout (e : event) : bool :=
  match e with
  | Fprintln Stdout _ | Fprintf Stdout _ _ => true
  | _ => false
  end.

Definition onStderr (e : event) : bool :=
  match e with
  | Fprintln Stderr _ | Fprintf Stderr _ _ => true
  | _ => false
  end.

(** The error of [copyToClipboard] when no command is at hand. *)
Definition noClipboardCommand : error :=
  errors_New
    "no clipboard command found (set CLIP_BIN or install pbcopy/xclip/wl-copy)".

Definition clipboardError (err : error) : event :=
  Fprintf Stderr "clipboard error: %v\n" [OErr err].

Definition copied (name : string) : event :=
  Fprintf Stdout "Copied password for %q to clipboard.\n" [OStr name].

(** The warning, if any, that goes with the decoding of [secret]. *)
Definition decodeWarnings (secret : string) : list event :=
  match base64.DecodeString secret with
  | None => [decodeWarning]
  | Some _ => []
  end.

(** How a run ends once the requests and the skip warnings are over: with
    one message; with the selector and nothing else; with the selector and
    messages on the error stream; or with the selector and the clipboard
    command, which fails or not. *)
Inductive ending (w : World) : list event -> outcome unit -> Prop :=
| end_report (e : event) (code : Z) :
    onStderr e = true -> code = 0%Z \/ code = 1%Z ->
    ending w [e] (Exited code)
| end_cancelled (stdin : string) :
    ending w [Run (fzfCommand w) stdin] (Exited 0%Z)
| end_after_selector (stdin : string) (msgs : list event) (e : event) :
    forallb onStderr msgs = true -> onStderr e = true ->
    ending w (Run (fzfCommand w) stdin :: msgs ++ [e])%list (Exited 1%Z)
| end_clipboard_failed (stdin : string) (msgs : list event)
                       (argv : list string) (text e : string) :
    forallb onStderr msgs = true ->
    detectClipboardCommand w = Some argv ->
    runClipboard w argv text = Some e ->
    ending w (Run (fzfCommand w) stdin
                :: msgs ++ [Run argv text; clipboardError (foreign e)])%list
           (Exited 1%Z)
| end_copied (stdin : string) (msgs : list event)
             (argv : list string) (text name : string) :
    forallb onStderr msgs = true ->
    detectClipboardCommand w = Some argv ->
    runClipboard w argv text = None ->
    ending w (Run (fzfCommand w) stdin
                :: msgs ++ [Run argv text; copied name])%list
           (Done tt).

(* ========================================================================= *)
(** * Sample data *)
(* ========================================================================= *)

(** A record as the service returns it: path segments out of order, the
    secret and the custom fields base64-encoded. *)
Definition sample_record : passwordDetail :=
  {| VaultID := "v1"; ID := "65f0c1"; Name := "GitHub"; Login := "bob";
     URL := ""; CryptedPassword := "aGVsbG8="; Tags := []; Color := 0%Z;
     Path := [pathSegment.mk 2 "Dev" "folder" "f2";
              pathSegment.mk 1 "Team" "vault" "f1"];
     Custom := [customField.mk "bm90ZQ==" "aGk=" "text"];
     Attachments := [] |}.

(** A record whose identifier holds a TAB. *)
Definition tabbed_record : passwordDetail :=
  {| VaultID := "v1"; ID := "a" ++ String tab "b"; Name := "GitHub";
     Login := "bob"; URL := ""; CryptedPassword := "aGVsbG8="; Tags := [];
     Color := 0%Z; Path := []; Custom := []; Attachments := [] |}.

(** [sample_record] with its path in ascending order. *)
Definition sorted_record : passwordDetail :=
  with_Path sample_record
            [pathSegment.mk 1 "Team" "vault" "f1";
             pathSegment.mk 2 "Dev" "folder" "f2"].

Definition sample_env (name : string) : string :=
  if String.eqb name "PASSWORK_BASE_URL" then "https://pw.example/api/v4/"
  else if String.eqb name "PASSWORK_API_KEY" then "k3y"
  else "".

(** A world on macOS where login and search succeed; the hits, the answers
    to the detail requests and the behaviour of the selector vary. *)
Definition world_with (hits : list passwordSearchHit.t)
           (detail : nat -> httpReply passwordGetResponse.t)
           (selector : string -> string + string) : World :=
  {| Args := ["git"; "hub"];
     Getenv := sample_env;
     GOOS := "darwin";
     LookPath := fun _ => false;
     postLogin := fun _ =>
       Response 200 "" (inr (loginResponse.mk "success" "t0k3n"));
     postSearch := fun _ _ _ =>
       Response 200 "" (inr (passwordSearchResponse.mk "success" hits));
     getDetail := fun k _ _ => detail k;
     runSelector := fun _ stdin => selector stdin;
     runClipboard := fun _ _ => None |}.

Definition found (d : passwordDetail) : httpReply passwordGetResponse.t :=
  Response 200 "" (inr (passwordGetResponse.mk "success" d)).

(** One hit, fetched, and selected. *)
Definition sample_world : World :=
  world_with [passwordSearchHit.mk "65f0c1" "GitHub"]
             (fun _ => found sample_record)
             (fun stdin => inr (stdin ++ String newline "")).


Definition raw_secret_record : passwordDetail :=
  {| VaultID := "v1"; ID := "65f0c3"; Name := "Legacy"; Login := ""; URL := "";
     CryptedPassword := "hunter2"; Tags := []; Color := 0%Z; Path := [];
     Custom := []; Attachments := [] |}.



Definition sample_requests : list event :=
  [Request "POST" "https://pw.example/api/v4/auth/login/k3y";
   Request "POST" "https://pw.example/api/v4/passwords/search"].

(** Two records under one identifier, with different secrets. *)
Definition first_dup : passwordDetail :=
  {| VaultID := "v1"; ID := "dup"; Name := "First"; Login := ""; URL := "";
     CryptedPassword := "Zmlyc3Q="; Tags := []; Color := 0%Z; Path := [];
     Custom := []; Attachments := [] |}.

Definition second_dup : passwordDetail :=
  {| VaultID := "v1"; ID := "dup"; Name := "Second"; Login := ""; URL := "";
     CryptedPassword := "c2Vjb25k"; Tags := []; Color := 0%Z; Path := [];
     Custom := []; Attachments := [] |}.

Definition second_line : string := "dup" ++ String tab "Second | - |  |  | ".

(** Both are fetched; the user picks the line of the second. *)
Definition dup_world : World :=
  world_with [passwordSearchHit.mk "dup" "First";
              passwordSearchHit.mk "dup" "Second"]
             (fun k => match k with O => found first_dup | S _ => found second_dup end)
             (fun _ => inr (second_line ++ String newline "")).

Definition gone : httpReply passwordGetResponse.t :=
  Response 404 "not found" (inl "unexpected end of JSON input").

Definition goneError (id : string) : error :=
  fmt_Errorf "get password %s failed: status=%d body=%s"
             [VStr id; VInt 404; VStr "not found"].

(** The search has no hit. *)
Definition no_hits_world : World :=
  world_with [] (fun _ => gone) (fun _ => inr "").

(** Two hits, neither can be fetched. *)
Definition all_gone_world : World :=
  world_with [passwordSearchHit.mk "65f0c1" "GitHub";
              passwordSearchHit.mk "77aa02" "GitLab"]
             (fun _ => gone) (fun _ => inr "").

(** Two hits, the second cannot be fetched. *)
Definition one_gone_world : World :=
  world_with [passwordSearchHit.mk "65f0c1" "GitHub";
              passwordSearchHit.mk "77aa02" "GitLab"]
             (fun k => match k with O => found sample_record | S _ => gone end)
             (fun _ => inr "").

(** Two hits under one identifier; the first request fails, the second
    succeeds. *)
Definition flaky_world : World :=
  world_with [passwordSearchHit.mk "dup" "First";
              passwordSearchHit.mk "dup" "Second"]
             (fun k => match k with O => gone | S _ => found second_dup end)
             (fun _ => inr "").

(** U+00A0, a white-space rune of two bytes. *)
Definition nbsp : string := String (ascii_of_N 194) (String (ascii_of_N 160) "").

(** A world whose environment is [env], everything else as in
    [sample_world]. *)
Definition world_env (env : string -> string) : World :=
  {| Args := Args sample_world;
     Getenv := env;
     GOOS := GOOS sample_world;
     LookPath := LookPath sample_world;
     postLogin := postLogin sample_world;
     postSearch := postSearch sample_world;
     getDetail := getDetail sample_world;
     runSelector := runSelector sample_world;
     runClipboard := runClipboard sample_world |}.

(** Nothing is set in the environment. *)
Definition bare_world : World := world_env (fun _ => "").

(** The base URL is set, the API key is not. *)
Definition no_key_world : World :=
  world_env (fun name =>
               if String.eqb name "PASSWORK_BASE_URL"
               then "https://pw.example/api/v4" else "").

(** A body of 5000 bytes, and a world whose detail requests are answered
    with it under status 500. *)
Definition long_body : string := str (repeat "x"%char 5000).

Definition overloaded_world : World :=
  world_with [passwordSearchHit.mk "65f0c1" "GitHub"]
             (fun _ => Response 500 long_body (inl "invalid character"))
             (fun _ => inr "").

(** A Linux machine on which both clipboard tools are installed, and one on
    which neither is. *)
Definition linux_world (installed : bool) : World :=
  {| Args := [];
     Getenv := sample_env;
     GOOS := "linux";
     LookPath := fun _ => installed;
     postLogin := postLogin sample_world;
     postSearch := postSearch sample_world;
     getDetail := getDetail sample_world;
     runSelector := runSelector sample_world;
     runClipboard := runClipboard sample_world |}.

(** [sample_record] with another secret, other tags, another colour and an
    attachment. *)
Definition rotated_record : passwordDetail :=
  {| VaultID := "v2"; ID := ID sample_record; Name := Name sample_record;
     Login := Login sample_record; URL := URL sample_record;
     CryptedPassword := "c2VjcmV0"; Tags := ["old"]; Color := 3%Z;
     Path := Path sample_record; Custom := Custom sample_record;
     Attachments := [attachmentInfo.mk "key.pem" "a1" "ZW5j"] |}.

(* ========================================================================= *)
(** * Properties *)
(* ========================================================================= *)

(* ------------------------------------------------------------------------- *)
(** ** Facts about strings *)
(* ------------------------------------------------------------------------- *)

Lemma append_nil_r (s : string) : s ++ "" = s.
Proof. induction s as [|c s IH]; simpl; [reflexivity | now rewrite IH]. Qed.

Lemma append_assoc (a b c : string) : (a ++ b) ++ c = a ++ (b ++ c).
Proof. induction a as [|x a IH]; simpl; [reflexivity | now rewrite IH]. Qed.

Lemma length_append (a b : string) :
  String.length (a ++ b) = (String.length a + String.length b)%nat.
Proof. induction a as [|x a IH]; simpl; [reflexivity | now rewrite IH]. Qed.

Lemma take_append (a b : string) : strings.take (String.length a) (a ++ b) = a.
Proof. induction a as [|x a IH]; simpl; [now destruct b | now rewrite IH]. Qed.

Lemma drop_append (a b : string) : strings.drop (String.length a) (a ++ b) = b.
Proof. induction a as [|x a IH]; simpl; [now destruct b | exact IH]. Qed.

Lemma free_of_append (c : ascii) (a b : string) :
  free_of c (a ++ b) <-> free_of c a /\ free_of c b.
Proof.
  induction a as [|x a IH]; simpl; [tauto | rewrite IH; tauto].
Qed.

(** The first occurrence of a one-byte separator that the prefix does not
    contain is right after the prefix. *)
Lemma Index_byte_after (c : ascii) (a r : string) :
  free_of c a ->
  strings.Index (a ++ String c r) (String c "") = Z.of_nat (String.length a).
Proof.
  induction a as [|x a IH]; intros Hfree.
  - simpl. unfold strings.HasPrefix. simpl.
    destruct (ascii_dec c c) as [_|n]; [|congruence].
    now destruct r.
  - destruct Hfree as [Hx Hfree].
    change (String x a ++ String c r) with (String x (a ++ String c r)).
    cbn [strings.Index]. unfold strings.HasPrefix at 1. cbn [String.prefix].
    destruct (ascii_dec c x) as [e|_]; [congruence|].
    rewrite (IH Hfree).
    destruct (Z.of_nat (String.length a) <? 0)%Z eqn:E.
    + apply Z.ltb_lt in E. lia.
    + cbn [String.length]. lia.
Qed.

(* ------------------------------------------------------------------------- *)
(** ** Insertion sort meets the contract of [sort.Slice] *)
(* ------------------------------------------------------------------------- *)

Section InsertionSort.

Context {A : Type} (less : A -> A -> bool).

Lemma insert_rev_Permutation (x : A) (l : list A) :
  Permutation (sort.insert_rev less x l) (x :: l).
Proof.
  induction l as [|p l IH]; simpl; [reflexivity|].
  destruct (less x p); [|reflexivity].
  rewrite IH. apply perm_swap.
Qed.

Lemma fold_insert_rev_Permutation (l acc : list A) :
  Permutation (fold_left (fun r e => sort.insert_rev less e r) l acc)
              (l ++ acc)%list.
Proof.
  revert acc. induction l as [|x l IH]; intros acc; simpl; [reflexivity|].
  rewrite IH, insert_rev_Permutation. symmetry. apply Permutation_middle.
Qed.

Lemma insertionSort_Permutation (l : list A) :
  Permutation (sort.insertionSort l less) l.
Proof.
  unfold sort.insertionSort. rewrite <- Permutation_rev.
  rewrite fold_insert_rev_Permutation. now rewrite app_nil_r.
Qed.

Hypothesis less_ok : sort.strict_weak less.

Lemma less_asym (a b : A) : less a b = true -> less b a = false.
Proof.
  destruct less_ok as (irr & tr & _). intros Hab.
  destruct (less b a) eqn:Hba; [|reflexivity].
  rewrite <- (irr a). symmetry. now apply tr with b.
Qed.

Lemma insert_rev_sorted (x : A) (l : list A) :
  StronglySorted (fun a b => less a b = false) l ->
  StronglySorted (fun a b => less a b = false) (sort.insert_rev less x l).
Proof.
  destruct less_ok as (_ & _ & ntr).
  induction 1 as [|p l Hl IH Hp]; simpl.
  - constructor; constructor.
  - destruct (less x p) eqn:Hxp.
    + constructor; [exact IH|].
      apply Permutation_Forall with (x :: l).
      * symmetry. apply insert_rev_Permutation.
      * constructor; [now apply less_asym | exact Hp].
    + constructor; [now constructor|].
      constructor; [exact Hxp|].
      eapply Forall_impl; [|exact Hp].
      intros q Hpq. now apply ntr with p.
Qed.

Lemma fold_insert_rev_sorted (l acc : list A) :
  StronglySorted (fun a b => less a b = false) acc ->
  StronglySorted (fun a b => less a b = false)
                 (fold_left (fun r e => sort.insert_rev less e r) l acc).
Proof.
  revert acc. induction l as [|x l IH]; intros acc Hacc; simpl; [exact Hacc|].
  apply IH. now apply insert_rev_sorted.
Qed.

End InsertionSort.

Lemma StronglySorted_snoc {A : Type} (R : A -> A -> Prop) (l : list A) (a : A) :
  StronglySorted R l -> Forall (fun b => R b a) l -> StronglySorted R (l ++ [a])%list.
Proof.
  induction 1 as [|x l Hl IH Hx]; intros Ha; simpl.
  - constructor; constructor.
  - inversion Ha as [|? ? Hxa Hla]; subst.
    constructor; [now apply IH|].
    apply Forall_app. split; [exact Hx | now constructor].
Qed.

Lemma StronglySorted_rev {A : Type} (R : A -> A -> Prop) (l : list A) :
  StronglySorted (fun a b => R b a) l -> StronglySorted R (rev l).
Proof.
  induction 1 as [|x l Hl IH Hx]; simpl; [constructor|].
  apply StronglySorted_snoc; [exact IH|].
  apply Forall_rev. exact Hx.
Qed.

Lemma insertionSort_sorted {A : Type} (less : A -> A -> bool) (l : list A) :
  sort.strict_weak less ->
  StronglySorted (fun a b => less b a = false) (sort.insertionSort l less).
Proof.
  intros Hok. unfold sort.insertionSort.
  apply StronglySorted_rev. apply fold_insert_rev_sorted; [exact Hok|constructor].
Qed.

(** [sort.Slice] as it runs on short slices. *)
#[local] Instance insertionSorter : sort.Sorter := {|
  sort.Slice := @sort.insertionSort;
  sort.Slice_Permutation := fun A x less => insertionSort_Permutation less x;
  sort.Slice_sorted := fun A x less => insertionSort_sorted less x
|}.

Lemma lessOrder_strict_weak : sort.strict_weak lessOrder.
Proof.
  unfold sort.strict_weak, lessOrder. repeat split; intros.
  - apply Z.ltb_irrefl.
  - rewrite Z.ltb_lt in *. lia.
  - rewrite Z.ltb_ge in *. lia.
Qed.

(* ------------------------------------------------------------------------- *)
(** ** The display line *)
(* ------------------------------------------------------------------------- *)

Lemma buildFzfLine_line `{sort.Sorter} (p : passwordDetail) :
  fst (buildFzfLine p)
  = ID p ++ String tab
      ((if String.eqb (Name p) "" then "(no title)" else Name p)
         ++ " | " ++ fst (formatPath (Path p))
         ++ " | " ++ orEmpty (Login p)
         ++ " | " ++ orEmpty (URL p)
         ++ " | " ++ formatDescription (Custom p)).
Proof.
  unfold buildFzfLine. destruct (formatPath (Path p)) as [pathStr path].
  cbn [fst]. unfold lineFormat, displayFormat.
  cbn [fmt.Sprintf Ascii.eqb Bool.eqb negb orb String.append fmt.extra].
  now rewrite !append_nil_r.
Qed.

Ltac same_byte :=
  repeat match goal with
         | |- context [ascii_dec ?a ?a] =>
           destruct (ascii_dec a a) as [_|n]; [|congruence]
         end.

Lemma Index_bar_after (a r : string) :
  free_of "|" a ->
  strings.Index (a ++ " | " ++ r) " | " = Z.of_nat (String.length a).
Proof.
  induction a as [|x a IH]; intros Hfree.
  - cbn [String.append]. destruct r; cbn [strings.Index].
    all: unfold strings.HasPrefix; cbn [String.prefix]; same_byte; reflexivity.
  - destruct Hfree as [Hx Hfree].
    change (String x a ++ " | " ++ r) with (String x (a ++ " | " ++ r)).
    cbn [strings.Index].
    assert (Hp : strings.HasPrefix (String x (a ++ " | " ++ r)) " | " = false).
    { unfold strings.HasPrefix. cbn [String.prefix].
      destruct (ascii_dec " " x) as [_|_]; [|reflexivity].
      destruct a as [|y a]; cbn [String.append String.prefix].
      - reflexivity.
      - destruct Hfree as [Hy _].
        destruct (ascii_dec "|" y) as [e|_]; [congruence | reflexivity]. }
    rewrite Hp, (IH Hfree).
    destruct (Z.of_nat (String.length a) <? 0)%Z eqn:E.
    + apply Z.ltb_lt in E. lia.
    + cbn [String.length]. lia.
Qed.

Lemma Index_bar_absent (a : string) :
  free_of "|" a -> strings.Index a " | " = (-1)%Z.
Proof.
  induction a as [|x a IH]; intros Hfree.
  - reflexivity.
  - destruct Hfree as [Hx Hfree]. cbn [strings.Index].
    assert (Hp : strings.HasPrefix (String x a) " | " = false).
    { unfold strings.HasPrefix. cbn [String.prefix].
      destruct (ascii_dec " " x) as [_|_]; [|reflexivity].
      destruct a as [|y a]; cbn [String.prefix]; [reflexivity|].
      destruct Hfree as [Hy _].
      destruct (ascii_dec "|" y) as [e|_]; [congruence | reflexivity]. }
    rewrite Hp, (IH Hfree). reflexivity.
Qed.

Lemma countLoop_bar_step (fuel : nat) (a r : string) :
  free_of "|" a ->
  strings.countLoop (S fuel) (a ++ " | " ++ r) " | "
  = (1 + strings.countLoop fuel r " | ")%Z.
Proof.
  intros Hfree. cbn [strings.countLoop].
  rewrite (Index_bar_after a r Hfree).
  destruct (Z.of_nat (String.length a) <? 0)%Z eqn:E.
  - apply Z.ltb_lt in E. lia.
  - rewrite Nat2Z.id.
    replace (String.length a + String.length " | ")%nat
      with (String.length (a ++ " | ")) by apply length_append.
    rewrite <- (append_assoc a " | " r), drop_append. reflexivity.
Qed.

Lemma countLoop_bar_last (fuel : nat) (a : string) :
  free_of "|" a -> strings.countLoop (S fuel) a " | " = 0%Z.
Proof.
  intros Hfree. cbn [strings.countLoop].
  now rewrite (Index_bar_absent a Hfree).
Qed.

Lemma countLoop_four_bars (fuel : nat) (a b c d e : string) :
  free_of "|" a -> free_of "|" b -> free_of "|" c ->
  free_of "|" d -> free_of "|" e ->
  (5 <= fuel)%nat ->
  strings.countLoop fuel
    (a ++ " | " ++ b ++ " | " ++ c ++ " | " ++ d ++ " | " ++ e) " | " = 4%Z.
Proof.
  intros Ha Hb Hc Hd He Hfuel.
  do 5 (destruct fuel as [|fuel]; [lia|]).
  rewrite (countLoop_bar_step _ a _ Ha), (countLoop_bar_step _ b _ Hb),
          (countLoop_bar_step _ c _ Hc), (countLoop_bar_step _ d _ Hd),
          (countLoop_bar_last _ e He).
  reflexivity.
Qed.

Lemma columns_Join `{sort.Sorter} (p : passwordDetail) :
  ID p ++ String tab (strings.Join (columns p) " | ") = fst (buildFzfLine p).
Proof. rewrite buildFzfLine_line. reflexivity. Qed.

(** C3.  The display line of every record is its identifier, a TAB, and the
    five columns name, path, login, url and description (the name replaced
    by its placeholder when empty, login and url blanked when they hold
    only white space) joined by the separator [" | "]: five columns and so
    four separators, whichever columns are empty.  When neither the
    identifier nor a column contains the byte [|] itself, [" | "] occurs in
    the line exactly four times. *)
Theorem C3_display_line_shape `{sort.Sorter} (p : passwordDetail) :
  fst (buildFzfLine p)
  = ID p ++ String tab
      ((if String.eqb (Name p) "" then "(no title)" else Name p)
         ++ " | " ++ fst (formatPath (Path p))
         ++ " | " ++ orEmpty (Login p)
         ++ " | " ++ orEmpty (URL p)
         ++ " | " ++ formatDescription (Custom p))
  /\ fst (buildFzfLine p) = ID p ++ String tab (strings.Join (columns p) " | ")
  /\ List.length (columns p) = 5%nat
  /\ (free_of "|" (ID p) -> Forall (free_of "|") (columns p) ->
      strings.Count (fst (buildFzfLine p)) " | " = 4%Z).
Proof.
  split; [apply buildFzfLine_line|].
  split; [symmetry; apply columns_Join|].
  split; [reflexivity|].
  intros Hid Hcols. rewrite buildFzfLine_line. unfold columns in Hcols.
  inversion Hcols as [|? ? Hname H1]; subst; clear Hcols.
  inversion H1 as [|? ? Hpath H2]; subst; clear H1.
  inversion H2 as [|? ? Hlogin H3]; subst; clear H2.
  inversion H3 as [|? ? Hurl H4]; subst; clear H3.
  inversion H4 as [|? ? Hdesc _]; subst; clear H4.
  set (name := if String.eqb (Name p) "" then "(no title)" else Name p) in *.
  unfold strings.Count.
  replace (ID p ++ String tab (name ++ " | " ++ fst (formatPath (Path p))
             ++ " | " ++ orEmpty (Login p) ++ " | " ++ orEmpty (URL p)
             ++ " | " ++ formatDescription (Custom p)))
    with ((ID p ++ String tab name) ++ " | " ++ fst (formatPath (Path p))
             ++ " | " ++ orEmpty (Login p) ++ " | " ++ orEmpty (URL p)
             ++ " | " ++ formatDescription (Custom p))
    by (rewrite append_assoc; reflexivity).
  apply countLoop_four_bars; try assumption.
  - apply free_of_append. split; [exact Hid|].
    split; [discriminate | exact Hname].
  - rewrite !length_append. cbn [String.length]. lia.
Qed.

Lemma C3_display_line_shape_witness :
  strings.Count (fst (@buildFzfLine insertionSorter sample_record)) " | " = 4%Z.
Proof.
  apply (@C3_display_line_shape insertionSorter sample_record).
  - vm_compute. repeat split; discriminate.
  - vm_compute. repeat constructor; discriminate.
Defined.

(* ------------------------------------------------------------------------- *)
(** ** The identifier column *)
(* ------------------------------------------------------------------------- *)

Lemma firstField_before_tab (id rest : string) :
  free_of tab id -> firstField (id ++ String tab rest) = id.
Proof.
  intros Hfree. unfold firstField, strings.SplitN.
  change (2 =? 0)%Z with false. change (2 <? 0)%Z with false. cbv iota.
  rewrite length_append. cbn [String.length].
  replace (Z.to_nat (Z.min 2 (Z.of_nat (String.length id + S (String.length rest)) + 1) - 1))
    with 1%nat by lia.
  cbn [strings.genSplitLoop].
  rewrite (Index_byte_after tab id rest Hfree).
  destruct (Z.of_nat (String.length id) <? 0)%Z eqn:E.
  - apply Z.ltb_lt in E. lia.
  - cbn [nth]. rewrite Nat2Z.id. apply take_append.
Qed.

(** C2, amended.  For every record whose identifier contains no TAB,
    cutting its display line at the first TAB gives back exactly the
    identifier. *)
Theorem C2_identifier_round_trip `{sort.Sorter} (p : passwordDetail) :
  free_of tab (ID p) ->
  firstField (fst (buildFzfLine p)) = ID p.
Proof.
  intros Hfree. rewrite buildFzfLine_line.
  now apply firstField_before_tab.
Qed.

Lemma C2_identifier_round_trip_witness :
  firstField (fst (@buildFzfLine insertionSorter sample_record))
  = ID sample_record.
Proof.
  apply (@C2_identifier_round_trip insertionSorter sample_record).
  vm_compute. repeat split; discriminate.
Defined.

(** C2 as stated fails: the line of [tabbed_record] is cut inside the
    identifier. *)
Lemma C2_counterexample :
  firstField (fst (@buildFzfLine insertionSorter tabbed_record)) = "a"
  /\ firstField (fst (@buildFzfLine insertionSorter tabbed_record))
     <> ID tabbed_record.
Proof.
  split; [reflexivity|]. vm_compute. discriminate.
Qed.

(* ------------------------------------------------------------------------- *)
(** ** The path column *)
(* ------------------------------------------------------------------------- *)

Lemma namesStep_fold (path : list pathSegment.t) (names : list string) :
  fold_left namesStep path names = (names ++ nonEmptyNames path)%list.
Proof.
  revert names. induction path as [|s path IH]; intros names.
  - simpl. now rewrite app_nil_r.
  - cbn [fold_left]. rewrite IH. unfold namesStep, nonEmptyNames.
    cbn [map filter].
    destruct (negb (String.eqb (pathSegment.Name s) "")); [|reflexivity].
    now rewrite <- app_assoc.
Qed.

Lemma Slice_nil `{sort.Sorter} {A : Type} (less : A -> A -> bool) :
  sort.Slice [] less = [].
Proof. apply Permutation_nil. symmetry. apply sort.Slice_Permutation. Qed.

Lemma Slice_ascending `{sort.Sorter} (path : list pathSegment.t) :
  StronglySorted ascending (sort.Slice path lessOrder).
Proof.
  pose proof (sort.Slice_sorted _ path lessOrder lessOrder_strict_weak) as Hs.
  induction Hs as [|a l Hl IH Ha]; constructor; [exact IH|].
  eapply Forall_impl; [|exact Ha].
  intros b Hb. unfold lessOrder in Hb. apply Z.ltb_ge in Hb. exact Hb.
Qed.

(** [formatPath] in one equation: the names of the sorted slice, a dash
    when there is none; the slice is left sorted. *)
Lemma formatPath_eq `{sort.Sorter} (path : list pathSegment.t) :
  formatPath path
  = (match nonEmptyNames (sort.Slice path lessOrder) with
     | [] => "-"
     | _ :: _ => strings.Join (nonEmptyNames (sort.Slice path lessOrder)) " / "
     end,
     sort.Slice path lessOrder).
Proof.
  unfold formatPath. destruct path as [|s path].
  - cbn [List.length Nat.eqb]. now rewrite Slice_nil.
  - cbn [List.length Nat.eqb]. rewrite namesStep_fold. cbn [app].
    now destruct (nonEmptyNames (sort.Slice (s :: path) lessOrder)).
Qed.

Lemma nonEmptyNames_all_empty (path : list pathSegment.t) :
  Forall (fun s => pathSegment.Name s = "") path -> nonEmptyNames path = [].
Proof.
  induction 1 as [|s path Hs _ IH]; [reflexivity|].
  unfold nonEmptyNames in *. cbn [map filter]. now rewrite Hs.
Qed.

(** A list sorted by keys that are pairwise different has one sorted
    arrangement only. *)
Lemma ascending_unique (l1 l2 : list pathSegment.t) :
  StronglySorted ascending l1 -> StronglySorted ascending l2 ->
  Permutation l1 l2 -> NoDup (map pathSegment.Order l1) -> l1 = l2.
Proof.
  intros H1. revert l2.
  induction H1 as [|a l1 Hl1 IH Ha]; intros l2 H2 Hperm Hnd.
  - now apply Permutation_nil in Hperm.
  - destruct H2 as [|b l2 Hl2 Hb].
    + symmetry in Hperm. now apply Permutation_nil in Hperm.
    + inversion Hnd as [|? ? Hnotin Hnd']; subst.
      assert (Hab : a = b).
      { assert (Hin_a : In a (b :: l2))
          by (eapply Permutation_in; [exact Hperm | now left]).
        assert (Hin_b : In b (a :: l1))
          by (eapply Permutation_in; [symmetry; exact Hperm | now left]).
        destruct Hin_a as [->|Hin_a]; [reflexivity|].
        destruct Hin_b as [->|Hin_b]; [reflexivity|].
        exfalso. apply Hnotin.
        rewrite Forall_forall in Ha, Hb.
        pose proof (Ha _ Hin_b) as Hle1. pose proof (Hb _ Hin_a) as Hle2.
        unfold ascending in Hle1, Hle2.
        replace (pathSegment.Order a) with (pathSegment.Order b) by lia.
        now apply in_map. }
      subst b. f_equal. apply IH; [exact Hl2 | | exact Hnd'].
      now apply Permutation_cons_inv with a.
Qed.

(** C5.  For every list of path segments the path column is made of the
    non-empty names of the segments arranged in ascending [order], joined
    by [" / "], and is ["-"] when the list is empty or holds no non-empty
    name.  When the [order] values are pairwise different the column does
    not depend on the order in which the segments arrive. *)
Theorem C5_formatPath_sorted_names `{sort.Sorter} (path : list pathSegment.t) :
  (exists sorted : list pathSegment.t,
      Permutation sorted path
      /\ StronglySorted ascending sorted
      /\ fst (formatPath path)
         = match nonEmptyNames sorted with
           | [] => "-"
           | _ :: _ => strings.Join (nonEmptyNames sorted) " / "
           end)
  /\ (path = [] -> fst (formatPath path) = "-")
  /\ (Forall (fun s => pathSegment.Name s = "") path ->
      fst (formatPath path) = "-")
  /\ (forall path' : list pathSegment.t,
         Permutation path path' ->
         NoDup (map pathSegment.Order path) ->
         fst (formatPath path') = fst (formatPath path)).
Proof.
  repeat split.
  - exists (sort.Slice path lessOrder).
    split; [apply sort.Slice_Permutation|].
    split; [apply Slice_ascending|].
    now rewrite formatPath_eq.
  - intros ->. reflexivity.
  - intros Hall. rewrite formatPath_eq. cbn [fst].
    rewrite nonEmptyNames_all_empty; [reflexivity|].
    eapply Permutation_Forall; [|exact Hall].
    symmetry. apply sort.Slice_Permutation.
  - intros path' Hperm Hnd. rewrite !formatPath_eq. cbn [fst].
    assert (Hsame : sort.Slice path lessOrder = sort.Slice path' lessOrder).
    { apply ascending_unique; try apply Slice_ascending.
      - rewrite !sort.Slice_Permutation. exact Hperm.
      - eapply Permutation_NoDup; [|exact Hnd].
        apply Permutation_map. symmetry. apply sort.Slice_Permutation. }
    now rewrite Hsame.
Qed.

Lemma C5_formatPath_sorted_names_witness :
  fst (@formatPath insertionSorter []) = "-"
  /\ fst (@formatPath insertionSorter [pathSegment.mk 7 "" "folder" "f7"]) = "-"
  /\ fst (@formatPath insertionSorter
            [pathSegment.mk 1 "Team" "vault" "f1";
             pathSegment.mk 2 "Dev" "folder" "f2"])
     = fst (@formatPath insertionSorter (Path sample_record)).
Proof.
  split; [|split].
  - apply (proj1 (proj2 (@C5_formatPath_sorted_names insertionSorter []))).
    reflexivity.
  - apply (proj1 (proj2 (proj2 (@C5_formatPath_sorted_names insertionSorter
                                  [pathSegment.mk 7 "" "folder" "f7"])))).
    repeat constructor.
  - apply (proj2 (proj2 (proj2 (@C5_formatPath_sorted_names insertionSorter
                                  (Path sample_record))))).
    + apply perm_swap.
    + simpl. repeat constructor; simpl; intuition discriminate.
Defined.

Example formatPath_sample :
  @formatPath insertionSorter (Path sample_record)
  = ("Team / Dev",
     [pathSegment.mk 1 "Team" "vault" "f1";
      pathSegment.mk 2 "Dev" "folder" "f2"]).
Proof. reflexivity. Qed.

(* ------------------------------------------------------------------------- *)
(** ** The description column *)
(* ------------------------------------------------------------------------- *)

Lemma descriptionStep_spec (parts : list string) (c : customField.t) :
  descriptionStep parts c = (parts ++ renderField_spec c)%list.
Proof.
  unfold descriptionStep, renderField_spec, fieldName, fieldValue.
  destruct (strings.TrimSpace (decodeB64OrRaw (customField.Name c))) as [|x name];
    destruct (strings.TrimSpace (decodeB64OrRaw (customField.Value c))) as [|y val];
    cbn [String.eqb andb].
  - now rewrite app_nil_r.
  - reflexivity.
  - reflexivity.
  - cbn [fmt.Sprintf Ascii.eqb Bool.eqb negb orb String.append fmt.extra].
    rewrite !append_nil_r. reflexivity.
Qed.

Lemma descriptionStep_fold (custom : list customField.t) (parts : list string) :
  fold_left descriptionStep custom parts
  = (parts ++ flat_map renderField_spec custom)%list.
Proof.
  revert parts. induction custom as [|c custom IH]; intros parts.
  - simpl. now rewrite app_nil_r.
  - cbn [fold_left flat_map]. rewrite IH, descriptionStep_spec.
    now rewrite <- app_assoc.
Qed.

Lemma flat_map_nil {A B : Type} (f : A -> list B) (l : list A) :
  Forall (fun a => f a = []) l -> flat_map f l = [].
Proof.
  induction 1 as [|a l Ha _ IH]; [reflexivity|].
  cbn [flat_map]. now rewrite Ha, IH.
Qed.

(* ------------------------------------------------------------------------- *)
(** ** base64: decoding undoes encoding *)
(* ------------------------------------------------------------------------- *)

Section Base64.

Local Open Scope Z_scope.

Lemma byte_val_range (b : ascii) : 0 <= byte_val b < 256.
Proof.
  unfold byte_val. pose proof (N_ascii_bounded b). lia.
Qed.

Lemma to_byte_byte_val (b : ascii) (x : Z) :
  x mod 256 = byte_val b -> to_byte x = b.
Proof.
  intros Hx. unfold to_byte. change 0xFF with (Z.ones 8).
  rewrite Z.land_ones by lia. change (2 ^ 8) with 256. rewrite Hx.
  unfold byte_val. rewrite N2Z.id. apply ascii_N_embedding.
Qed.

(** Or-ing a value below [2^n] into a value shifted left by [n] adds it. *)
Lemma lor_shiftl_low (a b n : Z) :
  0 <= n -> 0 <= b < 2 ^ n -> Z.lor (Z.shiftl a n) b = a * 2 ^ n + b.
Proof.
  intros Hn Hb. rewrite <- Z.shiftl_mul_pow2 by exact Hn.
  rewrite <- Z.add_lor_land.
  assert (Hland : Z.land (Z.shiftl a n) b = 0).
  { apply Z.bits_inj'. intros i Hi.
    rewrite Z.land_spec, Z.bits_0.
    destruct (Z.lt_ge_cases i n) as [Hlt|Hge].
    - rewrite Z.shiftl_spec_low by exact Hlt. reflexivity.
    - replace b with (b mod 2 ^ n) by (apply Z.mod_small; exact Hb).
      rewrite Z.mod_pow2_bits_high by lia. apply andb_false_r. }
  rewrite Hland. lia.
Qed.

Lemma land_63 (x : Z) : Z.land x 0x3F = x mod 64.
Proof. change 0x3F with (Z.ones 6). now rewrite Z.land_ones by lia. Qed.

Lemma sextet_range (x : Z) : 0 <= Z.land x 0x3F < 64.
Proof. rewrite land_63. apply Z.mod_pos_bound. lia. Qed.

Lemma decodeMap_encode (i : Z) :
  0 <= i < 64 -> base64.decodeMap (base64.encode i) = i.
Proof.
  intros Hi.
  assert (Hall : forallb (fun i => base64.decodeMap (base64.encode i) =? i)
                         (map Z.of_nat (seq 0 64)) = true)
    by (vm_compute; reflexivity).
  rewrite forallb_forall in Hall. apply Z.eqb_eq, Hall.
  apply in_map_iff. exists (Z.to_nat i). split; [lia|]. apply in_seq. lia.
Qed.

(** Four characters of the alphabet are one quantum. *)
Lemma decodeLoop_quantum (s0 s1 s2 s3 : Z) (rest : list ascii) :
  0 <= s0 < 64 -> 0 <= s1 < 64 -> 0 <= s2 < 64 -> 0 <= s3 < 64 ->
  base64.decodeLoop
    (base64.encode s0 :: base64.encode s1 :: base64.encode s2
       :: base64.encode s3 :: rest) 0 0 0 0
  = option_map (app (base64.quantum s0 s1 s2 s3 4))
               (base64.decodeLoop rest 0 0 0 0).
Proof.
  intros H0 H1 H2 H3. cbn [base64.decodeLoop].
  rewrite !decodeMap_encode by assumption.
  replace (s0 =? 0xFF) with false by (symmetry; apply Z.eqb_neq; lia).
  replace (s1 =? 0xFF) with false by (symmetry; apply Z.eqb_neq; lia).
  replace (s2 =? 0xFF) with false by (symmetry; apply Z.eqb_neq; lia).
  replace (s3 =? 0xFF) with false by (symmetry; apply Z.eqb_neq; lia).
  reflexivity.
Qed.

(** Three characters and one [=] close the input with two bytes. *)
Lemma decodeLoop_pad1 (s0 s1 s2 : Z) :
  0 <= s0 < 64 -> 0 <= s1 < 64 -> 0 <= s2 < 64 ->
  base64.decodeLoop
    [base64.encode s0; base64.encode s1; base64.encode s2; base64.StdPadding]
    0 0 0 0
  = Some (base64.quantum s0 s1 s2 0 3).
Proof.
  intros H0 H1 H2. cbn [base64.decodeLoop].
  rewrite !decodeMap_encode by assumption.
  replace (s0 =? 0xFF) with false by (symmetry; apply Z.eqb_neq; lia).
  replace (s1 =? 0xFF) with false by (symmetry; apply Z.eqb_neq; lia).
  replace (s2 =? 0xFF) with false by (symmetry; apply Z.eqb_neq; lia).
  reflexivity.
Qed.

(** Two characters and [==] close the input with one byte. *)
Lemma decodeLoop_pad2 (s0 s1 : Z) :
  0 <= s0 < 64 -> 0 <= s1 < 64 ->
  base64.decodeLoop
    [base64.encode s0; base64.encode s1; base64.StdPadding; base64.StdPadding]
    0 0 0 0
  = Some (base64.quantum s0 s1 0 0 2).
Proof.
  intros H0 H1. cbn [base64.decodeLoop].
  rewrite !decodeMap_encode by assumption.
  replace (s0 =? 0xFF) with false by (symmetry; apply Z.eqb_neq; lia).
  replace (s1 =? 0xFF) with false by (symmetry; apply Z.eqb_neq; lia).
  reflexivity.
Qed.

End Base64.

Section Base64RoundTrip.

Local Open Scope Z_scope.

Lemma lor_mul_low (a b n : Z) :
  0 <= n -> 0 <= b < 2 ^ n -> Z.lor (a * 2 ^ n) b = a * 2 ^ n + b.
Proof.
  intros Hn Hb. rewrite <- (lor_shiftl_low a b n Hn Hb).
  now rewrite Z.shiftl_mul_pow2.
Qed.

(** Three bytes packed into 24 bits. *)
Lemma pack_bytes (x y z : Z) :
  0 <= x < 256 -> 0 <= y < 256 -> 0 <= z < 256 ->
  Z.lor (Z.lor (Z.shiftl x 16) (Z.shiftl y 8)) z = x * 65536 + y * 256 + z.
Proof.
  intros Hx Hy Hz.
  rewrite (Z.shiftl_mul_pow2 y 8) by lia.
  rewrite (lor_shiftl_low x (y * 2 ^ 8) 16) by lia.
  replace (x * 2 ^ 16 + y * 2 ^ 8) with ((x * 256 + y) * 2 ^ 8) by lia.
  rewrite lor_mul_low by lia. lia.
Qed.

(** Four 6-bit values packed into 24 bits. *)
Lemma pack_sextets (s0 s1 s2 s3 : Z) :
  0 <= s0 < 64 -> 0 <= s1 < 64 -> 0 <= s2 < 64 -> 0 <= s3 < 64 ->
  Z.lor (Z.lor (Z.lor (Z.shiftl s0 18) (Z.shiftl s1 12)) (Z.shiftl s2 6)) s3
  = s0 * 262144 + s1 * 4096 + s2 * 64 + s3.
Proof.
  intros H0 H1 H2 H3.
  rewrite (Z.shiftl_mul_pow2 s1 12), (Z.shiftl_mul_pow2 s2 6) by lia.
  rewrite (lor_shiftl_low s0 (s1 * 2 ^ 12) 18) by lia.
  replace (s0 * 2 ^ 18 + s1 * 2 ^ 12) with ((s0 * 64 + s1) * 2 ^ 12) by lia.
  rewrite (lor_mul_low (s0 * 64 + s1) (s2 * 2 ^ 6) 12) by lia.
  replace ((s0 * 64 + s1) * 2 ^ 12 + s2 * 2 ^ 6)
    with ((s0 * 4096 + s1 * 64 + s2) * 2 ^ 6) by lia.
  rewrite lor_mul_low by lia. lia.
Qed.

Lemma sextet_of (v k : Z) :
  0 <= k -> Z.land (Z.shiftr v k) 0x3F = (v / 2 ^ k) mod 64.
Proof. intros Hk. now rewrite land_63, Z.shiftr_div_pow2. Qed.

(** The quantum rebuilt from the sextets of [v] holds the bytes of [v]. *)
Lemma quantum_sextets (v : Z) (dlen : nat) (b0 b1 b2 : ascii) :
  v = byte_val b0 * 65536 + byte_val b1 * 256 + byte_val b2 ->
  base64.quantum (Z.land (Z.shiftr v 18) 0x3F) (Z.land (Z.shiftr v 12) 0x3F)
                 (Z.land (Z.shiftr v 6) 0x3F) (Z.land v 0x3F) dlen
  = firstn (dlen - 1) [b0; b1; b2].
Proof.
  intros Hv. unfold base64.quantum. rewrite pack_sextets by apply sextet_range.
  pose proof (byte_val_range b0) as R0. pose proof (byte_val_range b1) as R1.
  pose proof (byte_val_range b2) as R2.
  rewrite !sextet_of by lia. rewrite land_63.
  change (2 ^ 18) with 262144. change (2 ^ 12) with 4096. change (2 ^ 6) with 64.
  set (v' := _ + _ + _ + _).
  assert (Hv' : v' = v) by (subst v'; Z.div_mod_to_equations; lia).
  rewrite Hv'. f_equal.
  rewrite !Z.shiftr_div_pow2 by lia.
  change (2 ^ 16) with 65536. change (2 ^ 8) with 256.
  f_equal; [|f_equal; [|f_equal]]; apply to_byte_byte_val;
    subst v; Z.div_mod_to_equations; lia.
Qed.

Lemma list_ind3 {A : Type} (P : list A -> Prop) :
  P [] -> (forall a, P [a]) -> (forall a b, P [a; b]) ->
  (forall a b c l, P l -> P (a :: b :: c :: l)) ->
  forall l, P l.
Proof.
  intros H0 H1 H2 H3.
  fix IH 1. intros [|a [|b [|c l]]]; [exact H0 | apply H1 | apply H2 |].
  apply H3, IH.
Qed.

Lemma decodeLoop_Encode (src : list ascii) :
  base64.decodeLoop (base64.Encode src) 0 0 0 0 = Some src.
Proof.
  induction src as [|b0|b0 b1|b0 b1 b2 rest IH] using list_ind3.
  - reflexivity.
  - cbn [base64.Encode]. rewrite decodeLoop_pad2 by apply sextet_range.
    pose proof (byte_val_range b0) as R0.
    set (v := Z.shiftl (byte_val b0) 16).
    assert (Hv : v = byte_val b0 * 65536 + byte_val zero * 256 + byte_val zero)
      by (subst v; rewrite Z.shiftl_mul_pow2 by lia;
          change (byte_val zero) with 0; lia).
    pose proof (quantum_sextets v 2 b0 zero zero Hv) as Hq.
    unfold base64.quantum in *.
    replace (Z.land (Z.shiftr v 6) 0x3F) with 0 in Hq.
    2:{ rewrite sextet_of by lia. subst v. rewrite Z.shiftl_mul_pow2 by lia.
        change (2 ^ 16) with 65536. change (2 ^ 6) with 64.
        Z.div_mod_to_equations; lia. }
    replace (Z.land v 0x3F) with 0 in Hq.
    2:{ rewrite land_63. subst v. rewrite Z.shiftl_mul_pow2 by lia.
        change (2 ^ 16) with 65536. Z.div_mod_to_equations; lia. }
    now rewrite Hq.
  - cbn [base64.Encode]. rewrite decodeLoop_pad1 by apply sextet_range.
    pose proof (byte_val_range b0) as R0. pose proof (byte_val_range b1) as R1.
    set (v := Z.lor (Z.shiftl (byte_val b0) 16) (Z.shiftl (byte_val b1) 8)).
    assert (Hv : v = byte_val b0 * 65536 + byte_val b1 * 256 + byte_val zero).
    { subst v. change (byte_val zero) with 0.
      rewrite <- (pack_bytes (byte_val b0) (byte_val b1) 0) by lia.
      now rewrite Z.lor_0_r. }
    pose proof (quantum_sextets v 3 b0 b1 zero Hv) as Hq.
    unfold base64.quantum in *.
    replace (Z.land v 0x3F) with 0 in Hq.
    2:{ rewrite land_63, Hv. change (byte_val zero) with 0.
        Z.div_mod_to_equations; lia. }
    now rewrite Hq.
  - cbn [base64.Encode]. rewrite decodeLoop_quantum by apply sextet_range.
    rewrite IH. cbn [option_map]. f_equal.
    rewrite (quantum_sextets _ 4 b0 b1 b2); [reflexivity|].
    apply pack_bytes; apply byte_val_range.
Qed.

End Base64RoundTrip.

Lemma DecodeString_EncodeToString (s : string) :
  base64.DecodeString (base64.EncodeToString s) = Some s.
Proof.
  unfold base64.DecodeString, base64.EncodeToString, bytes, str.
  rewrite list_ascii_of_string_of_list_ascii, decodeLoop_Encode.
  cbn [option_map]. now rewrite string_of_list_ascii_of_string.
Qed.

(** C6.  Decoding through [decodeB64OrRaw] what [StdEncoding] encoded gives
    back the original string, whatever its bytes; and an input that
    [StdEncoding] cannot decode comes back unchanged ([decodeB64OrRaw] is a
    total function: no failure leaves it). *)
Theorem C6_decodeB64OrRaw_round_trip :
  (forall s : string, decodeB64OrRaw (base64.EncodeToString s) = s)
  /\ (forall s : string, base64.DecodeString s = None -> decodeB64OrRaw s = s).
Proof.
  split.
  - intros s. unfold decodeB64OrRaw. now rewrite DecodeString_EncodeToString.
  - intros s Hs. unfold decodeB64OrRaw. now rewrite Hs.
Qed.

Lemma C6_decodeB64OrRaw_round_trip_witness :
  decodeB64OrRaw "hunter2" = "hunter2".
Proof.
  apply (proj2 C6_decodeB64OrRaw_round_trip "hunter2"). reflexivity.
Defined.

Example decodeB64OrRaw_samples :
  decodeB64OrRaw "aGVsbG8=" = "hello"
  /\ decodeB64OrRaw "aGVsbG8" = "aGVsbG8"
  /\ base64.EncodeToString "hello" = "aGVsbG8=".
Proof. repeat split. Qed.

(* ------------------------------------------------------------------------- *)
(** ** What formatting does to the record *)
(* ------------------------------------------------------------------------- *)

Lemma buildFzfLine_record `{sort.Sorter} (p : passwordDetail) :
  snd (buildFzfLine p) = with_Path p (sort.Slice (Path p) lessOrder).
Proof.
  unfold buildFzfLine. rewrite formatPath_eq. reflexivity.
Qed.

Lemma with_Path_same (p : passwordDetail) : with_Path p (Path p) = p.
Proof. now destruct p. Qed.

(** C9.  Formatting a record does no input or output (its result is a value
    and a record, not a [proc]) and leaves every field of the caller's
    record as it was, the segments of the path included, except that the
    path segments are now arranged in ascending [order]; a path already in
    ascending order with pairwise different [order] values is left as it
    was, and so is the whole record. *)
Theorem C9_buildFzfLine_frame `{sort.Sorter} (p : passwordDetail) :
  let p' := snd (buildFzfLine p) in
  (VaultID p' = VaultID p /\ ID p' = ID p /\ Name p' = Name p
   /\ Login p' = Login p /\ URL p' = URL p
   /\ CryptedPassword p' = CryptedPassword p /\ Tags p' = Tags p
   /\ Color p' = Color p /\ Custom p' = Custom p
   /\ Attachments p' = Attachments p)
  /\ Permutation (Path p') (Path p)
  /\ StronglySorted ascending (Path p')
  /\ (StronglySorted ascending (Path p) ->
      NoDup (map pathSegment.Order (Path p)) -> p' = p).
Proof.
  cbv zeta. rewrite buildFzfLine_record. cbn [with_Path VaultID ID Name Login URL
    CryptedPassword Tags Color Custom Attachments Path].
  split; [repeat split|].
  split; [apply sort.Slice_Permutation|].
  split; [apply Slice_ascending|].
  intros Hsorted Hnd.
  rewrite (ascending_unique (sort.Slice (Path p) lessOrder) (Path p)).
  - apply with_Path_same.
  - apply Slice_ascending.
  - exact Hsorted.
  - apply sort.Slice_Permutation.
  - eapply Permutation_NoDup; [|exact Hnd].
    apply Permutation_map. symmetry. apply sort.Slice_Permutation.
Qed.

Lemma C9_buildFzfLine_frame_witness :
  snd (@buildFzfLine insertionSorter sorted_record) = sorted_record.
Proof.
  apply (@C9_buildFzfLine_frame insertionSorter sorted_record).
  - repeat constructor; unfold ascending; simpl; lia.
  - simpl. repeat constructor; simpl; intuition discriminate.
Defined.

Example buildFzfLine_sample :
  @buildFzfLine insertionSorter sample_record
  = ("65f0c1" ++ String tab "GitHub | Team / Dev | bob |  | note=hi",
     sorted_record).
Proof. reflexivity. Qed.

(* ------------------------------------------------------------------------- *)
(** ** Traces of the helpers *)
(* ------------------------------------------------------------------------- *)

Lemma bind_Done {A B : Type} (t : list event) (a : A) (k : A -> proc B) :
  bind (t, Done a) k = ((t ++ fst (k a))%list, snd (k a)).
Proof. unfold bind. now destruct (k a). Qed.

(** Case analysis on an innermost scrutinee of the goal. *)
Ltac break_match :=
  match goal with
  | |- context [match ?x with _ => _ end] =>
    lazymatch x with
    | context [match _ with _ => _ end] => fail
    | _ => destruct x eqn:?
    end
  end.

Lemma login_returns (w : World) (cfg : Config) :
  exists t r, login w cfg = (t, Done r) /\ forallb isRequest t = true.
Proof.
  unfold login, bind, emit, ret.
  repeat break_match; eexists; eexists; split; reflexivity.
Qed.

Lemma searchPasswords_returns (w : World) (cfg : Config) (token query : string) :
  exists t r,
    searchPasswords w cfg token query = (t, Done r) /\ forallb isRequest t = true.
Proof.
  unfold searchPasswords, bind, emit, ret.
  repeat break_match; eexists; eexists; split; reflexivity.
Qed.

Lemma getPassword_eq (w : World) (cfg : Config) (token id : string) (k : nat) :
  getPassword w cfg token id k
  = ([Request "GET" (detailURL cfg id)], Done (fetched w cfg token id k)).
Proof.
  unfold fetched, getPassword, detailURL, bind, emit, ret.
  repeat break_match; reflexivity.
Qed.

Lemma fetchDetails_eq (w : World) (cfg : Config) (token : string)
      (hits : list passwordSearchHit.t) (k : nat) (details : list passwordDetail) :
  fetchDetails w cfg token hits k details
  = (fetchTrace w cfg token hits k,
     Done (details ++ fetchedDetails w cfg token hits k)%list).
Proof.
  revert k details. induction hits as [|h hits IH]; intros k details.
  - cbn. now rewrite app_nil_r.
  - cbn [fetchDetails fetchTrace fetchedDetails].
    rewrite getPassword_eq, bind_Done.
    destruct (fetched w cfg token (passwordSearchHit.ID h) k) as [err|d].
    + unfold emit. rewrite bind_Done, IH. reflexivity.
    + rewrite IH, <- app_assoc. reflexivity.
Qed.

Lemma fetchTrace_events (w : World) (cfg : Config) (token : string)
      (hits : list passwordSearchHit.t) (k : nat) :
  forallb isFetchEvent (fetchTrace w cfg token hits k) = true.
Proof.
  revert k. induction hits as [|h hits IH]; intros k; [reflexivity|].
  cbn [fetchTrace]. destruct (fetched w cfg token (passwordSearchHit.ID h) k);
    cbn [forallb isFetchEvent]; rewrite IH; reflexivity.
Qed.

Lemma buildLines_eq `{sort.Sorter} (details : list passwordDetail)
      (lines : list string) :
  buildLines details lines
  = ((lines ++ map (fun d => fst (buildFzfLine d)) details)%list,
     map (fun d => snd (buildFzfLine d)) details).
Proof.
  revert lines. induction details as [|d details IH]; intros lines.
  - cbn. now rewrite app_nil_r.
  - cbn [buildLines map]. destruct (buildFzfLine d) as [line d'] eqn:E.
    rewrite IH, <- app_assoc. reflexivity.
Qed.

(* ------------------------------------------------------------------------- *)
(** ** The course of [main] *)
(* ------------------------------------------------------------------------- *)

Lemma bind_Done_eq {A B : Type} (t t' : list event) (a : A) (k : A -> proc B)
      (o : outcome B) :
  k a = (t', o) -> bind (t, Done a) k = ((t ++ t')%list, o).
Proof. intros Hk. unfold bind. now rewrite Hk. Qed.

Lemma main_searched `{sort.Sorter} (w : World) (t : list event) (token : string)
      (hits : list passwordSearchHit.t) :
  searched w t token hits ->
  main w = ((t ++ fst (afterSearch w token hits))%list,
            snd (afterSearch w token hits)).
Proof.
  intros (Hbase & t1 & t2 & Hlogin & Hsearch & ->).
  unfold cfg_of, query_of in *. cbn [BaseURL] in Hbase.
  unfold main. cbv zeta.
  apply String.eqb_neq in Hbase. cbn [BaseURL]. rewrite Hbase.
  rewrite Hlogin, <- app_assoc. apply bind_Done_eq. cbv beta iota.
  rewrite Hsearch. apply bind_Done_eq. cbv beta iota.
  rewrite <- surjective_pairing.
  unfold afterSearch, cfg_of, query_of.
  destruct hits as [|h hits]; [reflexivity|].
  cbn [List.length Nat.eqb]. cbv zeta. rewrite fetchDetails_eq. cbn [app].
  destruct (fetchedDetails _ _ token (h :: hits) 0) as [|d ds] eqn:E.
  - apply bind_Done_eq. reflexivity.
  - destruct (runSelector w (fzfCommand w) (selectorInput (d :: ds)))
      as [e|out] eqn:Hsel; apply bind_Done_eq; cbn [List.length Nat.eqb];
      rewrite buildLines_eq; cbn [app];
      fold (linesOf (d :: ds)); fold (formatted (d :: ds));
      unfold runFzf, emit; cbv zeta; fold (selectorInput (d :: ds));
      rewrite Hsel.
    + reflexivity.
    + unfold bind, ret. cbn [app].
      now destruct (copySelected w (formatted (d :: ds)) (strings.TrimSpace out)).
Qed.

(** When login or search fails, or the base URL is missing, [main] prints
    one message and exits with status 1; otherwise it gets to the hits. *)
Lemma main_cases `{sort.Sorter} (w : World) :
  main w = ([Fprintln Stderr "PASSWORK_BASE_URL environment variable is not set"],
            Exited 1%Z)
  \/ (exists t err,
         forallb isRequest t = true
         /\ main w = ((t ++ [Fprintf Stderr "login error: %v\n" [OErr err]])%list,
                      Exited 1%Z))
  \/ (exists t err,
         forallb isRequest t = true
         /\ main w = ((t ++ [Fprintf Stderr "search error: %v\n" [OErr err]])%list,
                      Exited 1%Z))
  \/ (exists t token hits,
         forallb isRequest t = true /\ searched w t token hits).
Proof.
  destruct (String.eqb (BaseURL (cfg_of w)) "") eqn:Hbase.
  { left. unfold main. cbv zeta. unfold cfg_of in Hbase. now rewrite Hbase. }
  right.
  destruct (login_returns w (cfg_of w)) as (t1 & r1 & Hlogin & Ht1).
  destruct r1 as [err|token].
  { left. exists t1, err. split; [exact Ht1|].
    unfold main. cbv zeta. unfold cfg_of in Hbase, Hlogin.
    rewrite Hbase, Hlogin. now apply bind_Done_eq. }
  right.
  destruct (searchPasswords_returns w (cfg_of w) token (query_of w))
    as (t2 & r2 & Hsearch & Ht2).
  destruct r2 as [err|hits].
  { left. exists (t1 ++ t2)%list, err. split.
    - rewrite forallb_app, Ht1, Ht2. reflexivity.
    - unfold main. cbv zeta. unfold cfg_of, query_of in Hbase, Hlogin, Hsearch.
      rewrite Hbase, Hlogin, <- app_assoc. apply bind_Done_eq. cbv beta iota.
      rewrite Hsearch. now apply bind_Done_eq. }
  right. exists (t1 ++ t2)%list, token, hits. split.
  - rewrite forallb_app, Ht1, Ht2. reflexivity.
  - split; [now apply String.eqb_neq|]. now exists t1, t2.
Qed.

(* ------------------------------------------------------------------------- *)
(** ** The secret on its way to the clipboard *)
(* ------------------------------------------------------------------------- *)

Lemma copySecret_empty (w : World) (chosen : passwordDetail) :
  CryptedPassword chosen = "" ->
  copySecret w chosen
  = ([Fprintf Stderr "selected entry has empty cryptedPassword\n" []], Exited 1%Z).
Proof. intros Hs. unfold copySecret. now rewrite Hs. Qed.

Lemma copySecret_decoded (w : World) (chosen : passwordDetail)
      (argv : list string) (decoded : string) :
  CryptedPassword chosen <> "" ->
  detectClipboardCommand w = Some argv ->
  base64.DecodeString (CryptedPassword chosen) = Some decoded ->
  copySecret w chosen
  = (Run argv decoded :: fst (copyReport w argv decoded (Name chosen)),
     snd (copyReport w argv decoded (Name chosen))).
Proof.
  intros Hs Hclip Hdec. apply String.eqb_neq in Hs.
  unfold copySecret, copyToClipboard, copyReport. rewrite Hs, Hclip, Hdec.
  unfold bind, ret, emit. cbv beta iota zeta.
  destruct (runClipboard w argv decoded); reflexivity.
Qed.

Lemma copySecret_raw (w : World) (chosen : passwordDetail) (argv : list string) :
  CryptedPassword chosen <> "" ->
  detectClipboardCommand w = Some argv ->
  base64.DecodeString (CryptedPassword chosen) = None ->
  copySecret w chosen
  = (decodeWarning
       :: Run argv (CryptedPassword chosen)
       :: fst (copyReport w argv (CryptedPassword chosen) (Name chosen)),
     snd (copyReport w argv (CryptedPassword chosen) (Name chosen))).
Proof.
  intros Hs Hclip Hdec. apply String.eqb_neq in Hs.
  unfold copySecret, copyToClipboard, copyReport, decodeWarning.
  rewrite Hs, Hclip, Hdec.
  unfold bind, ret, emit. cbv beta iota zeta.
  destruct (runClipboard w argv (CryptedPassword chosen)); reflexivity.
Qed.

Lemma copyReport_no_Run (w : World) (argv : list string) (text name : string) :
  filter isRun (fst (copyReport w argv text name)) = [].
Proof. unfold copyReport. now destruct (runClipboard w argv text). Qed.

Lemma copySelected_chosen (w : World) (details : list passwordDetail)
      (selected : string) (chosen : passwordDetail) :
  selected <> "" ->
  findChosen details (nth 0 (strings.SplitN selected (String tab "") 2) "")
  = Some chosen ->
  copySelected w details selected = copySecret w chosen.
Proof.
  intros Hsel Hfind. apply String.eqb_neq in Hsel.
  unfold copySelected. now rewrite Hsel, Hfind.
Qed.


(* ------------------------------------------------------------------------- *)
(** ** Sample runs *)
(* ------------------------------------------------------------------------- *)

Example run_sample_world :
  @run insertionSorter sample_world
  = ([Request "POST" "https://pw.example/api/v4/auth/login/k3y";
      Request "POST" "https://pw.example/api/v4/passwords/search";
      Request "GET" "https://pw.example/api/v4/passwords/65f0c1";
      Run (fzfCommand sample_world)
          ("65f0c1" ++ String tab "GitHub | Team / Dev | bob |  | note=hi");
      Run ["pbcopy"] "hello";
      Fprintf Stdout "Copied password for %q to clipboard.\n" [OStr "GitHub"]],
     0%Z).
Proof. vm_compute. reflexivity. Qed.


(* ------------------------------------------------------------------------- *)
(** ** The selector *)
(* ------------------------------------------------------------------------- *)

Lemma run_eq `{sort.Sorter} (w : World) :
  run w = (fst (main w), exitStatus (snd (main w))).
Proof. unfold run. now destruct (main w) as [t [a|code]]. Qed.


Lemma forallb_weaken {A : Type} (f g : A -> bool) (l : list A) :
  (forall a, f a = true -> g a = true) ->
  forallb f l = true -> forallb g l = true.
Proof.
  intros Hfg. rewrite !forallb_forall. auto.
Qed.

(** After the selector the process makes no request and reports no
    selector error. *)
Lemma copySelected_events (w : World) (details : list passwordDetail)
      (selected : string) :
  forallb (fun e => negb (isRequest e) && negb (isSelectorError e))
          (fst (copySelected w details selected)) = true.
Proof.
  unfold copySelected, copySecret, copyToClipboard, bind, ret, emit, os_Exit,
    return_.
  repeat break_match; reflexivity.
Qed.

Lemma fetchTrace_no_Run (w : World) (cfg : Config) (token : string)
      (hits : list passwordSearchHit.t) (k : nat) :
  filter isRun (fetchTrace w cfg token hits k) = [].
Proof.
  revert k. induction hits as [|h hits IH]; intros k; [reflexivity|].
  cbn [fetchTrace]. destruct (fetched w cfg token (passwordSearchHit.ID h) k);
    cbn [filter isRun]; apply IH.
Qed.

Lemma requests_no_Run (t : list event) :
  forallb isRequest t = true -> filter isRun t = [].
Proof.
  induction t as [|e t IH]; [reflexivity|].
  cbn [forallb filter]. intros Hall. apply andb_prop in Hall as [He Ht].
  destruct e; try discriminate. cbn [isRun]. now apply IH.
Qed.

Lemma searched_requests `{sort.Sorter} (w : World) (t : list event)
      (token : string) (hits : list passwordSearchHit.t) :
  searched w t token hits -> forallb isRequest t = true.
Proof.
  intros (_ & t1 & t2 & Hlogin & Hsearch & ->).
  destruct (login_returns w (cfg_of w)) as (t1' & r1 & Hl & Ht1).
  destruct (searchPasswords_returns w (cfg_of w) token (query_of w))
    as (t2' & r2 & Hs & Ht2).
  rewrite Hlogin in Hl. rewrite Hsearch in Hs.
  injection Hl as <- _. injection Hs as <- _.
  now rewrite forallb_app, Ht1, Ht2.
Qed.


Lemma searched_world_with (hits : list passwordSearchHit.t)
      (detail : nat -> httpReply passwordGetResponse.t)
      (selector : string -> string + string) :
  searched (world_with hits detail selector) sample_requests "t0k3n" hits.
Proof.
  split; [discriminate|].
  exists [Request "POST" "https://pw.example/api/v4/auth/login/k3y"],
         [Request "POST" "https://pw.example/api/v4/passwords/search"].
  repeat split.
Qed.


(* ------------------------------------------------------------------------- *)
(** ** Resolving the selection *)
(* ------------------------------------------------------------------------- *)

Lemma findChosen_first (details : list passwordDetail) (id : string)
      (chosen : passwordDetail) :
  findChosen details id = Some chosen <->
  exists before after,
    details = (before ++ chosen :: after)%list
    /\ ID chosen = id
    /\ Forall (fun d => ID d <> id) before.
Proof.
  split.
  - induction details as [|d details IH]; [discriminate|].
    cbn [findChosen]. destruct (String.eqb (ID d) id) eqn:E.
    + intros [= ->]. exists [], details. apply String.eqb_eq in E. now repeat split.
    + intros Hfind. destruct (IH Hfind) as (before & after & -> & Hid & Hbefore).
      exists (d :: before), after. apply String.eqb_neq in E.
      split; [reflexivity|]. split; [exact Hid|]. now constructor.
  - intros (before & after & -> & Hid & Hbefore).
    induction Hbefore as [|d before Hd _ IH]; cbn [findChosen app].
    + apply String.eqb_eq in Hid. now rewrite Hid.
    + apply String.eqb_neq in Hd. now rewrite Hd.
Qed.

Lemma findChosen_none (details : list passwordDetail) (id : string) :
  findChosen details id = None <-> Forall (fun d => ID d <> id) details.
Proof.
  induction details as [|d details IH]; cbn [findChosen].
  - split; [constructor | reflexivity].
  - destruct (String.eqb (ID d) id) eqn:E.
    + apply String.eqb_eq in E. split; [discriminate|].
      intros Hall. inversion Hall; subst. contradiction.
    + apply String.eqb_neq in E. rewrite IH. split.
      * now constructor.
      * intros Hall. now inversion Hall.
Qed.

Lemma findChosen_formatted `{sort.Sorter} (details : list passwordDetail)
      (id : string) :
  findChosen (formatted details) id
  = option_map (fun d => snd (buildFzfLine d)) (findChosen details id).
Proof.
  induction details as [|d details IH]; [reflexivity|].
  cbn [formatted map findChosen]. rewrite buildFzfLine_record.
  cbn [with_Path ID]. destruct (String.eqb (ID d) id).
  - cbn [option_map]. now rewrite buildFzfLine_record.
  - exact IH.
Qed.

Lemma copySecret_Run (w : World) (chosen : passwordDetail) (argv : list string) :
  CryptedPassword chosen <> "" ->
  detectClipboardCommand w = Some argv ->
  filter isRun (fst (copySecret w chosen))
  = [Run argv (decodeB64OrRaw (CryptedPassword chosen))].
Proof.
  intros Hs Hclip. unfold decodeB64OrRaw.
  destruct (base64.DecodeString (CryptedPassword chosen)) as [decoded|] eqn:Hdec.
  - rewrite (copySecret_decoded w chosen argv decoded Hs Hclip Hdec).
    cbn [fst filter isRun]. now rewrite copyReport_no_Run.
  - rewrite (copySecret_raw w chosen argv Hs Hclip Hdec).
    unfold decodeWarning. cbn [fst filter isRun]. now rewrite copyReport_no_Run.
Qed.

(** C10.  After a non-empty selection the process makes no request: the
    identifier before the first TAB of the selected line is compared, by
    equality of strings, with the identifiers of the details fetched
    before, in the order in which they were fetched, and the first record
    that carries it is the one handed to [copySecret], records further down
    with the same identifier notwithstanding; its secret is the one put on
    the input of the clipboard command.  When no record carries the
    identifier the process ends with status 1. *)
Theorem C10_selection_resolved `{sort.Sorter} (w : World)
        (details : list passwordDetail) (selected : string) :
  selected <> "" ->
  let id := firstField selected in
  let rest := copySelected w (formatted details) selected in
  forallb (fun e => negb (isRequest e)) (fst rest) = true
  /\ (forall t token hits out,
         searched w t token hits ->
         details = fetchedDetails w (cfg_of w) token hits 0 ->
         details <> [] ->
         runSelector w (fzfCommand w) (selectorInput details) = inr out ->
         selected = strings.TrimSpace out ->
         main w = ((t ++ fetchTrace w (cfg_of w) token hits 0
                      ++ Run (fzfCommand w) (selectorInput details) :: fst rest)%list,
                   snd rest))
  /\ (forall before chosen after,
         details = (before ++ chosen :: after)%list ->
         ID chosen = id ->
         Forall (fun d => ID d <> id) before ->
         rest = copySecret w (snd (buildFzfLine chosen))
         /\ CryptedPassword (snd (buildFzfLine chosen)) = CryptedPassword chosen
         /\ (forall argv,
                CryptedPassword chosen <> "" ->
                detectClipboardCommand w = Some argv ->
                filter isRun (fst rest)
                = [Run argv (decodeB64OrRaw (CryptedPassword chosen))]))
  /\ (Forall (fun d => ID d <> id) details ->
      rest = ([Fprintf Stderr "could not find password for selected id %s\n"
                       [OStr id]],
              Exited 1%Z)).
Proof.
  intros Hsel id rest. split; [|split; [|split]].
  - eapply forallb_weaken; [|apply copySelected_events].
    intros e He. now apply andb_prop in He.
  - intros t token hits out Hsearched Hd Hne Hout Hselected.
    rewrite (main_searched w t token hits Hsearched).
    unfold afterSearch. cbv zeta. rewrite <- Hd.
    destruct hits as [|h hits]; [now subst details|].
    destruct details as [|d ds]; [congruence|].
    rewrite Hout, <- Hselected. reflexivity.
  - intros before chosen after Hdetails Hid Hbefore.
    assert (Hfind : findChosen details id = Some chosen)
      by (apply findChosen_first; now exists before, after).
    assert (Hrest : rest = copySecret w (snd (buildFzfLine chosen))).
    { subst rest. apply copySelected_chosen; [exact Hsel|].
      fold (firstField selected). fold id.
      now rewrite findChosen_formatted, Hfind. }
    assert (Hsecret : CryptedPassword (snd (buildFzfLine chosen))
                      = CryptedPassword chosen)
      by now rewrite buildFzfLine_record.
    split; [exact Hrest|]. split; [exact Hsecret|].
    intros argv Hs Hclip. rewrite Hrest, <- Hsecret.
    apply copySecret_Run; [now rewrite Hsecret | exact Hclip].
  - intros Hall. apply findChosen_none in Hall.
    subst rest. unfold copySelected. apply String.eqb_neq in Hsel. rewrite Hsel.
    fold (firstField selected). fold id.
    now rewrite findChosen_formatted, Hall.
Qed.

Example dup_secrets :
  base64.EncodeToString "first" = CryptedPassword first_dup
  /\ base64.EncodeToString "second" = CryptedPassword second_dup
  /\ fst (@buildFzfLine insertionSorter second_dup) = second_line.
Proof. repeat split. Qed.

Example run_dup_world :
  @run insertionSorter dup_world
  = ([Request "POST" "https://pw.example/api/v4/auth/login/k3y";
      Request "POST" "https://pw.example/api/v4/passwords/search";
      Request "GET" "https://pw.example/api/v4/passwords/dup";
      Request "GET" "https://pw.example/api/v4/passwords/dup";
      Run (fzfCommand dup_world)
          ("dup" ++ String tab "First | - |  |  | " ++ String newline second_line);
      Run ["pbcopy"] "first";
      Fprintf Stdout "Copied password for %q to clipboard.\n" [OStr "First"]],
     0%Z).
Proof. vm_compute. reflexivity. Qed.

Lemma C10_selection_resolved_witness :
  filter isRun
         (fst (copySelected dup_world
                 (@formatted insertionSorter [first_dup; second_dup])
                 (strings.TrimSpace (second_line ++ String newline ""))))
  = [Run ["pbcopy"] "first"]
  /\ @main insertionSorter dup_world
     = ((sample_requests
           ++ [Request "GET" "https://pw.example/api/v4/passwords/dup";
               Request "GET" "https://pw.example/api/v4/passwords/dup";
               Run (fzfCommand dup_world)
                   ("dup" ++ String tab "First | - |  |  | "
                          ++ String newline second_line);
               Run ["pbcopy"] "first";
               Fprintf Stdout "Copied password for %q to clipboard.\n"
                       [OStr "First"]])%list,
        Done tt)
  /\ copySelected dup_world (@formatted insertionSorter [first_dup]) second_line
     = copySecret dup_world first_dup
  /\ copySelected dup_world (@formatted insertionSorter [sample_record]) second_line
     = ([Fprintf Stderr "could not find password for selected id %s\n"
                 [OStr "dup"]],
        Exited 1%Z).
Proof.
  split; [|split; [|split]].
  - pose proof (@C10_selection_resolved insertionSorter dup_world
                  [first_dup; second_dup]
                  (strings.TrimSpace (second_line ++ String newline "")))
      as Hc.
    destruct Hc as (_ & _ & Hfirst & _); [discriminate|].
    destruct (Hfirst [] first_dup [second_dup]) as (_ & _ & Hrun);
      [reflexivity | reflexivity | constructor |].
    apply (Hrun ["pbcopy"]); [discriminate | reflexivity].
  - pose proof (@C10_selection_resolved insertionSorter dup_world
                  [first_dup; second_dup]
                  (strings.TrimSpace (second_line ++ String newline "")))
      as Hc.
    destruct Hc as (_ & Hmain & _); [discriminate|].
    apply (Hmain sample_requests "t0k3n" _ (second_line ++ String newline "")
                 (searched_world_with _ _ _));
      [reflexivity | discriminate | reflexivity | reflexivity].
  - pose proof (@C10_selection_resolved insertionSorter dup_world
                  [first_dup] second_line) as Hc.
    destruct Hc as (_ & _ & Hfirst & _); [discriminate|].
    apply (Hfirst [] first_dup []); [reflexivity | reflexivity | constructor].
  - pose proof (@C10_selection_resolved insertionSorter dup_world
                  [sample_record] second_line) as Hc.
    destruct Hc as (_ & _ & _ & Hnone); [discriminate|].
    apply Hnone. repeat constructor. discriminate.
Defined.

(* ------------------------------------------------------------------------- *)
(** ** Details that cannot be fetched *)
(* ------------------------------------------------------------------------- *)

Lemma fetchedDetails_In (w : World) (cfg : Config) (token : string)
      (hits : list passwordSearchHit.t) (k : nat) (d : passwordDetail) :
  In d (fetchedDetails w cfg token hits k) <->
  exists i h,
    nth_error hits i = Some h
    /\ fetched w cfg token (passwordSearchHit.ID h) (k + i) = inr d.
Proof.
  revert k. induction hits as [|h hits IH]; intros k.
  - split; [intros [] | intros (i & h & Hnth & _); now destruct i].
  - cbn [fetchedDetails]. split.
    + intros Hin.
      destruct (fetched w cfg token (passwordSearchHit.ID h) k) as [err|d'] eqn:E.
      * apply IH in Hin as (i & h' & Hnth & Hf).
        exists (S i), h'. split; [exact Hnth|].
        now replace (k + S i)%nat with (S k + i)%nat by lia.
      * destruct Hin as [<-|Hin].
        -- exists 0%nat, h. split; [reflexivity|].
           now replace (k + 0)%nat with k by lia.
        -- apply IH in Hin as (i & h' & Hnth & Hf).
           exists (S i), h'. split; [exact Hnth|].
           now replace (k + S i)%nat with (S k + i)%nat by lia.
    + intros (i & h' & Hnth & Hf). destruct i as [|i].
      * injection Hnth as <-. replace (k + 0)%nat with k in Hf by lia.
        rewrite Hf. now left.
      * replace (k + S i)%nat with (S k + i)%nat in Hf by lia.
        assert (Hin : In d (fetchedDetails w cfg token hits (S k)))
          by (apply IH; now exists i, h').
        destruct (fetched w cfg token (passwordSearchHit.ID h) k);
          [exact Hin | now right].
Qed.

Lemma fetchTrace_warning (w : World) (cfg : Config) (token : string)
      (hits : list passwordSearchHit.t) (k i : nat) (h : passwordSearchHit.t)
      (err : error) :
  nth_error hits i = Some h ->
  fetched w cfg token (passwordSearchHit.ID h) (k + i) = inl err ->
  In (skipWarning (passwordSearchHit.ID h) err) (fetchTrace w cfg token hits k).
Proof.
  revert k i. induction hits as [|h0 hits IH]; intros k i Hnth Hf.
  - now destruct i.
  - cbn [fetchTrace]. destruct i as [|i].
    + injection Hnth as ->. replace (k + 0)%nat with k in Hf by lia.
      rewrite Hf. right. now left.
    + replace (k + S i)%nat with (S k + i)%nat in Hf by lia.
      pose proof (IH (S k) i Hnth Hf) as Hin.
      destruct (fetched w cfg token (passwordSearchHit.ID h0) k);
        [right; right; exact Hin | right; exact Hin].
Qed.

Lemma fetchedDetails_app (w : World) (cfg : Config) (token : string)
      (hits1 hits2 : list passwordSearchHit.t) (k : nat) :
  fetchedDetails w cfg token (hits1 ++ hits2) k
  = (fetchedDetails w cfg token hits1 k
       ++ fetchedDetails w cfg token hits2 (k + List.length hits1))%list.
Proof.
  revert k. induction hits1 as [|h hits1 IH]; intros k.
  - cbn. now replace (k + 0)%nat with k by lia.
  - cbn [app fetchedDetails List.length]. rewrite IH.
    replace (S k + List.length hits1)%nat with (k + S (List.length hits1))%nat
      by lia.
    now destruct (fetched w cfg token (passwordSearchHit.ID h) k).
Qed.

(** C7, amended.  A detail request that fails is not fatal: a warning goes
    to the error stream, the identifier is skipped and the loop goes on, so
    that the details kept are those of the hits whose request succeeded, in
    the order of the hits.  When the search has no hit, or no request
    succeeds, the process prints a message and ends with status 0 without
    running any command.  When the search has two hits and the request
    fails for exactly one of them, the selector is given exactly one line,
    that of the record fetched for the other; the identifier of the failed
    hit is not among the displayed identifiers provided the record fetched
    carries the identifier of its own hit, free of TAB, and the two hits
    have different identifiers. *)
Theorem C7_fetch_failures_skipped `{sort.Sorter} (w : World) (t : list event)
        (token : string) (hits : list passwordSearchHit.t) :
  searched w t token hits ->
  let cfg := cfg_of w in
  let details := fetchedDetails w cfg token hits 0 in
  let fetching := fetchTrace w cfg token hits 0 in
  (fetchDetails w cfg token hits 0 [] = (fetching, Done details)
   /\ (forall d, In d details <->
                 exists i h, nth_error hits i = Some h
                             /\ fetched w cfg token (passwordSearchHit.ID h) i = inr d)
   /\ (forall hits1 hits2,
          hits = (hits1 ++ hits2)%list ->
          details = (fetchedDetails w cfg token hits1 0
                       ++ fetchedDetails w cfg token hits2 (List.length hits1))%list)
   /\ (forall i h err,
          nth_error hits i = Some h ->
          fetched w cfg token (passwordSearchHit.ID h) i = inl err ->
          In (skipWarning (passwordSearchHit.ID h) err) fetching))
  /\ (hits = [] ->
      run w = ((t ++ [Fprintf Stderr "no passwords found for query %q\n"
                              [OStr (query_of w)]])%list, 0%Z)
      /\ filter isRun (fst (run w)) = [])
  /\ (hits <> [] -> details = [] ->
      run w = ((t ++ fetching
                  ++ [Fprintf Stderr "no usable password entries\n" []])%list, 0%Z)
      /\ filter isRun (fst (run w)) = [])
  /\ (forall h1 h2 failed kept err d,
         hits = [h1; h2] ->
         (failed = h1 /\ kept = h2
          /\ fetched w cfg token (passwordSearchHit.ID h1) 0 = inl err
          /\ fetched w cfg token (passwordSearchHit.ID h2) 1 = inr d)
         \/ (failed = h2 /\ kept = h1
             /\ fetched w cfg token (passwordSearchHit.ID h1) 0 = inr d
             /\ fetched w cfg token (passwordSearchHit.ID h2) 1 = inl err) ->
         linesOf details = [fst (buildFzfLine d)]
         /\ In (skipWarning (passwordSearchHit.ID failed) err) (fst (run w))
         /\ In (Run (fzfCommand w) (fst (buildFzfLine d))) (fst (run w))
         /\ (ID d = passwordSearchHit.ID kept ->
             free_of tab (ID d) ->
             passwordSearchHit.ID kept <> passwordSearchHit.ID failed ->
             ~ In (passwordSearchHit.ID failed) (displayedIds details))).
Proof.
  intros Hsearched cfg details fetching.
  pose proof (main_searched w t token hits Hsearched) as Hmain.
  pose proof (searched_requests w t token hits Hsearched) as Hreq.
  split; [|split; [|split]].
  - split; [apply (fetchDetails_eq w cfg token hits 0 [])|].
    split; [intros d; apply (fetchedDetails_In w cfg token hits 0 d)|].
    split.
    + intros hits1 hits2 ->. apply (fetchedDetails_app w cfg token hits1 hits2 0).
    + intros i h err. apply (fetchTrace_warning w cfg token hits 0 i h err).
  - intros ->. rewrite run_eq, Hmain. cbn [afterSearch fst snd exitStatus].
    split; [reflexivity|].
    rewrite filter_app, (requests_no_Run t Hreq). reflexivity.
  - intros Hhits Hnone. rewrite run_eq, Hmain. unfold afterSearch. cbv zeta.
    fold cfg. fold details. fold fetching. rewrite Hnone.
    destruct hits as [|h hits]; [congruence|]. cbn [fst snd exitStatus].
    split; [reflexivity|].
    rewrite !filter_app, (requests_no_Run t Hreq).
    unfold fetching. now rewrite fetchTrace_no_Run.
  - intros h1 h2 failed kept err d -> Hcase.
    assert (Hdetails : details = [d]).
    { subst details. cbn [fetchedDetails].
      destruct Hcase as [(_ & _ & H1 & H2)|(_ & _ & H1 & H2)];
        now rewrite H1, H2. }
    assert (Hwarn : In (skipWarning (passwordSearchHit.ID failed) err) fetching).
    { subst fetching. cbn [fetchTrace].
      destruct Hcase as [(-> & _ & H1 & H2)|(-> & _ & H1 & H2)];
        rewrite H1, H2; cbn; auto. }
    assert (Htrace : fst (run w)
                     = (t ++ fst (afterSearch w token [h1; h2]))%list)
      by now rewrite run_eq, Hmain.
    split; [now rewrite Hdetails|].
    split; [|split].
    + rewrite Htrace. apply in_or_app. right.
      unfold afterSearch. cbv zeta. fold cfg. fold details. fold fetching.
      rewrite Hdetails.
      destruct (runSelector w (fzfCommand w) (selectorInput [d]));
        cbn [fst]; apply in_or_app; now left.
    + rewrite Htrace. apply in_or_app. right.
      unfold afterSearch. cbv zeta. fold cfg. fold details. fold fetching.
      rewrite Hdetails.
      change (selectorInput [d]) with (fst (buildFzfLine d)).
      destruct (runSelector w (fzfCommand w) (fst (buildFzfLine d)));
        cbn [fst]; apply in_or_app; right; now left.
    + intros Hid Hfree Hdiff. unfold displayedIds. rewrite Hdetails.
      cbn [linesOf map]. rewrite buildFzfLine_line.
      rewrite (firstField_before_tab _ _ Hfree), Hid.
      intros [Hin|[]]. now apply Hdiff.
Qed.

Example run_one_gone_world :
  @run insertionSorter one_gone_world
  = ([Request "POST" "https://pw.example/api/v4/auth/login/k3y";
      Request "POST" "https://pw.example/api/v4/passwords/search";
      Request "GET" "https://pw.example/api/v4/passwords/65f0c1";
      Request "GET" "https://pw.example/api/v4/passwords/77aa02";
      skipWarning "77aa02" (goneError "77aa02");
      Run (fzfCommand one_gone_world)
          ("65f0c1" ++ String tab "GitHub | Team / Dev | bob |  | note=hi")],
     0%Z).
Proof. vm_compute. reflexivity. Qed.

Lemma C7_fetch_failures_skipped_witness :
  (@run insertionSorter no_hits_world
   = ((sample_requests
         ++ [Fprintf Stderr "no passwords found for query %q\n" [OStr "git hub"]])%list,
      0%Z))
  /\ (@run insertionSorter all_gone_world
      = ((sample_requests
            ++ [Request "GET" "https://pw.example/api/v4/passwords/65f0c1";
                skipWarning "65f0c1" (goneError "65f0c1");
                Request "GET" "https://pw.example/api/v4/passwords/77aa02";
                skipWarning "77aa02" (goneError "77aa02");
                Fprintf Stderr "no usable password entries\n" []])%list,
         0%Z))
  /\ ~ In "77aa02"
        (@displayedIds insertionSorter
           (fetchedDetails one_gone_world (cfg_of one_gone_world) "t0k3n"
              [passwordSearchHit.mk "65f0c1" "GitHub";
               passwordSearchHit.mk "77aa02" "GitLab"] 0)).
Proof.
  split; [|split].
  - pose proof (@C7_fetch_failures_skipped insertionSorter no_hits_world
                  sample_requests "t0k3n" [] (searched_world_with _ _ _))
      as (_ & Hnone & _).
    apply Hnone. reflexivity.
  - pose proof (@C7_fetch_failures_skipped insertionSorter all_gone_world
                  sample_requests "t0k3n" _ (searched_world_with _ _ _))
      as (_ & _ & Hall & _).
    apply Hall; [discriminate | reflexivity].
  - pose proof (@C7_fetch_failures_skipped insertionSorter one_gone_world
                  sample_requests "t0k3n" _ (searched_world_with _ _ _))
      as (_ & _ & _ & Htwo).
    apply (Htwo (passwordSearchHit.mk "65f0c1" "GitHub")
                (passwordSearchHit.mk "77aa02" "GitLab")
                (passwordSearchHit.mk "77aa02" "GitLab")
                (passwordSearchHit.mk "65f0c1" "GitHub")
                (goneError "77aa02") sample_record).
    + reflexivity.
    + right. repeat split.
    + reflexivity.
    + vm_compute. repeat split; discriminate.
    + discriminate.
Defined.

(** C7 as stated fails: in [flaky_world] the search has two hits, the first
    request fails, one line is offered, and it carries the identifier of
    the failed hit. *)
Lemma C7_counterexample :
  searched flaky_world sample_requests "t0k3n"
           [passwordSearchHit.mk "dup" "First"; passwordSearchHit.mk "dup" "Second"]
  /\ fetched flaky_world (cfg_of flaky_world) "t0k3n" "dup" 0
     = inl (goneError "dup")
  /\ fetched flaky_world (cfg_of flaky_world) "t0k3n" "dup" 1 = inr second_dup
  /\ @linesOf insertionSorter
       (fetchedDetails flaky_world (cfg_of flaky_world) "t0k3n"
          [passwordSearchHit.mk "dup" "First"; passwordSearchHit.mk "dup" "Second"] 0)
     = [second_line]
  /\ In "dup"
        (@displayedIds insertionSorter
           (fetchedDetails flaky_world (cfg_of flaky_world) "t0k3n"
              [passwordSearchHit.mk "dup" "First";
               passwordSearchHit.mk "dup" "Second"] 0))
  /\ @run insertionSorter flaky_world
     = ((sample_requests
           ++ [Request "GET" "https://pw.example/api/v4/passwords/dup";
               skipWarning "dup" (goneError "dup");
               Request "GET" "https://pw.example/api/v4/passwords/dup";
               Run (fzfCommand flaky_world) second_line])%list,
        0%Z).
Proof.
  split; [apply searched_world_with|].
  repeat split; try reflexivity. now left.
Qed.

(* ------------------------------------------------------------------------- *)
(** ** Blank fields stay blank when decoded *)
(* ------------------------------------------------------------------------- *)

Section Blank.

Local Open Scope Z_scope.

Lemma highb_blankb (l : list ascii) :
  forallb highb l = true -> forallb blankb l = true.
Proof.
  apply forallb_weaken. intros c Hc. unfold blankb. rewrite Hc.
  apply orb_true_r.
Qed.

Lemma first_accept (s0 : Z) (sz : nat) (lo hi : Z) :
  utf8.first s0 = Some (sz, lo, hi) -> 0x80 <= lo.
Proof.
  unfold utf8.first. repeat break_match; intros [= <- <- <-]; lia.
Qed.

Lemma is_cont_high (c : ascii) :
  utf8.is_cont (byte_val c) = true -> highb c = true.
Proof.
  unfold utf8.is_cont, highb. intros Hc. apply andb_prop in Hc as [Hc _].
  exact Hc.
Qed.

(** A rune decoded from more than one byte is made of bytes from [0x80]
    up. *)
Lemma DecodeRuneInString_wide (s : list ascii) (r : Z) (size : nat) :
  utf8.DecodeRuneInString s = (r, size) -> (2 <= size)%nat ->
  (size <= List.length s)%nat /\ forallb highb (firstn size s) = true.
Proof.
  unfold utf8.DecodeRuneInString.
  destruct s as [|c0 t0]; [intros [= _ <-]; lia|].
  cbv zeta.
  destruct (byte_val c0 <? utf8.RuneSelf) eqn:E0; [intros [= _ <-]; lia|].
  assert (H0 : highb c0 = true).
  { unfold highb. apply Z.ltb_ge in E0. apply Z.leb_le. exact E0. }
  destruct (utf8.first (byte_val c0)) as [[[sz lo] hi]|] eqn:Ef;
    [|intros [= _ <-]; lia].
  pose proof (first_accept _ _ _ _ Ef) as Hlo.
  destruct (List.length (c0 :: t0) <? sz)%nat; [intros [= _ <-]; lia|].
  destruct t0 as [|c1 t1]; [intros [= _ <-]; lia|].
  destruct ((byte_val c1 <? lo) || (hi <? byte_val c1)) eqn:E1;
    [intros [= _ <-]; lia|].
  assert (H1 : highb c1 = true).
  { unfold highb. apply orb_false_elim in E1 as [E1 _].
    apply Z.ltb_ge in E1. apply Z.leb_le. lia. }
  destruct (sz <=? 2)%nat.
  { intros [= _ <-] _. cbn [List.length firstn forallb].
    rewrite H0, H1. split; [lia | reflexivity]. }
  destruct t1 as [|c2 t2]; [intros [= _ <-]; lia|].
  destruct (utf8.is_cont (byte_val c2)) eqn:E2; cbn [negb];
    [|intros [= _ <-]; lia].
  apply is_cont_high in E2.
  destruct (sz <=? 3)%nat.
  { intros [= _ <-] _. cbn [List.length firstn forallb].
    rewrite H0, H1, E2. split; [lia | reflexivity]. }
  destruct t2 as [|c3 t3]; [intros [= _ <-]; lia|].
  destruct (utf8.is_cont (byte_val c3)) eqn:E3; cbn [negb];
    [|intros [= _ <-]; lia].
  apply is_cont_high in E3.
  intros [= _ <-] _. cbn [List.length firstn forallb].
  rewrite H0, H1, E2, E3. split; [lia | reflexivity].
Qed.

Lemma DecodeRuneInString_width (s : list ascii) :
  s <> [] -> (1 <= snd (utf8.DecodeRuneInString s))%nat.
Proof.
  intros Hs. unfold utf8.DecodeRuneInString.
  destruct s as [|c0 t0]; [congruence|]. cbv zeta.
  repeat break_match; cbn [snd]; lia.
Qed.

Lemma IsSpace_ascii (c : ascii) :
  byte_val c < utf8.RuneSelf -> unicode.IsSpace (byte_val c) = true ->
  strings.asciiSpace c = true.
Proof.
  unfold utf8.RuneSelf, unicode.IsSpace, strings.asciiSpace. intros Hc.
  replace (byte_val c <=? 0xFF) with true by (symmetry; apply Z.leb_le; lia).
  replace (byte_val c =? 0x85) with false by (symmetry; apply Z.eqb_neq; lia).
  replace (byte_val c =? 0xA0) with false by (symmetry; apply Z.eqb_neq; lia).
  now rewrite !orb_false_r.
Qed.

Lemma IsSpace_RuneError : unicode.IsSpace utf8.RuneError = false.
Proof. reflexivity. Qed.

(** A white-space rune at the front of [s]: one ASCII space, or a sequence
    of bytes from [0x80] up. *)
Lemma DecodeRuneInString_space (s : list ascii) (r : Z) (size : nat) :
  utf8.DecodeRuneInString s = (r, size) -> unicode.IsSpace r = true ->
  (1 <= size <= List.length s)%nat /\ forallb blankb (firstn size s) = true.
Proof.
  intros Hdec Hspace.
  destruct (Nat.le_gt_cases 2 size) as [Hwide|Hnarrow].
  - destruct (DecodeRuneInString_wide s r size Hdec Hwide) as [Hlen Hhigh].
    split; [lia | now apply highb_blankb].
  - revert Hdec. unfold utf8.DecodeRuneInString.
    destruct s as [|c0 t0].
    { intros [= <- _]. now rewrite IsSpace_RuneError in Hspace. }
    cbv zeta. destruct (byte_val c0 <? utf8.RuneSelf) eqn:E0.
    + intros [= <- <-]. apply Z.ltb_lt in E0.
      cbn [List.length firstn forallb]. unfold blankb.
      rewrite (IsSpace_ascii c0 E0 Hspace). split; [lia | reflexivity].
    + repeat break_match; intros [= <- <-];
        try (now rewrite IsSpace_RuneError in Hspace); lia.
Qed.

End Blank.

Section BlankTrim.

Local Open Scope Z_scope.

Lemma DecodeRuneInString_max (s : list ascii) :
  (snd (utf8.DecodeRuneInString s) <= 4)%nat.
Proof.
  unfold utf8.DecodeRuneInString. destruct s as [|c0 t0]; [cbn; lia|].
  cbv zeta. repeat break_match; cbn [snd]; lia.
Qed.

(** What [TrimLeftFunc] removes is blank. *)
Lemma TrimLeftFunc_blank (n : nat) (s : list ascii) :
  (List.length s <= n)%nat ->
  exists removed,
    s = (removed ++ strings.TrimLeftFunc s unicode.IsSpace)%list
    /\ forallb blankb removed = true.
Proof.
  revert s. induction n as [|n IH]; intros s Hn.
  { destruct s; [|cbn in Hn; lia]. now exists []. }
  destruct s as [|c0 s1]; [now exists []|].
  cbn [strings.TrimLeftFunc].
  destruct (utf8.DecodeRuneInString (c0 :: s1)) as [r size] eqn:Hdec.
  destruct (unicode.IsSpace r) eqn:Hspace; [|now exists []].
  destruct (DecodeRuneInString_space _ _ _ Hdec Hspace) as [Hsize Hblank].
  pose proof (DecodeRuneInString_max (c0 :: s1)) as Hmax.
  rewrite Hdec in Hmax. cbn [snd] in Hmax. cbn [List.length] in Hn, Hsize.
  destruct size as [|[|[|[|[|size]]]]]; try lia.
  - destruct (IH s1 ltac:(lia)) as (removed & Heq & Hrem).
    exists (c0 :: removed). cbn [app forallb firstn] in *.
    rewrite <- Heq. split; [reflexivity|].
    apply andb_prop in Hblank as [-> _]. exact Hrem.
  - destruct s1 as [|c1 s2]; [cbn in Hsize; lia|]. cbn [List.length] in Hn.
    destruct (IH s2 ltac:(lia)) as (removed & Heq & Hrem).
    exists (c0 :: c1 :: removed). cbn [app forallb firstn] in *.
    rewrite <- Heq. split; [reflexivity|].
    apply andb_prop in Hblank as [-> Hblank].
    apply andb_prop in Hblank as [-> _]. exact Hrem.
  - destruct s1 as [|c1 [|c2 s3]]; try (cbn in Hsize; lia).
    cbn [List.length] in Hn.
    destruct (IH s3 ltac:(lia)) as (removed & Heq & Hrem).
    exists (c0 :: c1 :: c2 :: removed). cbn [app forallb firstn] in *.
    rewrite <- Heq. split; [reflexivity|].
    apply andb_prop in Hblank as [-> Hblank].
    apply andb_prop in Hblank as [-> Hblank].
    apply andb_prop in Hblank as [-> _]. exact Hrem.
  - destruct s1 as [|c1 [|c2 [|c3 s4]]]; try (cbn in Hsize; lia).
    cbn [List.length] in Hn.
    destruct (IH s4 ltac:(lia)) as (removed & Heq & Hrem).
    exists (c0 :: c1 :: c2 :: c3 :: removed). cbn [app forallb firstn] in *.
    rewrite <- Heq. split; [reflexivity|].
    apply andb_prop in Hblank as [-> Hblank].
    apply andb_prop in Hblank as [-> Hblank].
    apply andb_prop in Hblank as [-> Hblank].
    apply andb_prop in Hblank as [-> _]. exact Hrem.
Qed.

(** The check [DecodeLastRuneInString] makes on the bytes it looked back
    over. *)
Lemma lookback_space (cand : list ascii) (k : nat) (r : Z) (size : nat) :
  (let '(r', size') := utf8.DecodeRuneInString cand in
   if (size' =? k)%nat then (r', size') else (utf8.RuneError, 1%nat)) = (r, size) ->
  unicode.IsSpace r = true -> (2 <= k)%nat -> List.length cand = k ->
  size = k /\ forallb highb cand = true.
Proof.
  destruct (utf8.DecodeRuneInString cand) as [r' size'] eqn:Hdec.
  destruct (size' =? k)%nat eqn:Hk.
  - apply Nat.eqb_eq in Hk. subst size'. intros [= <- <-] Hspace Hwide Hlen.
    destruct (DecodeRuneInString_wide _ _ _ Hdec Hwide) as [_ Hhigh].
    rewrite <- Hlen, firstn_all in Hhigh. now split.
  - intros [= <- _] Hspace. now rewrite IsSpace_RuneError in Hspace.
Qed.

(** A white-space rune at the end of the string ([rs] is the string
    reversed). *)
Lemma DecodeLastRuneInString_space (rs : list ascii) (r : Z) (size : nat) :
  utf8.DecodeLastRuneInString rs = (r, size) -> unicode.IsSpace r = true ->
  (1 <= size <= 4)%nat /\ (size <= List.length rs)%nat
  /\ forallb blankb (firstn size rs) = true.
Proof.
  unfold utf8.DecodeLastRuneInString. cbv zeta.
  destruct rs as [|c rest].
  { intros [= <- _] Hs. now rewrite IsSpace_RuneError in Hs. }
  destruct (byte_val c <? utf8.RuneSelf) eqn:E0.
  { intros [= <- <-] Hs. apply Z.ltb_lt in E0.
    cbn [List.length firstn forallb]. unfold blankb.
    rewrite (IsSpace_ascii c E0 Hs). repeat split; lia. }
  destruct rest as [|b2 rest2].
  { intros [= <- _] Hs. now rewrite IsSpace_RuneError in Hs. }
  destruct (utf8.RuneStart b2).
  { intros Hdec Hs.
    destruct (lookback_space [b2; c] 2 r size Hdec Hs) as [-> Hhigh];
      [lia | reflexivity |].
    apply highb_blankb in Hhigh. cbn [forallb] in Hhigh.
    cbn [List.length firstn forallb].
    apply andb_prop in Hhigh as [H2 Hhigh]. apply andb_prop in Hhigh as [H1 _].
    rewrite H1, H2. repeat split; lia. }
  destruct rest2 as [|b3 rest3].
  { intros [= <- _] Hs. now rewrite IsSpace_RuneError in Hs. }
  destruct (utf8.RuneStart b3).
  { intros Hdec Hs.
    destruct (lookback_space [b3; b2; c] 3 r size Hdec Hs) as [-> Hhigh];
      [lia | reflexivity |].
    apply highb_blankb in Hhigh. cbn [forallb] in Hhigh.
    cbn [List.length firstn forallb].
    apply andb_prop in Hhigh as [H3 Hhigh]. apply andb_prop in Hhigh as [H2 Hhigh].
    apply andb_prop in Hhigh as [H1 _].
    rewrite H1, H2, H3. repeat split; lia. }
  destruct rest3 as [|b4 rest4].
  { intros [= <- _] Hs. now rewrite IsSpace_RuneError in Hs. }
  destruct (utf8.RuneStart b4).
  { intros Hdec Hs.
    destruct (lookback_space [b4; b3; b2; c] 4 r size Hdec Hs) as [-> Hhigh];
      [lia | reflexivity |].
    apply highb_blankb in Hhigh. cbn [forallb] in Hhigh.
    cbn [List.length firstn forallb].
    apply andb_prop in Hhigh as [H4 Hhigh]. apply andb_prop in Hhigh as [H3 Hhigh].
    apply andb_prop in Hhigh as [H2 Hhigh]. apply andb_prop in Hhigh as [H1 _].
    rewrite H1, H2, H3, H4. repeat split; lia. }
  intros [= <- _] Hs. now rewrite IsSpace_RuneError in Hs.
Qed.

End BlankTrim.

Section BlankStrings.

Local Open Scope Z_scope.

(** When every rune is white space from the end backwards, every byte is
    blank. *)
Lemma lastIndexFunc_blank (n : nat) (rs : list ascii) :
  (List.length rs <= n)%nat ->
  strings.lastIndexFunc rs unicode.IsSpace false = None ->
  forallb blankb rs = true.
Proof.
  revert rs. induction n as [|n IH]; intros rs Hn.
  { destruct rs; [reflexivity | cbn in Hn; lia]. }
  destruct rs as [|c0 r1]; [reflexivity|].
  cbn [strings.lastIndexFunc].
  destruct (utf8.DecodeLastRuneInString (c0 :: r1)) as [r size] eqn:Hdec.
  destruct (unicode.IsSpace r) eqn:Hspace; cbn [Bool.eqb]; [|discriminate].
  destruct (DecodeLastRuneInString_space _ _ _ Hdec Hspace)
    as (Hsize & Hlen & Hblank).
  cbn [List.length] in Hn, Hlen.
  destruct size as [|[|[|[|[|size]]]]]; try lia.
  - intros Hnone. cbn [forallb firstn] in *.
    apply andb_prop in Hblank as [-> _]. apply IH; [lia | exact Hnone].
  - destruct r1 as [|c1 r2]; [cbn in Hlen; lia|]. cbn [List.length] in Hn.
    intros Hnone. cbn [forallb firstn] in *.
    apply andb_prop in Hblank as [-> Hblank].
    apply andb_prop in Hblank as [-> _]. apply IH; [lia | exact Hnone].
  - destruct r1 as [|c1 [|c2 r3]]; try (cbn in Hlen; lia).
    cbn [List.length] in Hn.
    intros Hnone. cbn [forallb firstn] in *.
    apply andb_prop in Hblank as [-> Hblank].
    apply andb_prop in Hblank as [-> Hblank].
    apply andb_prop in Hblank as [-> _]. apply IH; [lia | exact Hnone].
  - destruct r1 as [|c1 [|c2 [|c3 r4]]]; try (cbn in Hlen; lia).
    cbn [List.length] in Hn.
    intros Hnone. cbn [forallb firstn] in *.
    apply andb_prop in Hblank as [-> Hblank].
    apply andb_prop in Hblank as [-> Hblank].
    apply andb_prop in Hblank as [-> Hblank].
    apply andb_prop in Hblank as [-> _]. apply IH; [lia | exact Hnone].
Qed.

Lemma forallb_rev {A : Type} (f : A -> bool) (l : list A) :
  forallb f (rev l) = forallb f l.
Proof.
  induction l as [|a l IH]; [reflexivity|].
  cbn [rev forallb]. rewrite forallb_app, IH. cbn [forallb].
  rewrite andb_true_r. apply andb_comm.
Qed.

Lemma firstn_nil_inv {A : Type} (k : nat) (l : list A) :
  firstn k l = [] -> k = 0%nat \/ l = [].
Proof. destruct k, l; cbn; intros; auto; discriminate. Qed.

Lemma TrimRightFunc_blank (s : list ascii) :
  strings.TrimRightFunc s unicode.IsSpace = [] -> forallb blankb s = true.
Proof.
  unfold strings.TrimRightFunc.
  destruct (strings.lastIndexFunc (rev s) unicode.IsSpace false) as [i|] eqn:Hlast.
  - destruct (utf8.RuneSelf <=? byte_val (nth i s zero)).
    + intros Hnil. apply firstn_nil_inv in Hnil as [Hk| ->]; [|reflexivity].
      destruct s as [|c s]; [reflexivity|].
      assert (i = 0%nat) by lia. subst i. cbn [skipn] in Hk.
      pose proof (DecodeRuneInString_width (c :: s) ltac:(discriminate)). lia.
    + intros Hnil. apply firstn_nil_inv in Hnil as [Hk| ->];
        [lia | reflexivity].
  - intros _. rewrite <- forallb_rev.
    now apply (lastIndexFunc_blank (List.length (rev s))).
Qed.

Lemma TrimFunc_blank (s : list ascii) :
  strings.TrimFunc s unicode.IsSpace = [] -> forallb blankb s = true.
Proof.
  unfold strings.TrimFunc. intros Hnil. apply TrimRightFunc_blank in Hnil.
  destruct (TrimLeftFunc_blank (List.length s) s (le_n _))
    as (removed & Heq & Hrem).
  rewrite Heq, forallb_app, Hrem, Hnil. reflexivity.
Qed.

Lemma trimSpaceStop_blank (rs : list ascii) :
  strings.trimSpaceStop rs = [] -> forallb blankb rs = true.
Proof.
  induction rs as [|c rs IH]; [reflexivity|].
  cbn [strings.trimSpaceStop].
  destruct (utf8.RuneSelf <=? byte_val c) eqn:Ehigh.
  - intros Hnil. apply TrimRightFunc_blank in Hnil.
    now rewrite forallb_rev in Hnil.
  - destruct (strings.asciiSpace c) eqn:Espace.
    + intros Hnil. cbn [forallb]. unfold blankb at 1. rewrite Espace.
      now apply IH.
    + intros Hnil. apply (f_equal (@List.length ascii)) in Hnil.
      rewrite length_rev in Hnil. discriminate.
Qed.

Lemma trimSpaceStart_blank (s : list ascii) :
  strings.trimSpaceStart s = [] -> forallb blankb s = true.
Proof.
  induction s as [|c s IH]; [reflexivity|].
  cbn [strings.trimSpaceStart].
  destruct (utf8.RuneSelf <=? byte_val c) eqn:Ehigh.
  - apply TrimFunc_blank.
  - destruct (strings.asciiSpace c) eqn:Espace.
    + intros Hnil. cbn [forallb]. unfold blankb at 1. rewrite Espace.
      now apply IH.
    + intros Hnil. apply trimSpaceStop_blank in Hnil.
      now rewrite forallb_rev in Hnil.
Qed.

(** A string that [TrimSpace] empties holds blank bytes only. *)
Lemma TrimSpace_empty_blank (s : string) :
  strings.TrimSpace s = "" -> forallb blankb (bytes s) = true.
Proof.
  unfold strings.TrimSpace, str. intros Hnil. apply trimSpaceStart_blank.
  destruct (strings.trimSpaceStart (bytes s)); [reflexivity | discriminate].
Qed.

End BlankStrings.

Section BlankDecode.

Local Open Scope Z_scope.

(** No blank byte is in the base64 alphabet, nor is it the padding. *)
Lemma blank_outside_alphabet (c : ascii) :
  blankb c = true ->
  base64.decodeMap c = 0xFF /\ Ascii.eqb c base64.StdPadding = false.
Proof.
  assert (Hall : forallb
                   (fun n => let c := ascii_of_nat n in
                             implb (blankb c)
                                   ((base64.decodeMap c =? 0xFF)
                                      && negb (Ascii.eqb c base64.StdPadding)))
                   (seq 0 256) = true)
    by (vm_compute; reflexivity).
  rewrite forallb_forall in Hall. intros Hc.
  specialize (Hall (nat_of_ascii c)). cbv zeta in Hall.
  rewrite ascii_nat_embedding, Hc in Hall. cbn [implb] in Hall.
  assert (Hin : In (nat_of_ascii c) (seq 0 256))
    by (apply in_seq; pose proof (nat_ascii_bounded c); lia).
  apply Hall in Hin. apply andb_prop in Hin as [Hmap Hpad].
  apply Z.eqb_eq in Hmap. apply negb_true_iff in Hpad. now split.
Qed.

(** Blank input either fails to decode or decodes to nothing. *)
Lemma decodeLoop_blank (l : list ascii) :
  forallb blankb l = true ->
  base64.decodeLoop l 0 0 0 0 = None \/ base64.decodeLoop l 0 0 0 0 = Some [].
Proof.
  induction l as [|c l IH]; [now right|].
  cbn [forallb]. intros Hall. apply andb_prop in Hall as [Hc Hl].
  destruct (blank_outside_alphabet c Hc) as [Hmap Hpad].
  cbn [base64.decodeLoop]. rewrite Hmap, Hpad.
  change (negb (0xFF =? 0xFF)) with false. cbv iota.
  destruct (base64.isNewline c); [now apply IH | now left].
Qed.

Lemma decodeB64OrRaw_blank (s : string) :
  strings.TrimSpace s = "" -> strings.TrimSpace (decodeB64OrRaw s) = "".
Proof.
  intros Hs. unfold decodeB64OrRaw, base64.DecodeString.
  destruct (decodeLoop_blank (bytes s) (TrimSpace_empty_blank s Hs)) as [-> | ->].
  - exact Hs.
  - reflexivity.
Qed.

End BlankDecode.

Lemma standsFor_decodeB64OrRaw (half plain : string) :
  standsFor half plain -> decodeB64OrRaw half = plain.
Proof.
  unfold decodeB64OrRaw. intros [Hdec | [Hdec ->]]; now rewrite Hdec.
Qed.

Lemma standsFor_total (half : string) : standsFor half (decodeB64OrRaw half).
Proof.
  unfold standsFor, decodeB64OrRaw.
  destruct (base64.DecodeString half); [now left | now right].
Qed.

Lemma standsFor_encoded (plain : string) :
  standsFor (base64.EncodeToString plain) plain.
Proof. left. apply DecodeString_EncodeToString. Qed.

Lemma plainHalves_render (custom : list customField.t)
      (plain : list (string * string)) :
  plainHalves custom plain ->
  flat_map renderField_spec custom = flat_map render_spec plain.
Proof.
  induction 1 as [|c nv custom plain [Hn Hv] _ IH]; [reflexivity|].
  cbn [flat_map]. rewrite IH. f_equal.
  unfold renderField_spec, render_spec, fieldName, fieldValue.
  now rewrite (standsFor_decodeB64OrRaw _ _ Hn), (standsFor_decodeB64OrRaw _ _ Hv).
Qed.

Lemma encodedHalves_plain (custom : list customField.t)
      (plain : list (string * string)) :
  encodedHalves custom plain -> plainHalves custom plain.
Proof.
  induction 1 as [|c nv custom plain [Hn Hv] _ IH]; constructor; [|exact IH].
  rewrite Hn, Hv. split; apply standsFor_encoded.
Qed.

Lemma plainHalves_total (custom : list customField.t) :
  plainHalves custom
              (map (fun c => (decodeB64OrRaw (customField.Name c),
                              decodeB64OrRaw (customField.Value c)))
                   custom).
Proof.
  unfold plainHalves. induction custom as [|c custom IH]; cbn [map];
    constructor; [|exact IH].
  split; apply standsFor_total.
Qed.

(** C8.  For every list of custom fields, the name and the value of each
    field are decoded before use, each on its own: what is rendered is what
    the half stands for, the bytes it is the base64 encoding of, or the
    half itself when it is no valid base64.  The description is made of
    the fields taken in order: the halves are trimmed, a field with both
    halves empty is left out, the others are rendered [name=value], or as
    the one half that is not empty, and the renderings are joined by
    ["; "].  In particular fields that arrive encoded are shown in plain.
    When the trimmed name and value of every field are empty the
    description is the empty string, whether the halves are looked at
    after decoding, as the code does, or as they arrive. *)
Theorem C8_formatDescription (custom : list customField.t) :
  (exists plain, plainHalves custom plain)
  /\ (forall plain,
         plainHalves custom plain ->
         formatDescription custom
         = strings.Join (flat_map render_spec plain) "; ")
  /\ (forall plain,
         encodedHalves custom plain ->
         formatDescription custom
         = strings.Join (flat_map render_spec plain) "; ")
  /\ (forall plain,
         plainHalves custom plain ->
         Forall (fun nv => strings.TrimSpace (fst nv) = ""
                           /\ strings.TrimSpace (snd nv) = "") plain ->
         formatDescription custom = "")
  /\ (Forall (fun c => strings.TrimSpace (customField.Name c) = ""
                       /\ strings.TrimSpace (customField.Value c) = "") custom ->
      formatDescription custom = "").
Proof.
  assert (Heq : forall plain,
             plainHalves custom plain ->
             formatDescription custom
             = strings.Join (flat_map render_spec plain) "; ").
  { intros plain Hplain. rewrite <- (plainHalves_render custom plain Hplain).
    unfold formatDescription.
    destruct custom as [|c custom]; [reflexivity|].
    cbn [List.length Nat.eqb]. now rewrite descriptionStep_fold. }
  assert (Hex : plainHalves custom
                  (map (fun c => (decodeB64OrRaw (customField.Name c),
                                  decodeB64OrRaw (customField.Value c)))
                       custom)).
  { apply plainHalves_total. }
  assert (Hempty : forall plain,
             plainHalves custom plain ->
             Forall (fun nv => strings.TrimSpace (fst nv) = ""
                               /\ strings.TrimSpace (snd nv) = "") plain ->
             formatDescription custom = "").
  { intros plain Hplain Hall. rewrite (Heq plain Hplain).
    rewrite flat_map_nil; [reflexivity|].
    eapply Forall_impl; [|exact Hall].
    intros nv [Hn Hv]. unfold render_spec. now rewrite Hn, Hv. }
  split; [eexists; exact Hex|]. split; [exact Heq|].
  split; [intros plain Hplain; now apply Heq, encodedHalves_plain|].
  split; [exact Hempty|].
  intros Hall. apply (Hempty _ Hex).
  apply Forall_map. eapply Forall_impl; [|exact Hall].
  intros c [Hn Hv]. cbn [fst snd]. split; now apply decodeB64OrRaw_blank.
Qed.

Lemma C8_formatDescription_witness :
  formatDescription [customField.mk "bm90ZQ==" "aGk=" "text";
                     customField.mk "IA==" "" "text";
                     customField.mk "dXNlcg==" "two words" "text";
                     customField.mk "" "IHBpbiA=" "text"]
  = "note=hi; user=two words; pin"
  /\ formatDescription [customField.mk (base64.EncodeToString " note ")
                                       (base64.EncodeToString "hi") "text"]
     = "note=hi"
  /\ formatDescription [customField.mk "" "  " "text";
                        customField.mk "IA==" (String newline "") "text"] = ""
  /\ formatDescription [customField.mk (String tab " ") nbsp "text"] = "".
Proof.
  split; [|split; [|split]].
  - refine (eq_trans
              (proj1 (proj2 (C8_formatDescription _))
                     [("note", "hi"); (" ", ""); ("user", "two words");
                      ("", " pin ")] _) _); [|reflexivity].
    repeat constructor; cbn [fst snd customField.Name customField.Value];
      try (left; vm_compute; reflexivity);
      right; split; vm_compute; reflexivity.
  - refine (eq_trans
              (proj1 (proj2 (proj2 (C8_formatDescription _)))
                     [(" note ", "hi")] _) _); [|reflexivity].
    repeat constructor.
  - apply (proj1 (proj2 (proj2 (proj2 (C8_formatDescription
             [customField.mk "" "  " "text";
              customField.mk "IA==" (String newline "") "text"]))))
             [("", "  "); (" ", "")]).
    + repeat constructor; cbn [fst snd customField.Name customField.Value];
        try (left; vm_compute; reflexivity);
        right; split; vm_compute; reflexivity.
    + repeat constructor.
  - apply (proj2 (proj2 (proj2 (proj2 (C8_formatDescription
             [customField.mk (String tab " ") nbsp "text"]))))).
    repeat constructor.
Defined.

Example formatDescription_sample :
  formatDescription [customField.mk "bm90ZQ==" "aGk=" "text";
                     customField.mk "" " " "text";
                     customField.mk "!k" "" "text";
                     customField.mk "" "cGlu" "text"]
  = "note=hi; !k; pin".
Proof. reflexivity. Qed.

(* ========================================================================= *)
(** * Further properties of the code *)
(* ========================================================================= *)

(* ------------------------------------------------------------------------- *)
(** ** Configuration *)
(* ------------------------------------------------------------------------- *)

(** X1.  Without a base URL in the environment [main] prints one line on
    the error stream and ends with status 1; it makes no request and runs
    no command, whatever else the environment holds. *)
Theorem X1_missing_base_url `{sort.Sorter} (w : World) :
  Getenv w "PASSWORK_BASE_URL" = "" ->
  run w = ([Fprintln Stderr "PASSWORK_BASE_URL environment variable is not set"],
           1%Z).
Proof.
  intros Hbase. unfold run, main. cbv zeta. cbn [BaseURL]. now rewrite Hbase.
Qed.

Lemma X1_missing_base_url_witness :
  @run insertionSorter bare_world
  = ([Fprintln Stderr "PASSWORK_BASE_URL environment variable is not set"], 1%Z).
Proof.
  apply (@X1_missing_base_url insertionSorter bare_world). reflexivity.
Defined.

(** X2.  With a base URL but no API key, [login] fails before any request
    is made: the only event of the run is the login error, and the status
    is 1. *)
Theorem X2_missing_api_key `{sort.Sorter} (w : World) :
  Getenv w "PASSWORK_BASE_URL" <> "" ->
  Getenv w "PASSWORK_API_KEY" = "" ->
  login w (cfg_of w) = ([], Done (inl (errors_New "PASSWORK_API_KEY is not set")))
  /\ run w = ([Fprintf Stderr "login error: %v\n"
                       [OErr (errors_New "PASSWORK_API_KEY is not set")]],
              1%Z).
Proof.
  intros Hbase Hkey. apply String.eqb_neq in Hbase.
  assert (Hlogin : login w (cfg_of w)
                   = ([], Done (inl (errors_New "PASSWORK_API_KEY is not set")))).
  { unfold login, cfg_of. cbn [APIKey]. now rewrite Hkey. }
  split; [exact Hlogin|].
  unfold run, main. cbv zeta. cbn [BaseURL]. rewrite Hbase.
  unfold cfg_of in Hlogin. rewrite Hlogin. reflexivity.
Qed.

Lemma X2_missing_api_key_witness :
  @run insertionSorter no_key_world
  = ([Fprintf Stderr "login error: %v\n"
              [OErr (errors_New "PASSWORK_API_KEY is not set")]],
     1%Z).
Proof.
  apply (@X2_missing_api_key insertionSorter no_key_world);
    [discriminate | reflexivity].
Defined.

(* ------------------------------------------------------------------------- *)
(** ** The three requests *)
(* ------------------------------------------------------------------------- *)

(** X3.  [login] returns a token exactly when the API key is set and the
    answer to its one request has status 200 and a JSON body with status
    ["success"] and a non-empty token; the token returned is that one. *)
Theorem X3_login_outcome (w : World) (cfg : Config) (t : list event)
        (token : string) :
  login w cfg = (t, Done (inr token)) <->
  APIKey cfg <> ""
  /\ t = [Request "POST" (loginURL cfg)]
  /\ token <> ""
  /\ exists body,
      postLogin w (loginURL cfg)
      = Response 200 body (inr (loginResponse.mk "success" token)).
Proof.
  unfold login. fold (loginURL cfg). split.
  - destruct (String.eqb (APIKey cfg) "") eqn:Hkey; [discriminate|].
    apply String.eqb_neq in Hkey. unfold bind, emit, ret.
    destruct (postLogin w (loginURL cfg)) as [e|code body [e|[status tok]]];
      cbv beta iota zeta; try discriminate.
    + destruct (negb (code =? StatusOK)%Z); cbv beta iota zeta; discriminate.
    + destruct (code =? StatusOK)%Z eqn:Hcode; cbn [negb]; cbv beta iota zeta;
        [|discriminate].
      cbn [loginResponse.Status loginResponse.Token].
      destruct (String.eqb status "success") eqn:Hstatus; cbn [negb orb];
        cbv beta iota zeta; [|discriminate].
      destruct (String.eqb tok "") eqn:Htok; cbv beta iota zeta; [discriminate|].
      intros [= <- <-]. apply Z.eqb_eq in Hcode. apply String.eqb_eq in Hstatus.
      apply String.eqb_neq in Htok. subst. unfold StatusOK.
      repeat split; try assumption. now exists body.
  - intros (Hkey & -> & Htok & body & Hreply).
    apply String.eqb_neq in Hkey. apply String.eqb_neq in Htok.
    rewrite Hkey, Hreply. unfold bind, emit, ret.
    cbn [loginResponse.Status loginResponse.Token]. now rewrite Htok.
Qed.

Lemma X3_login_outcome_witness :
  login sample_world (cfg_of sample_world)
  = ([Request "POST" "https://pw.example/api/v4/auth/login/k3y"],
     Done (inr "t0k3n")).
Proof.
  apply (X3_login_outcome sample_world (cfg_of sample_world)).
  split; [discriminate|]. split; [reflexivity|]. split; [discriminate|].
  now exists "".
Defined.

(** X4.  [searchPasswords] makes one request and returns the hits exactly
    when the answer has status 200 and a JSON body with status ["success"];
    the hits are the [data] of the body as they are.  When it fails, [main]
    reports the search error and ends with status 1 without asking for any
    detail. *)
Theorem X4_search_outcome `{sort.Sorter} (w : World) (cfg : Config)
        (token query : string) :
  (forall t hits,
      searchPasswords w cfg token query = (t, Done (inr hits)) <->
      t = [Request "POST" (searchURL cfg)]
      /\ exists body,
          postSearch w (searchURL cfg) token query
          = Response 200 body (inr (passwordSearchResponse.mk "success" hits)))
  /\ (forall t1 err,
         cfg = cfg_of w -> query = query_of w ->
         BaseURL cfg <> "" ->
         login w cfg = (t1, Done (inr token)) ->
         snd (searchPasswords w cfg token query) = Done (inl err) ->
         run w = ((t1 ++ [Request "POST" (searchURL cfg);
                          Fprintf Stderr "search error: %v\n" [OErr err]])%list,
                  1%Z)).
Proof.
  split.
  - intros t hits. unfold searchPasswords. fold (searchURL cfg).
    unfold bind, emit, ret. split.
    + destruct (postSearch w (searchURL cfg) token query)
        as [e|code body [e|[status data]]]; cbv beta iota zeta;
        try discriminate.
      * destruct (negb (code =? StatusOK)%Z); cbv beta iota zeta; discriminate.
      * destruct (code =? StatusOK)%Z eqn:Hcode; cbn [negb]; cbv beta iota zeta;
          [|discriminate].
        cbn [passwordSearchResponse.Status passwordSearchResponse.Data].
        destruct (String.eqb status "success") eqn:Hstatus; cbn [negb];
          cbv beta iota zeta; [|discriminate].
        intros [= <- <-]. apply Z.eqb_eq in Hcode.
        apply String.eqb_eq in Hstatus. subst. unfold StatusOK.
        split; [reflexivity | now exists body].
    + intros (-> & body & Hreply). now rewrite Hreply.
  - intros t1 err -> -> Hbase Hlogin Hfail.
    assert (Hsearch : searchPasswords w (cfg_of w) token (query_of w)
                      = ([Request "POST" (searchURL (cfg_of w))], Done (inl err))).
    { revert Hfail. unfold searchPasswords. fold (searchURL (cfg_of w)).
      unfold bind, emit, ret.
      repeat break_match; cbn [snd]; intros [= <-]; reflexivity. }
    apply String.eqb_neq in Hbase.
    unfold run, main. cbv zeta. unfold cfg_of, query_of in *.
    cbn [BaseURL] in *. rewrite Hbase, Hlogin.
    unfold bind at 1. cbv beta iota. rewrite Hsearch. reflexivity.
Qed.

Lemma X4_search_outcome_witness :
  searchPasswords sample_world (cfg_of sample_world) "t0k3n" "git hub"
  = ([Request "POST" "https://pw.example/api/v4/passwords/search"],
     Done (inr [passwordSearchHit.mk "65f0c1" "GitHub"])).
Proof.
  apply (proj1 (@X4_search_outcome insertionSorter sample_world
                  (cfg_of sample_world) "t0k3n" "git hub")).
  split; [reflexivity | now exists ""].
Defined.

(** X5.  [getPassword] makes one GET request for the identifier and returns
    a record exactly when the answer has status 200 and a JSON body with
    status ["success"]; the record is the [data] of the body as it is: its
    own [id] is not compared with the identifier asked for. *)
Theorem X5_getPassword_outcome (w : World) (cfg : Config) (token id : string)
        (k : nat) (t : list event) (d : passwordDetail) :
  getPassword w cfg token id k = (t, Done (inr d)) <->
  t = [Request "GET" (detailURL cfg id)]
  /\ exists body,
      getDetail w k (detailURL cfg id) token
      = Response 200 body (inr (passwordGetResponse.mk "success" d)).
Proof.
  unfold getPassword. fold (detailURL cfg id). unfold bind, emit, ret. split.
  - destruct (getDetail w k (detailURL cfg id) token)
      as [e|code body [e|[status data]]]; cbv beta iota zeta; try discriminate.
    + destruct (negb (code =? StatusOK)%Z); cbv beta iota zeta; discriminate.
    + destruct (code =? StatusOK)%Z eqn:Hcode; cbn [negb]; cbv beta iota zeta;
        [|discriminate].
      cbn [passwordGetResponse.Status passwordGetResponse.Data].
      destruct (String.eqb status "success") eqn:Hstatus; cbn [negb];
        cbv beta iota zeta; [|discriminate].
      intros [= <- <-]. apply Z.eqb_eq in Hcode.
      apply String.eqb_eq in Hstatus. subst. unfold StatusOK.
      split; [reflexivity | now exists body].
  - intros (-> & body & Hreply). now rewrite Hreply.
Qed.

Lemma X5_getPassword_outcome_witness :
  getPassword flaky_world (cfg_of flaky_world) "t0k3n" "other" 1
  = ([Request "GET" "https://pw.example/api/v4/passwords/other"],
     Done (inr second_dup)).
Proof.
  apply (X5_getPassword_outcome flaky_world (cfg_of flaky_world)).
  split; [reflexivity | now exists ""].
Defined.

Lemma take_length (n : nat) (s : string) :
  String.length (strings.take n s) = Nat.min n (String.length s).
Proof.
  revert s. induction n as [|n IH]; intros [|c s]; cbn; [reflexivity ..|].
  now rewrite IH.
Qed.

Lemma take_drop (n : nat) (s : string) :
  s = strings.take n s ++ strings.drop n s.
Proof.
  revert s. induction n as [|n IH]; intros [|c s]; cbn; [reflexivity ..|].
  now rewrite <- IH.
Qed.

Lemma take_all (n : nat) (s : string) :
  (String.length s <= n)%nat -> strings.take n s = s.
Proof.
  revert s. induction n as [|n IH]; intros [|c s]; cbn; intros Hn;
    [reflexivity | lia | reflexivity |].
  rewrite IH; [reflexivity | lia].
Qed.

(** X6.  When the status of an answer is not 200, the error of [login],
    [searchPasswords] and [getPassword] carries the status and the
    beginning of the body: at most 4096 bytes of it, and all of it when it
    is not longer. *)
Theorem X6_error_body_bounded (w : World) (cfg : Config) (token : string)
        (code : Z) (body : string) :
  code <> 200%Z ->
  (String.length (limitBody body) <= 4096)%nat
  /\ (exists rest, body = limitBody body ++ rest)
  /\ ((String.length body <= 4096)%nat -> limitBody body = body)
  /\ (forall decoded,
         APIKey cfg <> "" ->
         postLogin w (loginURL cfg) = Response code body decoded ->
         snd (login w cfg)
         = Done (inl (fmt_Errorf "login failed: status=%d body=%s"
                                 [VInt code; VStr (limitBody body)])))
  /\ (forall query decoded,
         postSearch w (searchURL cfg) token query = Response code body decoded ->
         snd (searchPasswords w cfg token query)
         = Done (inl (fmt_Errorf "search failed: status=%d body=%s"
                                 [VInt code; VStr (limitBody body)])))
  /\ (forall id k decoded,
         getDetail w k (detailURL cfg id) token = Response code body decoded ->
         fetched w cfg token id k
         = inl (fmt_Errorf "get password %s failed: status=%d body=%s"
                           [VStr id; VInt code; VStr (limitBody body)])).
Proof.
  intros Hcode.
  assert (Hneq : negb (code =? StatusOK)%Z = true)
    by (apply negb_true_iff, Z.eqb_neq; exact Hcode).
  unfold limitBody. repeat split.
  - rewrite take_length. lia.
  - exists (strings.drop 4096 body). apply take_drop.
  - apply take_all.
  - intros decoded Hkey Hreply. apply String.eqb_neq in Hkey.
    unfold login. fold (loginURL cfg). rewrite Hkey, Hreply.
    unfold bind, emit, ret. now rewrite Hneq.
  - intros query decoded Hreply.
    unfold searchPasswords. fold (searchURL cfg). rewrite Hreply.
    unfold bind, emit, ret. now rewrite Hneq.
  - intros id k decoded Hreply.
    unfold fetched, getPassword. fold (detailURL cfg id). rewrite Hreply.
    unfold bind, emit, ret. now rewrite Hneq.
Qed.

Lemma X6_error_body_bounded_witness :
  fetched overloaded_world (cfg_of overloaded_world) "t0k3n" "65f0c1" 0
  = inl (fmt_Errorf "get password %s failed: status=%d body=%s"
                    [VStr "65f0c1"; VInt 500; VStr (limitBody long_body)])
  /\ (String.length (limitBody long_body) <= 4096)%nat.
Proof.
  pose proof (X6_error_body_bounded overloaded_world (cfg_of overloaded_world)
                "t0k3n" 500%Z long_body ltac:(discriminate))
    as (Hlen & _ & _ & _ & _ & Hget).
  split; [|exact Hlen].
  apply (Hget "65f0c1" 0%nat (inl "invalid character")). reflexivity.
Defined.

(* ------------------------------------------------------------------------- *)
(** ** The base URL *)
(* ------------------------------------------------------------------------- *)

Lemma bytes_append (a b : string) : bytes (a ++ b) = (bytes a ++ bytes b)%list.
Proof.
  unfold bytes. induction a as [|c a IH]; cbn; [reflexivity | now rewrite IH].
Qed.

Lemma bytes_str (l : list ascii) : bytes (str l) = l.
Proof. apply list_ascii_of_string_of_list_ascii. Qed.

Lemma str_bytes (s : string) : str (bytes s) = s.
Proof. apply string_of_list_ascii_of_string. Qed.

Lemma trimRightByte_rev_repeat (c : ascii) (n : nat) (rs : list ascii) :
  strings.trimRightByte_rev (repeat c n ++ rs)%list c
  = strings.trimRightByte_rev rs c.
Proof.
  induction n as [|n IH]; [reflexivity|].
  cbn [repeat app strings.trimRightByte_rev]. now rewrite Ascii.eqb_refl.
Qed.

Lemma rev_repeat {A : Type} (a : A) (n : nat) : rev (repeat a n) = repeat a n.
Proof.
  induction n as [|n IH]; [reflexivity|].
  cbn [repeat rev]. rewrite IH. clear IH.
  induction n as [|n IH]; [reflexivity|]. cbn [repeat app]. now rewrite IH.
Qed.

Lemma trimRightByte_slashes (s : string) (c : ascii) (n : nat) :
  strings.trimRightByte (s ++ str (repeat c n)) c = strings.trimRightByte s c.
Proof.
  unfold strings.trimRightByte.
  now rewrite bytes_append, bytes_str, rev_app_distr, rev_repeat,
    trimRightByte_rev_repeat.
Qed.

Lemma trimRightByte_rev_head (rs : list ascii) (c : ascii) :
  match strings.trimRightByte_rev rs c with
  | [] => True
  | x :: _ => x <> c
  end.
Proof.
  induction rs as [|b rs IH]; [exact I|].
  cbn [strings.trimRightByte_rev]. destruct (Ascii.eqb b c) eqn:E; [exact IH|].
  now apply Ascii.eqb_neq.
Qed.

Lemma trimRightByte_no_trailing (s r : string) (c : ascii) :
  strings.trimRightByte s c <> r ++ String c "".
Proof.
  unfold strings.trimRightByte. intros Heq.
  apply (f_equal bytes) in Heq. rewrite bytes_str, bytes_append in Heq.
  pose proof (trimRightByte_rev_head (rev (bytes s)) c) as Hhead.
  destruct (strings.trimRightByte_rev (rev (bytes s)) c) as [|x l].
  - cbn in Heq. now destruct (bytes r).
  - cbn [rev] in Heq. change (bytes (String c "")) with [c] in Heq.
    apply app_inj_tail in Heq as [_ Hx]. contradiction.
Qed.

(** X7.  Slashes at the end of the base URL make no difference: the three
    helpers send the same requests and return the same results with and
    without them, and the part of the base URL they keep never ends with a
    slash, so that no URL has two slashes where the path is appended. *)
Theorem X7_trailing_slashes (w : World) (base key : string) (n : nat) :
  let cfg := {| BaseURL := base ++ str (repeat "/"%char n); APIKey := key |} in
  let cfg0 := {| BaseURL := base; APIKey := key |} in
  login w cfg = login w cfg0
  /\ (forall token query,
         searchPasswords w cfg token query = searchPasswords w cfg0 token query)
  /\ (forall token id k,
         getPassword w cfg token id k = getPassword w cfg0 token id k)
  /\ (forall r, strings.trimRightByte base "/" <> r ++ "/").
Proof.
  cbv zeta. unfold login, searchPasswords, getPassword. cbn [BaseURL APIKey].
  rewrite trimRightByte_slashes. repeat split.
  intros r. apply trimRightByte_no_trailing.
Qed.

Example loginURL_sample :
  loginURL {| BaseURL := "https://pw.example/api/v4//"; APIKey := "k3y" |}
  = "https://pw.example/api/v4/auth/login/k3y".
Proof. reflexivity. Qed.

(* ------------------------------------------------------------------------- *)
(** ** The clipboard command *)
(* ------------------------------------------------------------------------- *)

(** X8.  The clipboard command is [CLIP_BIN] alone whenever that variable
    is set, whatever the platform; otherwise [pbcopy] on macOS, and on
    Linux [wl-copy] when it is installed, whether or not [xclip] is, and
    [xclip -selection clipboard] when only that is.  No command is found
    exactly when [CLIP_BIN] is unset and the platform is neither macOS nor
    a Linux with one of the two tools.  A command that is found is never
    an empty list, so [copyToClipboard] can take its first element. *)
Theorem X8_detectClipboardCommand (w : World) :
  (Getenv w "CLIP_BIN" <> "" ->
   detectClipboardCommand w = Some [Getenv w "CLIP_BIN"])
  /\ (Getenv w "CLIP_BIN" = "" -> GOOS w = "darwin" ->
      detectClipboardCommand w = Some ["pbcopy"])
  /\ (Getenv w "CLIP_BIN" = "" -> GOOS w = "linux" ->
      LookPath w "wl-copy" = true ->
      detectClipboardCommand w = Some ["wl-copy"])
  /\ (Getenv w "CLIP_BIN" = "" -> GOOS w = "linux" ->
      LookPath w "wl-copy" = false -> LookPath w "xclip" = true ->
      detectClipboardCommand w = Some ["xclip"; "-selection"; "clipboard"])
  /\ (detectClipboardCommand w = None <->
      Getenv w "CLIP_BIN" = "" /\ GOOS w <> "darwin"
      /\ (GOOS w = "linux" ->
          LookPath w "wl-copy" = false /\ LookPath w "xclip" = false))
  /\ (forall argv, detectClipboardCommand w = Some argv -> argv <> []).
Proof.
  unfold detectClipboardCommand. repeat split.
  - intros Hbin. apply String.eqb_neq in Hbin. now rewrite Hbin.
  - intros Hbin Hos. now rewrite Hbin, Hos.
  - intros Hbin Hos Hwl. now rewrite Hbin, Hos, Hwl.
  - intros Hbin Hos Hwl Hx. now rewrite Hbin, Hos, Hwl, Hx.
  - destruct (String.eqb (Getenv w "CLIP_BIN") "") eqn:Hbin; cbn [negb];
      [now apply String.eqb_eq | discriminate].
  - destruct (String.eqb (Getenv w "CLIP_BIN") "") eqn:Hbin; cbn [negb] in *;
      [|discriminate].
    destruct (String.eqb (GOOS w) "darwin") eqn:Hos; [discriminate|].
    now apply String.eqb_neq.
  - destruct (String.eqb (Getenv w "CLIP_BIN") "") eqn:Hbin; cbn [negb] in *;
      [|discriminate].
    destruct (String.eqb (GOOS w) "darwin") eqn:Hos; [discriminate|].
    destruct (String.eqb (GOOS w) "linux") eqn:Hlinux.
    + destruct (LookPath w "wl-copy"); [discriminate | reflexivity].
    + apply String.eqb_neq in Hlinux. contradiction.
  - destruct (String.eqb (Getenv w "CLIP_BIN") "") eqn:Hbin; cbn [negb] in *;
      [|discriminate].
    destruct (String.eqb (GOOS w) "darwin") eqn:Hos; [discriminate|].
    destruct (String.eqb (GOOS w) "linux") eqn:Hlinux.
    + destruct (LookPath w "wl-copy"); [discriminate|].
      destruct (LookPath w "xclip"); [discriminate | reflexivity].
    + apply String.eqb_neq in Hlinux. contradiction.
  - intros (Hbin & Hos & Hlinux). rewrite Hbin. cbn [String.eqb negb].
    apply String.eqb_neq in Hos. rewrite Hos.
    destruct (String.eqb (GOOS w) "linux") eqn:El; [|reflexivity].
    apply String.eqb_eq in El. destruct (Hlinux El) as [-> ->]. reflexivity.
  - intros argv. repeat break_match; intros [= <-]; discriminate.
Qed.

Lemma X8_detectClipboardCommand_witness :
  detectClipboardCommand (linux_world true) = Some ["wl-copy"]
  /\ detectClipboardCommand (linux_world false) = None
  /\ detectClipboardCommand sample_world = Some ["pbcopy"].
Proof.
  split; [|split].
  - apply (X8_detectClipboardCommand (linux_world true)); reflexivity.
  - apply (proj1 (proj2 (proj2 (proj2 (proj2
             (X8_detectClipboardCommand (linux_world false))))))).
    split; [reflexivity|]. split; [discriminate|]. now split.
  - apply (proj1 (proj2 (X8_detectClipboardCommand sample_world)));
      reflexivity.
Defined.

(* ------------------------------------------------------------------------- *)
(** ** Blank columns *)
(* ------------------------------------------------------------------------- *)

(** X9.  [orEmpty] returns its argument, or the empty string when the
    argument holds white space only: it is empty exactly when the trimmed
    argument is, in which case the argument has no byte that is an ASCII
    character other than white space, and applying it twice changes
    nothing.  [orDash] returns its argument or a dash, and what it returns
    is never blank. *)
Theorem X9_orEmpty_orDash (s : string) :
  (orEmpty s = "" \/ orEmpty s = s)
  /\ (orEmpty s = "" <-> strings.TrimSpace s = "")
  /\ (orEmpty s = "" -> forallb blankb (bytes s) = true)
  /\ orEmpty (orEmpty s) = orEmpty s
  /\ (orDash s = "-" \/ orDash s = s)
  /\ strings.TrimSpace (orDash s) <> "".
Proof.
  assert (Hiff : orEmpty s = "" <-> strings.TrimSpace s = "").
  { unfold orEmpty. destruct (String.eqb (strings.TrimSpace s) "") eqn:E.
    - apply String.eqb_eq in E. tauto.
    - apply String.eqb_neq in E. split; [|contradiction].
      intros ->. now contradiction E. }
  unfold orEmpty, orDash in *.
  destruct (String.eqb (strings.TrimSpace s) "") eqn:E.
  - apply String.eqb_eq in E. repeat split; auto.
    + intros _. now apply TrimSpace_empty_blank.
    + discriminate.
  - repeat split; auto; try tauto.
    + intros Hs. apply TrimSpace_empty_blank. now apply Hiff.
    + now rewrite E.
    + now apply String.eqb_neq.
Qed.

Example orEmpty_samples :
  orEmpty (String tab " ") = "" /\ orEmpty nbsp = "" /\ orEmpty " a " = " a "
  /\ orDash "" = "-" /\ orDash "x" = "x".
Proof. repeat split. Qed.

Lemma X9_orEmpty_orDash_witness :
  forallb blankb (bytes (String tab " ")) = true.
Proof.
  apply (proj1 (proj2 (proj2 (X9_orEmpty_orDash (String tab " "))))).
  reflexivity.
Defined.

(* ------------------------------------------------------------------------- *)
(** ** The first field of a line *)
(* ------------------------------------------------------------------------- *)

Lemma Index_byte_spec (s : string) (c : ascii) :
  (free_of c s /\ strings.Index s (String c "") = (-1)%Z)
  \/ (exists a r, s = a ++ String c r /\ free_of c a
                  /\ strings.Index s (String c "") = Z.of_nat (String.length a)).
Proof.
  induction s as [|x s IH].
  - left. split; [exact I | reflexivity].
  - destruct (ascii_dec x c) as [->|Hx].
    + right. exists "", s. split; [reflexivity|]. split; [exact I|].
      apply (Index_byte_after c "" s I).
    + destruct IH as [[Hfree Hidx] | (a & r & -> & Hfree & Hidx)].
      * left. split; [now split|].
        cbn [strings.Index]. unfold strings.HasPrefix at 1. cbn [String.prefix].
        destruct (ascii_dec c x) as [e|_]; [congruence|]. now rewrite Hidx.
      * right. exists (String x a), r. split; [reflexivity|].
        split; [now split|].
        apply (Index_byte_after c (String x a) r). now split.
Qed.

(** The first field is the whole string when it holds no TAB, and what
    comes before the first TAB when it does. *)
Lemma firstField_spec (s : string) :
  (free_of tab s /\ firstField s = s)
  \/ (exists a r, s = a ++ String tab r /\ free_of tab a /\ firstField s = a).
Proof.
  destruct (Index_byte_spec s tab) as [[Hfree Hidx] | (a & r & -> & Hfree & Hidx)].
  - left. split; [exact Hfree|].
    unfold firstField, strings.SplitN.
    change (2 =? 0)%Z with false. change (2 <? 0)%Z with false. cbv iota.
    destruct (Z.to_nat (Z.min 2 (Z.of_nat (String.length s) + 1) - 1));
      cbn [strings.genSplitLoop]; [reflexivity|].
    now rewrite Hidx.
  - right. exists a, r. split; [reflexivity|]. split; [exact Hfree|].
    now apply firstField_before_tab.
Qed.

(** X10.  The first field of the display line of every record is the
    identifier of the record cut at its first TAB: the whole identifier when
    it holds none. *)
Theorem X10_line_first_field `{sort.Sorter} (p : passwordDetail) :
  firstField (fst (buildFzfLine p)) = firstField (ID p)
  /\ free_of tab (firstField (fst (buildFzfLine p)))
  /\ exists rest, ID p = firstField (fst (buildFzfLine p)) ++ rest.
Proof.
  rewrite buildFzfLine_line.
  set (display := _ ++ " | " ++ _).
  assert (Hline : firstField (ID p ++ String tab display) = firstField (ID p)).
  { destruct (firstField_spec (ID p))
      as [[Hfree Hid] | (a & r & Hp & Hfree & Hid)].
    - now rewrite (firstField_before_tab _ _ Hfree), Hid.
    - rewrite Hid, Hp, append_assoc.
      change (String tab r ++ String tab display)
        with (String tab (r ++ String tab display)).
      apply (firstField_before_tab _ _ Hfree). }
  rewrite Hline. split; [reflexivity|].
  destruct (firstField_spec (ID p)) as [[Hfree ->] | (a & r & Hp & Hfree & ->)].
  - split; [exact Hfree|]. exists "". now rewrite append_nil_r.
  - split; [exact Hfree|]. exists (String tab r). exact Hp.
Qed.

Example line_first_field_sample :
  firstField (fst (@buildFzfLine insertionSorter tabbed_record)) = "a".
Proof. reflexivity. Qed.

Lemma findChosen_ID (details : list passwordDetail) (id : string)
      (chosen : passwordDetail) :
  findChosen details id = Some chosen -> ID chosen = id /\ In chosen details.
Proof.
  induction details as [|d details IH]; [discriminate|].
  cbn [findChosen]. destruct (String.eqb (ID d) id) eqn:E.
  - intros [= ->]. apply String.eqb_eq in E. split; [exact E | now left].
  - intros Hfind. destruct (IH Hfind). split; [assumption | now right].
Qed.

(** X11.  The identifier [main] looks up is the selected line up to its
    first TAB and holds no TAB itself.  The record chosen is one of the
    records fetched and its identifier is exactly the identifier looked
    up, so it holds no TAB; and a selection made among records whose
    identifiers all hold a TAB ends with the not-found error and status 1,
    whatever line comes back from the selector. *)
Theorem X11_lookup_identifier (w : World) (details : list passwordDetail)
        (selected : string) :
  free_of tab (firstField selected)
  /\ (exists rest, selected = firstField selected ++ rest)
  /\ (free_of tab selected -> firstField selected = selected)
  /\ (forall chosen,
         findChosen details (firstField selected) = Some chosen ->
         ID chosen = firstField selected
         /\ In chosen details
         /\ free_of tab (ID chosen))
  /\ (selected <> "" ->
      Forall (fun d => ~ free_of tab (ID d)) details ->
      copySelected w details selected
      = ([Fprintf Stderr "could not find password for selected id %s\n"
                  [OStr (firstField selected)]],
         Exited 1%Z)).
Proof.
  assert (Hfree : free_of tab (firstField selected)).
  { destruct (firstField_spec selected) as [[Hf ->] | (a & r & _ & Hf & ->)];
      exact Hf. }
  split; [exact Hfree|]. split; [|split; [|split]].
  - destruct (firstField_spec selected) as [[_ Hs] | (a & r & Hs & _ & Ha)].
    + exists "". now rewrite Hs, append_nil_r.
    + exists (String tab r). now rewrite Ha.
  - intros Hs.
    destruct (firstField_spec selected) as [[_ Heq] | (a & r & Heq & _ & _)];
      [exact Heq|].
    rewrite Heq in Hs. apply free_of_append in Hs as [_ [Hs _]]. congruence.
  - intros chosen Hfind. apply findChosen_ID in Hfind as [Hid Hin].
    split; [exact Hid|]. split; [exact Hin|]. rewrite Hid. exact Hfree.
  - intros Hsel Hall. apply String.eqb_neq in Hsel.
    unfold copySelected. rewrite Hsel. fold (firstField selected).
    destruct (findChosen details (firstField selected)) as [chosen|] eqn:Hfind;
      [|reflexivity].
    apply findChosen_ID in Hfind as [Hid Hin].
    rewrite Forall_forall in Hall. exfalso. apply (Hall chosen Hin).
    now rewrite Hid.
Qed.

Lemma X11_lookup_identifier_witness :
  copySelected sample_world [tabbed_record]
               (fst (@buildFzfLine insertionSorter tabbed_record))
  = ([Fprintf Stderr "could not find password for selected id %s\n" [OStr "a"]],
     Exited 1%Z)
  /\ ID sample_record
     = firstField (fst (@buildFzfLine insertionSorter sample_record)).
Proof.
  split.
  - apply (X11_lookup_identifier sample_world [tabbed_record]
             (fst (@buildFzfLine insertionSorter tabbed_record))).
    + discriminate.
    + constructor; [|constructor]. cbn. intros (_ & Hb & _). now apply Hb.
  - apply (proj1 (proj2 (proj2 (proj2
             (X11_lookup_identifier
                sample_world [raw_secret_record; sample_record]
                (fst (@buildFzfLine insertionSorter sample_record))))))
             sample_record).
    reflexivity.
Defined.

(* ------------------------------------------------------------------------- *)
(** ** Columns that are never empty, and a description that is *)
(* ------------------------------------------------------------------------- *)

Lemma Join_not_empty (x : string) (rest : list string) (sep : string) :
  x <> "" -> strings.Join (x :: rest) sep <> "".
Proof.
  intros Hx. cbn [strings.Join]. destruct rest as [|y rest]; [exact Hx|].
  destruct x; [congruence | discriminate].
Qed.

Lemma Join_head (x : string) (rest : list string) (sep : string) :
  exists more, strings.Join (x :: rest) sep = x ++ more.
Proof.
  cbn [strings.Join]. destruct rest as [|y rest].
  - exists "". now rewrite append_nil_r.
  - now exists (sep ++ strings.Join (y :: rest) sep).
Qed.


Lemma nonEmptyNames_not_empty (path : list pathSegment.t) :
  Forall (fun x => x <> "") (nonEmptyNames path).
Proof.
  unfold nonEmptyNames. apply Forall_forall. intros x Hin.
  apply filter_In in Hin as [_ Hx]. apply negb_true_iff in Hx.
  now apply String.eqb_neq.
Qed.

(** X12.  In the display line of every record neither the name column nor
    the path column is empty: an empty name is shown as ["(no title)"], a
    name that is not empty as it is, and the path column, which is the
    result of [formatPath], is a dash, when no segment of the path has a
    name, or starts with the name of a segment of the path, a name that is
    not empty.  So the text that follows the TAB is never empty. *)
Theorem X12_name_and_path_shown `{sort.Sorter} (p : passwordDetail) :
  exists name path rest,
    fst (buildFzfLine p)
    = ID p ++ String tab (name ++ " | " ++ path ++ " | " ++ rest)
    /\ name <> "" /\ path <> ""
    /\ (Name p = "" -> name = "(no title)")
    /\ (Name p <> "" -> name = Name p)
    /\ path = fst (formatPath (Path p))
    /\ ((path = "-"
         /\ Forall (fun seg => pathSegment.Name seg = "") (Path p))
        \/ exists seg more,
            In seg (Path p)
            /\ pathSegment.Name seg <> ""
            /\ path = pathSegment.Name seg ++ more).
Proof.
  exists (if String.eqb (Name p) "" then "(no title)" else Name p),
         (fst (formatPath (Path p))),
         (orEmpty (Login p) ++ " | " ++ orEmpty (URL p) ++ " | "
                  ++ formatDescription (Custom p)).
  split; [apply buildFzfLine_line|].
  split; [|split; [|split; [|split; [|split]]]].
  - destruct (String.eqb (Name p) "") eqn:E; [discriminate|].
    now apply String.eqb_neq.
  - rewrite formatPath_eq. cbn [fst].
    pose proof (nonEmptyNames_not_empty (sort.Slice (Path p) lessOrder)) as Hall.
    destruct (nonEmptyNames (sort.Slice (Path p) lessOrder)) as [|x rest];
      [discriminate|].
    inversion Hall; subst. now apply Join_not_empty.
  - intros ->. reflexivity.
  - intros Hn. apply String.eqb_neq in Hn. now rewrite Hn.
  - reflexivity.
  - rewrite formatPath_eq. cbn [fst].
    pose proof (sort.Slice_Permutation _ (Path p) lessOrder) as Hperm.
    destruct (nonEmptyNames (sort.Slice (Path p) lessOrder)) as [|x rest]
      eqn:Hnames.
    + left. split; [reflexivity|]. apply Forall_forall. intros seg Hin.
      apply (Permutation_in _ (Permutation_sym Hperm)) in Hin.
      destruct (String.eqb (pathSegment.Name seg) "") eqn:E;
        [now apply String.eqb_eq|].
      assert (Hx : In (pathSegment.Name seg)
                      (nonEmptyNames (sort.Slice (Path p) lessOrder))).
      { unfold nonEmptyNames. apply filter_In.
        split; [now apply in_map | now rewrite E]. }
      rewrite Hnames in Hx. contradiction.
    + right.
      assert (Hx : In x (nonEmptyNames (sort.Slice (Path p) lessOrder)))
        by (rewrite Hnames; now left).
      unfold nonEmptyNames in Hx. apply filter_In in Hx as [Hx Hne].
      apply in_map_iff in Hx as (seg & Hseg & Hin).
      apply (Permutation_in _ Hperm) in Hin.
      apply negb_true_iff, String.eqb_neq in Hne. subst x.
      destruct (Join_head (pathSegment.Name seg) rest " / ") as [more Hmore].
      exists seg, more. now repeat split.
Qed.

Lemma X12_name_and_path_shown_witness :
  exists name path rest,
    fst (@buildFzfLine insertionSorter raw_secret_record)
    = "65f0c3" ++ String tab (name ++ " | " ++ path ++ " | " ++ rest)
    /\ name = "Legacy" /\ path = "-".
Proof.
  destruct (@X12_name_and_path_shown insertionSorter raw_secret_record)
    as (name & path & rest & Hline & _ & _ & _ & Hname & Hpath & _).
  exists name, path, rest. split; [exact Hline|].
  split; [apply Hname; discriminate | exact Hpath].
Defined.






(* ------------------------------------------------------------------------- *)
(** ** The loop over the hits *)
(* ------------------------------------------------------------------------- *)

Lemma fetchTrace_requests (w : World) (cfg : Config) (token : string)
      (hits : list passwordSearchHit.t) (k : nat) :
  filter isRequest (fetchTrace w cfg token hits k)
  = map (fun h => Request "GET" (detailURL cfg (passwordSearchHit.ID h))) hits.
Proof.
  revert k. induction hits as [|h hits IH]; intros k; [reflexivity|].
  cbn [fetchTrace map].
  destruct (fetched w cfg token (passwordSearchHit.ID h) k);
    cbn [filter isRequest]; now rewrite IH.
Qed.

Lemma fetchTrace_count (w : World) (cfg : Config) (token : string)
      (hits : list passwordSearchHit.t) (k : nat) :
  (List.length (fetchedDetails w cfg token hits k)
   + List.length (filter isSkipWarning (fetchTrace w cfg token hits k))
   = List.length hits)%nat.
Proof.
  revert k. induction hits as [|h hits IH]; intros k; [reflexivity|].
  cbn [fetchTrace fetchedDetails].
  destruct (fetched w cfg token (passwordSearchHit.ID h) k);
    cbn [filter isSkipWarning String.eqb Ascii.eqb Bool.eqb List.length];
    specialize (IH (S k)); lia.
Qed.

(** X14.  The loop over the hits never ends the process.  It asks for
    exactly one GET request per hit, in the order of the hits and also for
    a hit that repeats an identifier, each to the address of the hit's
    identifier (a request counts when [getPassword] asks for it, whether or
    not it can be built and sent); every hit gives either a detail or a
    warning, so that the details and the warnings together are as many as
    the hits. *)
Theorem X14_one_request_per_hit (w : World) (cfg : Config) (token : string)
        (hits : list passwordSearchHit.t) :
  exists t details,
    fetchDetails w cfg token hits 0 [] = (t, Done details)
    /\ filter isRequest t
       = map (fun h => Request "GET" (detailURL cfg (passwordSearchHit.ID h))) hits
    /\ (List.length details + List.length (filter isSkipWarning t)
        = List.length hits)%nat
    /\ filter isRun t = []
    /\ forallb (fun e => isRequest e || isSkipWarning e) t = true.
Proof.
  exists (fetchTrace w cfg token hits 0), (fetchedDetails w cfg token hits 0).
  split; [apply (fetchDetails_eq w cfg token hits 0 [])|].
  split; [apply fetchTrace_requests|].
  split; [apply fetchTrace_count|].
  split; [apply fetchTrace_no_Run|].
  eapply forallb_weaken; [|apply fetchTrace_events].
  intros e He. destruct e as [| | [|] format a|]; try discriminate He;
    try reflexivity. exact He.
Qed.

(* ------------------------------------------------------------------------- *)
(** ** What the decoder accepts *)
(* ------------------------------------------------------------------------- *)

Lemma newline_outside_alphabet (c : ascii) :
  base64.isNewline c = true -> base64.decodeMap c = 0xFF%Z.
Proof.
  unfold base64.isNewline. intros Hc. apply orb_prop in Hc as [Hc|Hc];
    apply Ascii.eqb_eq in Hc; subst c; reflexivity.
Qed.

Lemma skipNewlines_significant (l : list ascii) :
  significant (base64.skipNewlines l) = significant l.
Proof.
  induction l as [|c l IH]; [reflexivity|].
  cbn [base64.skipNewlines significant filter].
  destruct (base64.isNewline c) eqn:Hc; cbn [negb]; [exact IH|].
  cbn [significant filter]. now rewrite Hc.
Qed.

Lemma skipNewlines_accepted (l : list ascii) :
  forallb base64Byte (base64.skipNewlines l) = forallb base64Byte l.
Proof.
  induction l as [|c l IH]; [reflexivity|].
  cbn [base64.skipNewlines forallb].
  destruct (base64.isNewline c) eqn:Hc; [|reflexivity].
  unfold base64Byte at 2. rewrite Hc, orb_true_r. exact IH.
Qed.

Lemma skipNewlines_head (l : list ascii) (c : ascii) (rest : list ascii) :
  base64.skipNewlines l = c :: rest -> base64.isNewline c = false.
Proof.
  induction l as [|x l IH]; [discriminate|].
  cbn [base64.skipNewlines]. destruct (base64.isNewline x) eqn:Hx; [exact IH|].
  intros Heq. injection Heq as <- _. exact Hx.
Qed.

Lemma skipNewlines_nil (l : list ascii) :
  base64.skipNewlines l = [] ->
  significant l = [] /\ forallb base64Byte l = true.
Proof.
  intros Hl. rewrite <- skipNewlines_significant, <- skipNewlines_accepted, Hl.
  now split.
Qed.

Lemma length_str (l : list ascii) : String.length (str l) = List.length l.
Proof.
  unfold str. induction l as [|c l IH]; [reflexivity|].
  cbn [string_of_list_ascii String.length List.length]. now rewrite IH.
Qed.

Lemma decodeLoop_accepts (l : list ascii) :
  forall (j : nat) (d0 d1 d2 : Z) (out : list ascii),
    (j <= 3)%nat ->
    base64.decodeLoop l j d0 d1 d2 = Some out ->
    forallb base64Byte l = true
    /\ exists q : nat,
        (j + List.length (significant l) = 4 * q)%nat
        /\ (List.length out <= 3 * q)%nat.
Proof.
  induction l as [|c l IH]; intros j d0 d1 d2 out Hj Hdec.
  - cbn [base64.decodeLoop] in Hdec. destruct j; [|discriminate].
    injection Hdec as <-. split; [reflexivity|]. exists 0%nat. now split.
  - cbn [base64.decodeLoop] in Hdec. cbv zeta in Hdec.
    cbn [forallb significant filter]. unfold base64Byte at 1.
    destruct (base64.decodeMap c =? 0xFF)%Z eqn:Hmap; cbn [negb] in Hdec.
    + destruct (base64.isNewline c) eqn:Hnl; cbn [negb orb].
      * destruct (IH j d0 d1 d2 out Hj Hdec) as (Hall & q & Hq & Hout).
        split; [exact Hall|]. exists q. now split.
      * destruct (Ascii.eqb c base64.StdPadding) eqn:Hpad;
          cbn [negb] in Hdec; [|discriminate].
        destruct j as [|[|[|j]]]; try discriminate.
        -- destruct (base64.skipNewlines l) as [|c' rest'] eqn:Hskip;
             [discriminate|].
           destruct (Ascii.eqb c' base64.StdPadding) eqn:Hpad'; [|discriminate].
           destruct (base64.skipNewlines rest') eqn:Hskip'; [|discriminate].
           injection Hdec as <-.
           apply skipNewlines_nil in Hskip' as [Hsig' Hall'].
           pose proof (skipNewlines_head _ _ _ Hskip) as Hnl'.
           split.
           ++ rewrite <- skipNewlines_accepted, Hskip. cbn [forallb].
              unfold base64Byte at 1. now rewrite Hpad', Hall', orb_true_r.
           ++ exists 1%nat. fold (significant l).
              rewrite <- skipNewlines_significant, Hskip.
              cbn [significant filter]. rewrite Hnl'. cbn [negb].
              fold (significant rest'). rewrite Hsig'. split; [reflexivity|].
              unfold base64.quantum. cbn [Nat.sub firstn List.length]. lia.
        -- destruct (base64.skipNewlines l) eqn:Hskip; [|discriminate].
           injection Hdec as <-.
           apply skipNewlines_nil in Hskip as [Hsig Hall].
           split; [exact Hall|]. exists 1%nat. fold (significant l).
           rewrite Hsig. assert (j = 0%nat) as -> by lia.
           split; [reflexivity|].
           unfold base64.quantum. cbn [Nat.sub firstn List.length]. lia.
    + assert (Hnl : base64.isNewline c = false).
      { destruct (base64.isNewline c) eqn:Hnl; [|reflexivity].
        apply newline_outside_alphabet in Hnl. rewrite Hnl in Hmap.
        discriminate. }
      rewrite Hnl. cbn [negb orb andb]. fold (significant l).
      destruct j as [|[|[|j]]].
      * destruct (IH 1%nat _ _ _ out ltac:(lia) Hdec) as (Hall & q & Hq & Hout).
        split; [exact Hall|]. exists q. cbn [List.length]. split; lia.
      * destruct (IH 2%nat _ _ _ out ltac:(lia) Hdec) as (Hall & q & Hq & Hout).
        split; [exact Hall|]. exists q. cbn [List.length]. split; lia.
      * destruct (IH 3%nat _ _ _ out ltac:(lia) Hdec) as (Hall & q & Hq & Hout).
        split; [exact Hall|]. exists q. cbn [List.length]. split; lia.
      * destruct (base64.decodeLoop l 0 0 0 0) as [out'|] eqn:Hrest;
          [|discriminate].
        cbn [option_map] in Hdec. injection Hdec as <-.
        destruct (IH 0%nat _ _ _ out' ltac:(lia) Hrest) as (Hall & q & Hq & Hout).
        split; [exact Hall|]. exists (S q).
        unfold base64.quantum. cbn [Nat.sub firstn List.length app].
        split; lia.
Qed.

(** X15.  What [DecodeString] accepts, and so what [decodeB64OrRaw] leaves
    alone.  A string is decoded only if each of its bytes is a character of
    the alphabet, a [=] or a line break, and if its bytes other than line
    breaks come in groups of four; the result then has at most three bytes
    per group.  Hence a string with any other byte (a space, a dash, a dot,
    a byte from [0x80] up), or with a number of such bytes that is no
    multiple of four, comes back from [decodeB64OrRaw] as it is. *)
Theorem X15_decode_accepts (s : string) :
  (forall b : string,
      base64.DecodeString s = Some b ->
      forallb base64Byte (bytes s) = true
      /\ exists q : nat,
          List.length (significant (bytes s)) = (4 * q)%nat
          /\ (String.length b <= 3 * q)%nat)
  /\ (forallb base64Byte (bytes s) = false -> decodeB64OrRaw s = s)
  /\ ((forall q : nat, List.length (significant (bytes s)) <> (4 * q)%nat) ->
      decodeB64OrRaw s = s).
Proof.
  assert (Hacc : forall b : string,
             base64.DecodeString s = Some b ->
             forallb base64Byte (bytes s) = true
             /\ exists q : nat,
                 List.length (significant (bytes s)) = (4 * q)%nat
                 /\ (String.length b <= 3 * q)%nat).
  { intros b Hdec. unfold base64.DecodeString in Hdec.
    destruct (base64.decodeLoop (bytes s) 0 0 0 0) as [out|] eqn:Hloop;
      [|discriminate].
    cbn [option_map] in Hdec. injection Hdec as <-.
    destruct (decodeLoop_accepts _ 0%nat _ _ _ out ltac:(lia) Hloop)
      as (Hall & q & Hq & Hout).
    split; [exact Hall|]. exists q. rewrite length_str. split; [exact Hq | exact Hout]. }
  split; [exact Hacc|]. split.
  - intros Hbad. unfold decodeB64OrRaw.
    destruct (base64.DecodeString s) as [b|] eqn:Hdec; [|reflexivity].
    destruct (Hacc b eq_refl) as [Hall _]. congruence.
  - intros Hbad. unfold decodeB64OrRaw.
    destruct (base64.DecodeString s) as [b|] eqn:Hdec; [|reflexivity].
    destruct (Hacc b eq_refl) as (_ & q & Hq & _). now apply Hbad in Hq.
Qed.

Lemma X15_decode_accepts_witness :
  decodeB64OrRaw "my-login" = "my-login"
  /\ forallb base64Byte (bytes "aGVsbG8=") = true.
Proof.
  split.
  - apply (proj1 (proj2 (X15_decode_accepts "my-login"))). vm_compute. reflexivity.
  - apply (proj1 (X15_decode_accepts "aGVsbG8=") "hello"). vm_compute. reflexivity.
Defined.

Lemma skipNewlines_insert (l1 l2 : list ascii) (c : ascii) :
  base64.isNewline c = true ->
  base64.skipNewlines (l1 ++ c :: l2) = base64.skipNewlines (l1 ++ l2)
  \/ exists x r,
      base64.skipNewlines (l1 ++ c :: l2) = x :: (r ++ c :: l2)%list
      /\ base64.skipNewlines (l1 ++ l2) = x :: (r ++ l2)%list.
Proof.
  intros Hc. induction l1 as [|y l1 IH].
  - left. cbn [app base64.skipNewlines]. now rewrite Hc.
  - cbn [app base64.skipNewlines]. destruct (base64.isNewline y); [exact IH|].
    right. now exists y, l1.
Qed.

Lemma decodeLoop_insert (l1 l2 : list ascii) (c : ascii) :
  base64.isNewline c = true ->
  forall (j : nat) (d0 d1 d2 : Z),
    base64.decodeLoop (l1 ++ c :: l2) j d0 d1 d2
    = base64.decodeLoop (l1 ++ l2) j d0 d1 d2.
Proof.
  intros Hc. induction l1 as [|y l1 IH]; intros j d0 d1 d2.
  - cbn [app base64.decodeLoop]. cbv zeta.
    now rewrite (newline_outside_alphabet c Hc), Hc.
  - cbn [app base64.decodeLoop]. cbv zeta.
    destruct (negb (base64.decodeMap y =? 0xFF)%Z).
    { destruct j as [|[|[|j]]]; now rewrite IH. }
    destruct (base64.isNewline y); [apply IH|].
    destruct (negb (Ascii.eqb y base64.StdPadding)); [reflexivity|].
    destruct j as [|[|[|j]]]; try reflexivity.
    + destruct (skipNewlines_insert l1 l2 c Hc) as [->|(x & r & -> & ->)];
        [reflexivity|].
      destruct (Ascii.eqb x base64.StdPadding); [|reflexivity].
      destruct (skipNewlines_insert r l2 c Hc) as [->|(x' & r' & -> & ->)];
        reflexivity.
    + destruct (skipNewlines_insert l1 l2 c Hc) as [->|(x & r & -> & ->)];
        reflexivity.
Qed.

(** X16.  A line break is ignored wherever it stands: between two
    characters, inside a group of four, before or after the padding, at
    either end.  Putting a line feed or a carriage return into a string
    changes neither whether [DecodeString] accepts it nor what it decodes
    to; [decodeB64OrRaw] gives the same bytes for both, unless it gives
    back its argument. *)
Theorem X16_line_breaks_ignored (a b : string) (c : ascii) :
  base64.isNewline c = true ->
  base64.DecodeString (a ++ String c b) = base64.DecodeString (a ++ b)
  /\ (forall out : string,
         base64.DecodeString (a ++ b) = Some out ->
         decodeB64OrRaw (a ++ String c b) = out).
Proof.
  intros Hc.
  assert (Heq : base64.DecodeString (a ++ String c b)
                = base64.DecodeString (a ++ b)).
  { unfold base64.DecodeString. rewrite !bytes_append.
    change (bytes (String c b)) with (c :: bytes b).
    now rewrite decodeLoop_insert. }
  split; [exact Heq|].
  intros out Hout. unfold decodeB64OrRaw. now rewrite Heq, Hout.
Qed.

Lemma X16_line_breaks_ignored_witness :
  decodeB64OrRaw ("aGVs" ++ String newline "bG8=") = "hello".
Proof.
  apply (proj2 (X16_line_breaks_ignored "aGVs" "bG8=" newline eq_refl) "hello").
  vm_compute. reflexivity.
Defined.

(* ------------------------------------------------------------------------- *)
(** ** The clipboard, and how a run ends *)
(* ------------------------------------------------------------------------- *)

Lemma copySecret_eq (w : World) (chosen : passwordDetail) :
  CryptedPassword chosen <> "" ->
  copySecret w chosen
  = match detectClipboardCommand w with
    | None =>
      ((decodeWarnings (CryptedPassword chosen)
          ++ [clipboardError noClipboardCommand])%list, Exited 1%Z)
    | Some argv =>
      let text := decodeB64OrRaw (CryptedPassword chosen) in
      match runClipboard w argv text with
      | Some e =>
        ((decodeWarnings (CryptedPassword chosen)
            ++ [Run argv text; clipboardError (foreign e)])%list, Exited 1%Z)
      | None =>
        ((decodeWarnings (CryptedPassword chosen)
            ++ [Run argv text; copied (Name chosen)])%list, Done tt)
      end
    end.
Proof.
  intros Hs. apply String.eqb_neq in Hs.
  unfold copySecret, copyToClipboard, decodeWarnings, decodeB64OrRaw,
    decodeWarning, clipboardError, copied, noClipboardCommand.
  rewrite Hs. cbv zeta.
  destruct (base64.DecodeString (CryptedPassword chosen)) as [decoded|];
    destruct (detectClipboardCommand w) as [argv|];
    unfold bind, ret, emit, os_Exit; cbv beta iota zeta;
    try reflexivity.
  - destruct (runClipboard w argv decoded); reflexivity.
  - destruct (runClipboard w argv (CryptedPassword chosen)); reflexivity.
Qed.

(** X17.  The end of [main] for a record with a secret.  What is handed to
    the clipboard command is [decodeB64OrRaw] of the secret.  Without a
    clipboard command nothing is run and the process exits with status 1
    after the error; when the command fails the process exits with status 1
    after the command's error; only when it succeeds is the message about
    the copy printed, on the standard output, and the process goes on to
    its end.  A warning about the decoding comes first, if there is one. *)
Theorem X17_copySecret_outcomes (w : World) (chosen : passwordDetail) :
  CryptedPassword chosen <> "" ->
  (detectClipboardCommand w = None ->
   copySecret w chosen
   = ((decodeWarnings (CryptedPassword chosen)
         ++ [clipboardError noClipboardCommand])%list, Exited 1%Z))
  /\ (forall (argv : list string) (e : string),
         detectClipboardCommand w = Some argv ->
         runClipboard w argv (decodeB64OrRaw (CryptedPassword chosen)) = Some e ->
         copySecret w chosen
         = ((decodeWarnings (CryptedPassword chosen)
               ++ [Run argv (decodeB64OrRaw (CryptedPassword chosen));
                   clipboardError (foreign e)])%list, Exited 1%Z))
  /\ (forall argv : list string,
         detectClipboardCommand w = Some argv ->
         runClipboard w argv (decodeB64OrRaw (CryptedPassword chosen)) = None ->
         copySecret w chosen
         = ((decodeWarnings (CryptedPassword chosen)
               ++ [Run argv (decodeB64OrRaw (CryptedPassword chosen));
                   copied (Name chosen)])%list, Done tt)).
Proof.
  intros Hs. rewrite (copySecret_eq w chosen Hs). repeat split.
  - now intros ->.
  - intros argv e -> Hrun. cbv zeta. now rewrite Hrun.
  - intros argv -> Hrun. cbv zeta. now rewrite Hrun.
Qed.

Lemma X17_copySecret_outcomes_witness :
  copySecret (linux_world false) raw_secret_record
  = ([decodeWarning; clipboardError noClipboardCommand], Exited 1%Z)
  /\ copySecret sample_world sample_record
     = ([Run ["pbcopy"] "hello"; copied "GitHub"], Done tt).
Proof.
  split.
  - apply (proj1 (X17_copySecret_outcomes (linux_world false) raw_secret_record
                                          ltac:(discriminate))).
    reflexivity.
  - apply (proj2 (proj2 (X17_copySecret_outcomes sample_world sample_record
                                                 ltac:(discriminate)))
                 ["pbcopy"]); reflexivity.
Defined.

Lemma decodeWarnings_onStderr (secret : string) :
  forallb onStderr (decodeWarnings secret) = true.
Proof. unfold decodeWarnings. now destruct (base64.DecodeString secret). Qed.

Lemma copySelected_ending (w : World) (details : list passwordDetail)
      (selected stdin : string) :
  ending w (Run (fzfCommand w) stdin :: fst (copySelected w details selected))
         (snd (copySelected w details selected)).
Proof.
  unfold copySelected.
  destruct (String.eqb selected ""); [apply end_cancelled|]. cbv zeta.
  destruct (findChosen details _) as [chosen|].
  - destruct (String.eqb (CryptedPassword chosen) "") eqn:Hs.
    + apply String.eqb_eq in Hs. rewrite (copySecret_empty w chosen Hs).
      now apply (end_after_selector w stdin []).
    + apply String.eqb_neq in Hs. rewrite (copySecret_eq w chosen Hs).
      pose proof (decodeWarnings_onStderr (CryptedPassword chosen)) as Hwarn.
      destruct (detectClipboardCommand w) as [argv|] eqn:Hclip.
      * cbv zeta.
        destruct (runClipboard w argv (decodeB64OrRaw (CryptedPassword chosen)))
          as [e|] eqn:Hrun; cbn [fst snd].
        -- now apply end_clipboard_failed.
        -- now apply end_copied.
      * cbn [fst snd]. now apply end_after_selector.
  - now apply (end_after_selector w stdin []).
Qed.

(** Every run is a series of requests and skip warnings followed by one of
    the endings. *)
Lemma main_ending `{sort.Sorter} (w : World) :
  exists t tail,
    fst (main w) = (t ++ tail)%list
    /\ forallb isFetchEvent t = true
    /\ ending w tail (snd (main w)).
Proof.
  assert (Hreq : forall t, forallb isRequest t = true ->
                           forallb isFetchEvent t = true).
  { intros t. apply forallb_weaken. now intros [ | | | ]. }
  destruct (main_cases w)
    as [-> | [(t & err & Ht & ->) | [(t & err & Ht & ->)
                                    | (t & token & hits & Ht & Hs)]]].
  - exists [], [Fprintln Stderr
                  "PASSWORK_BASE_URL environment variable is not set"].
    repeat split. apply end_report; [reflexivity | now right].
  - exists t, [Fprintf Stderr "login error: %v\n" [OErr err]].
    repeat split; [now apply Hreq|].
    apply end_report; [reflexivity | now right].
  - exists t, [Fprintf Stderr "search error: %v\n" [OErr err]].
    repeat split; [now apply Hreq|].
    apply end_report; [reflexivity | now right].
  - rewrite (main_searched w t token hits Hs). cbn [fst snd].
    apply Hreq in Ht. unfold afterSearch.
    destruct hits as [|h hits].
    { eexists t, [_]. repeat split; [exact Ht|].
      apply end_report; [reflexivity | now left]. }
    cbv zeta.
    pose proof (fetchTrace_events w (cfg_of w) token (h :: hits) 0) as Hfetch.
    destruct (fetchedDetails w (cfg_of w) token (h :: hits) 0) as [|d ds].
    { cbn [fst snd]. rewrite app_assoc. eexists _, [_].
      split; [reflexivity|]. split.
      - now rewrite forallb_app, Ht, Hfetch.
      - apply end_report; [reflexivity | now left]. }
    destruct (runSelector w (fzfCommand w) (selectorInput (d :: ds)))
      as [e|out]; cbn [fst snd]; rewrite app_assoc;
      eexists _, _; (split; [reflexivity|]);
      (split; [now rewrite forallb_app, Ht, Hfetch|]).
    + now apply (end_after_selector w _ []).
    + apply copySelected_ending.
Qed.

Lemma fetch_events_silent (t : list event) :
  forallb isFetchEvent t = true ->
  existsb onStdout t = false /\ filter isRun t = [].
Proof.
  induction t as [|e t IH]; [now split|].
  cbn [forallb existsb filter]. intros Hall.
  apply andb_prop in Hall as [He Ht]. destruct (IH Ht) as [Hout Hrun].
  destruct e as [| |[|]|]; try discriminate He; cbn [onStdout isRun orb];
    now split.
Qed.

Lemma stderr_events (msgs : list event) :
  forallb onStderr msgs = true ->
  existsb onStdout msgs = false
  /\ filter isRun msgs = []
  /\ forallb (fun e => negb (isRequest e)) msgs = true.
Proof.
  induction msgs as [|e msgs IH]; [now repeat split|].
  cbn [forallb existsb filter]. intros Hall.
  apply andb_prop in Hall as [He Ht]. destruct (IH Ht) as (Hout & Hrun & Hreq).
  destruct e as [|[|]|[|]|]; try discriminate He;
    cbn [onStdout isRun isRequest negb orb andb]; now repeat split.
Qed.

(** X18.  The exit status and the messages of a run, whatever the
    environment, the service, the selector and the clipboard command do.
    The status is 0 or 1.  A run that ends with status 1 ends with a
    message on the error stream.  The process writes to its standard output
    at most once, the message about the copy, as the last thing it does and
    with status 0, and only after the clipboard command it found has run
    and has not failed. *)
Theorem X18_status_and_messages `{sort.Sorter} (w : World) :
  (snd (run w) = 0%Z \/ snd (run w) = 1%Z)
  /\ (snd (run w) = 1%Z ->
      exists t e, fst (run w) = (t ++ [e])%list /\ onStderr e = true)
  /\ (existsb onStdout (fst (run w)) = true ->
      snd (run w) = 0%Z
      /\ exists t argv text name,
          fst (run w) = (t ++ [Run argv text; copied name])%list
          /\ existsb onStdout t = false
          /\ detectClipboardCommand w = Some argv
          /\ runClipboard w argv text = None).
Proof.
  rewrite run_eq. cbn [fst snd].
  destruct (main_ending w) as (t & tail & -> & Ht & Hend).
  apply fetch_events_silent in Ht as [Hout _].
  destruct Hend as [e code He Hcode | stdin | stdin msgs e Hmsgs He
                    | stdin msgs argv text e Hmsgs Hclip Hrun
                    | stdin msgs argv text name Hmsgs Hclip Hrun];
    cbn [exitStatus]; rewrite existsb_app, Hout; cbn [orb existsb onStdout];
    try (apply stderr_events in Hmsgs as (Hmsgs & _ & _));
    try rewrite existsb_app; try rewrite Hmsgs; cbn [orb existsb onStdout].
  - split; [destruct Hcode; subst; tauto|]. split.
    + intros _. now exists t, e.
    + destruct e as [|[|]|[|]|]; discriminate.
  - split; [now left|]. split; discriminate.
  - split; [now right|]. split.
    + intros _. exists (t ++ Run (fzfCommand w) stdin :: msgs)%list, e.
      split; [|exact He]. now rewrite <- app_assoc.
    + destruct e as [|[|]|[|]|]; discriminate.
  - split; [now right|]. split.
    + intros _.
      exists (t ++ Run (fzfCommand w) stdin :: msgs ++ [Run argv text])%list,
             (clipboardError (foreign e)).
      split; [|reflexivity].
      rewrite <- !app_assoc. cbn [app]. now rewrite <- app_assoc.
    + discriminate.
  - split; [now left|]. split; [discriminate|].
    intros _. split; [reflexivity|].
    exists (t ++ Run (fzfCommand w) stdin :: msgs)%list, argv, text, name.
    split; [now rewrite <- app_assoc|].
    split; [|now split].
    rewrite existsb_app, Hout. cbn [orb existsb onStdout]. exact Hmsgs.
Qed.

Lemma X18_status_and_messages_witness :
  (exists t e, fst (@run insertionSorter (linux_world false)) = (t ++ [e])%list
               /\ onStderr e = true)
  /\ snd (@run insertionSorter sample_world) = 0%Z.
Proof.
  split.
  - apply (proj1 (proj2 (@X18_status_and_messages insertionSorter
                                                  (linux_world false)))).
    vm_compute. reflexivity.
  - apply (proj2 (proj2 (@X18_status_and_messages insertionSorter sample_world))).
    vm_compute. reflexivity.
Defined.

(** X19.  The commands of a run.  The process runs no command, or the
    selector alone, or the selector and then the clipboard command that
    [detectClipboardCommand] found: never the clipboard command without the
    selector, and never more than two commands.  All requests to the
    service come before the first command. *)
Theorem X19_commands_of_a_run `{sort.Sorter} (w : World) :
  (filter isRun (fst (run w)) = []
   \/ (exists stdin, filter isRun (fst (run w)) = [Run (fzfCommand w) stdin])
   \/ (exists stdin argv text,
          filter isRun (fst (run w))
          = [Run (fzfCommand w) stdin; Run argv text]
          /\ detectClipboardCommand w = Some argv))
  /\ exists before after,
      fst (run w) = (before ++ after)%list
      /\ filter isRun before = []
      /\ forallb (fun e => negb (isRequest e)) after = true.
Proof.
  rewrite run_eq. cbn [fst].
  destruct (main_ending w) as (t & tail & -> & Ht & Hend).
  apply fetch_events_silent in Ht as [_ Hrun]. split.
  - rewrite filter_app, Hrun. cbn [app].
    destruct Hend as [e code He Hcode | stdin | stdin msgs e Hmsgs He
                      | stdin msgs argv text e Hmsgs Hclip Hrun'
                      | stdin msgs argv text name Hmsgs Hclip Hrun'];
      try (apply stderr_events in Hmsgs as (_ & Hmsgs & _));
      cbn [filter isRun]; try rewrite filter_app; try rewrite Hmsgs;
      cbn [app filter isRun].
    + left. destruct e as [|[|]|[|]|]; try discriminate; reflexivity.
    + right; left. now exists stdin.
    + right; left. exists stdin.
      destruct e as [|[|]|[|]|]; try discriminate; reflexivity.
    + right; right. now exists stdin, argv, text.
    + right; right. now exists stdin, argv, text.
  - exists t, tail. split; [reflexivity|]. split; [exact Hrun|].
    destruct Hend as [e code He Hcode | stdin | stdin msgs e Hmsgs He
                      | stdin msgs argv text e Hmsgs Hclip Hrun'
                      | stdin msgs argv text name Hmsgs Hclip Hrun'];
      try (apply stderr_events in Hmsgs as (_ & _ & Hmsgs));
      cbn [forallb isRequest negb andb]; try rewrite forallb_app;
      try rewrite Hmsgs; cbn [forallb isRequest negb andb]; try reflexivity;
      destruct e as [|[|]|[|]|]; try discriminate; reflexivity.
Qed.

(* ------------------------------------------------------------------------- *)
(** ** The requests of a run, and what the selector is not shown *)
(* ------------------------------------------------------------------------- *)

Lemma login_trace (w : World) (cfg : Config) (t : list event) (token : string) :
  login w cfg = (t, Done (inr token)) -> t = [Request "POST" (loginURL cfg)].
Proof.
  unfold login. fold (loginURL cfg). unfold bind, emit, ret.
  repeat break_match; cbv beta iota zeta; intros Heq; inversion Heq;
    reflexivity.
Qed.

Lemma searchPasswords_trace (w : World) (cfg : Config) (token query : string)
      (t : list event) (hits : list passwordSearchHit.t) :
  searchPasswords w cfg token query = (t, Done (inr hits)) ->
  t = [Request "POST" (searchURL cfg)].
Proof.
  unfold searchPasswords. fold (searchURL cfg). unfold bind, emit, ret.
  repeat break_match; cbv beta iota zeta; intros Heq; inversion Heq;
    reflexivity.
Qed.

Lemma no_request_filter (t : list event) :
  forallb (fun e => negb (isRequest e)) t = true -> filter isRequest t = [].
Proof.
  induction t as [|e t IH]; [reflexivity|].
  cbn [forallb filter]. intros Hall. apply andb_prop in Hall as [He Ht].
  apply negb_true_iff in He. rewrite He. now apply IH.
Qed.

Lemma ending_no_request (w : World) (tail : list event) (o : outcome unit) :
  ending w tail o -> filter isRequest tail = [].
Proof.
  intros Hend. apply no_request_filter.
  destruct Hend as [e code He Hcode | stdin | stdin msgs e Hmsgs He
                    | stdin msgs argv text e Hmsgs Hclip Hrun
                    | stdin msgs argv text name Hmsgs Hclip Hrun];
    try (apply stderr_events in Hmsgs as (_ & _ & Hmsgs));
    cbn [forallb isRequest negb andb]; try rewrite forallb_app;
    try rewrite Hmsgs; cbn [forallb isRequest negb andb]; try reflexivity;
    destruct e as [|[|]|[|]|]; try discriminate; reflexivity.
Qed.

(** X20.  The requests asked for in a run in which login and search go
    through: one POST to the login address, one POST to the search address,
    and one GET per hit, in the order of the hits, to the address of its
    identifier; nothing else, whatever the answers to the GET requests are
    and whatever the selector and the clipboard command do afterwards. *)
Theorem X20_requests_of_a_run `{sort.Sorter} (w : World) (t : list event)
        (token : string) (hits : list passwordSearchHit.t) :
  searched w t token hits ->
  filter isRequest (fst (run w))
  = Request "POST" (loginURL (cfg_of w))
      :: Request "POST" (searchURL (cfg_of w))
      :: map (fun h => Request "GET"
                               (detailURL (cfg_of w) (passwordSearchHit.ID h)))
             hits.
Proof.
  intros Hs. rewrite run_eq. cbn [fst].
  rewrite (main_searched w t token hits Hs). cbn [fst].
  destruct Hs as (_ & t1 & t2 & Hlogin & Hsearch & ->).
  apply login_trace in Hlogin. apply searchPasswords_trace in Hsearch.
  subst t1 t2. cbn [app filter isRequest]. f_equal. f_equal.
  unfold afterSearch. destruct hits as [|h hits]; [reflexivity|]. cbv zeta.
  pose proof (fetchTrace_requests w (cfg_of w) token (h :: hits) 0) as Hfetch.
  destruct (fetchedDetails w (cfg_of w) token (h :: hits) 0) as [|d ds].
  { cbn [fst]. rewrite filter_app, Hfetch. cbn [filter isRequest].
    now rewrite app_nil_r. }
  destruct (runSelector w (fzfCommand w) (selectorInput (d :: ds))) as [e|out];
    cbn [fst]; rewrite filter_app, Hfetch; cbn [filter isRequest].
  - now rewrite app_nil_r.
  - pose proof (copySelected_ending w (formatted (d :: ds))
                                    (strings.TrimSpace out)
                                    (selectorInput (d :: ds))) as Hend.
    apply ending_no_request in Hend. cbn [filter isRequest] in Hend.
    rewrite Hend. now rewrite app_nil_r.
Qed.

Lemma X20_requests_of_a_run_witness :
  filter isRequest (fst (@run insertionSorter sample_world))
  = [Request "POST" "https://pw.example/api/v4/auth/login/k3y";
     Request "POST" "https://pw.example/api/v4/passwords/search";
     Request "GET" "https://pw.example/api/v4/passwords/65f0c1"].
Proof.
  apply (@X20_requests_of_a_run insertionSorter sample_world sample_requests
                                "t0k3n" [passwordSearchHit.mk "65f0c1" "GitHub"]).
  apply searched_world_with.
Defined.

(** X21.  The line shown by the selector is made of the identifier, the
    name, the path, the login, the URL and the custom fields of a record
    and of nothing else: two records that agree on these give the same
    line, whatever their secrets, vaults, tags, colours and attachments
    are.  In particular the secret is not among what the selector is
    given. *)
Theorem X21_line_ignores_the_secret `{sort.Sorter} (p q : passwordDetail) :
  ID p = ID q -> Name p = Name q -> Path p = Path q ->
  Login p = Login q -> URL p = URL q -> Custom p = Custom q ->
  fst (buildFzfLine p) = fst (buildFzfLine q).
Proof.
  intros Hid Hname Hpath Hlogin Hurl Hcustom.
  rewrite !buildFzfLine_line.
  now rewrite Hid, Hname, Hpath, Hlogin, Hurl, Hcustom.
Qed.

Lemma X21_line_ignores_the_secret_witness :
  fst (@buildFzfLine insertionSorter sample_record)
  = fst (@buildFzfLine insertionSorter rotated_record).
Proof.
  apply (@X21_line_ignores_the_secret insertionSorter sample_record
                                      rotated_record); reflexivity.
Defined.
